(** * Trust policy evaluation engine of vagent

    A shallow embedding of [backend/services/trust_service.py] and of the
    records of [backend/models.py] it reads, and of the code around the
    engine (the connection manager, the endpoints of [backend/main.py],
    the offline checks of the identity service, the trust tool of the
    LangChain agents), followed by their properties.

    Layout:
    - [Py]      the fragment of Python the engine runs on: JSON-shaped
                values, ordered dictionaries, exceptions, the operators
                [==], [<=], [in], truthiness, [dict.get], [dict.update];
    - [F64]     binary64 arithmetic for the scores (on [SpecFloat]);
    - [Models]  the records of models.py and the dicts the engine returns;
    - [Trust]   class TrustService, method by method, on values;
    - [Store]   the same methods over a store of dict objects, to speak
                about what a call writes;
    - [Web]     class ConnectionManager of websocket_manager.py;
    - [Messages], [Main]  the messages and the endpoints of main.py;
    - [Identity], [Tools] the mock credential checks and the trust tool;
    - [Samples] agents and policies for the examples;
    - the notions used by the statements, then the lemmas and theorems. *)

From Stdlib Require Import ZArith QArith Qpower String Ascii List Bool Lia.
From Stdlib Require Import Floats.SpecFloat.
From stdpp Require Import base option list gmap.
Import ListNotations.

Set Warnings "-register-all".
Close Scope Q_scope.
Local Open Scope string_scope.
Local Open Scope list_scope.

(* ===================================================================== *)
(** * Python values and operators *)
(* ===================================================================== *)

Module Py.

(** Exceptions the engine can meet.  The text of [str(e)] is a function of
    the exception; the embedding keeps the exception itself. *)
Inductive pyexn := TypeError | ValueError | AttributeError.

Inductive result (A : Type) :=
| Ok (a : A)
| Raise (e : pyexn).
Arguments Ok {A} a.
Arguments Raise {A} e.

(** [do x <- m; k] runs [k] unless [m] raised. *)
Definition bind {A B} (m : result A) (k : A -> result B) : result B :=
  match m with
  | Ok a => k a
  | Raise e => Raise e
  end.

Notation "'do' x <- m ; k" := (bind m (fun x => k))
  (at level 10, x name, m at level 100, k at level 200).

(** Values of type [Any] as they reach the engine: the agents are built
    from JSON request bodies, so a value is None, a bool, an int, a float,
    a str (its UTF-8 bytes), a list, or a dict with str keys.  A dict is
    an association list in insertion order; its keys are pairwise
    distinct.

    A value stands for an object.  Which object it is matters for one
    kind of value only, the float NaN, which is not equal to itself:
    [x in l] and the [==] of two lists or dicts take an element that is
    the same object as the other for an equal one.  [json.loads] returns
    one NaN object, [json.decoder.NaN], for every NaN it reads:
    [VFloat S754_nan] is that object.  [VNan o] is a NaN object made in
    another way (each call of [float("nan")] makes one); [o] tells these
    objects apart.  Assignments, [dict.copy] and [dict.update] hand an
    object on as it is, so a value keeps its identity through the engine. *)
Inductive pyval :=
| VNone
| VBool (b : bool)
| VInt (z : Z)
| VFloat (f : spec_float)
| VNan (o : nat)
| VStr (s : string)
| VList (l : list pyval)
| VDict (d : list (string * pyval)).

Abbreviation dict V := (list (string * V)).

(** ** Ordered dictionaries *)

Fixpoint dict_lookup {V} (k : string) (d : dict V) : option V :=
  match d with
  | [] => None
  | (k', v) :: d' => if String.eqb k k' then Some v else dict_lookup k d'
  end.

(** [d.get(k, dflt)] *)
Definition dict_get {V} (d : dict V) (k : string) (dflt : V) : V :=
  match dict_lookup k d with
  | Some v => v
  | None => dflt
  end.

(** [k in d] *)
Definition dict_mem {V} (k : string) (d : dict V) : bool :=
  match dict_lookup k d with
  | Some _ => true
  | None => false
  end.

(** [d[k] = v]: an existing key keeps its position, a new key goes last. *)
Fixpoint dict_set {V} (k : string) (v : V) (d : dict V) : dict V :=
  match d with
  | [] => [(k, v)]
  | (k', v') :: d' =>
      if String.eqb k k' then (k', v) :: d' else (k', v') :: dict_set k v d'
  end.

(** [d.update(e)] for a mapping [e]. *)
Definition dict_update {V} (d e : dict V) : dict V :=
  fold_left (fun acc kv => dict_set (fst kv) (snd kv) acc) e d.

Definition keys {V} (d : dict V) : list string := map fst d.

(** ** Numbers

    bool, int and float compare by their exact mathematical value
    (CPython compares an int with a float without rounding the int). *)
Inductive xnum :=
| XNan
| XInf (neg : bool)
| XFin (q : Q).

Definition SF2X (f : spec_float) : xnum :=
  match f with
  | S754_zero _ => XFin 0
  | S754_infinity s => XInf s
  | S754_nan => XNan
  | S754_finite s m e => XFin (inject_Z (cond_Zopp s (Zpos m)) * 2 ^ e)%Q
  end.

Definition py_num (v : pyval) : option xnum :=
  match v with
  | VBool b => Some (XFin (if b then 1 else 0))
  | VInt z => Some (XFin (inject_Z z))
  | VFloat f => Some (SF2X f)
  | VNan _ => Some XNan
  | _ => None
  end.

Definition x_le (a b : xnum) : bool :=
  match a, b with
  | XNan, _ | _, XNan => false
  | XInf true, _ => true
  | _, XInf false => true
  | XInf false, _ => false
  | _, XInf true => false
  | XFin p, XFin q => Qle_bool p q
  end.

Definition x_eq (a b : xnum) : bool :=
  match a, b with
  | XFin p, XFin q => Qeq_bool p q
  | XInf s, XInf t => Bool.eqb s t
  | _, _ => false
  end.

(** ** [bool(v)] *)
Definition truthy (v : pyval) : bool :=
  match v with
  | VNone => false
  | VBool b => b
  | VInt z => negb (z =? 0)%Z
  | VFloat (S754_zero _) => false
  | VFloat _ => true
  | VNan _ => true
  | VStr s => negb (String.eqb s "")
  | VList l => negb (Nat.eqb (length l) 0)
  | VDict d => negb (Nat.eqb (length d) 0)
  end.

(** ** [a is b], where [a == b] does not follow from it

    An object of any other kind is equal to itself, and a list or a dict
    is equal to itself by the rule for elements below; so [a is b or
    a == b] differs from [a == b] only when [a] and [b] are one NaN
    object. *)
Definition same_nan (a b : pyval) : bool :=
  match a, b with
  | VFloat S754_nan, VFloat S754_nan => true
  | VNan o, VNan o' => Nat.eqb o o'
  | _, _ => false
  end.

(** ** [a == b]

    Never raises.  A NaN is equal to nothing, itself included.  Two lists
    are equal when they have the same length and their elements are
    pairwise the same object or equal; two dicts are equal when they have
    the same keys with values that are the same object or equal, in any
    order (CPython compares the elements of containers with
    [PyObject_RichCompareBool], which tests identity first). *)
Fixpoint py_eq (a b : pyval) : bool :=
  match a, b with
  | VNone, VNone => true
  | VStr s, VStr t => String.eqb s t
  | VList l, VList m =>
      (fix go (l m : list pyval) : bool :=
         match l, m with
         | [], [] => true
         | x :: l', y :: m' => (same_nan x y || py_eq x y) && go l' m'
         | _, _ => false
         end) l m
  | VDict d, VDict e =>
      Nat.eqb (length d) (length e) &&
      (fix go (d : dict pyval) : bool :=
         match d with
         | [] => true
         | (k, v) :: d' =>
             match dict_lookup k e with
             | Some w => same_nan v w || py_eq v w
             | None => false
             end && go d'
         end) d
  | _, _ =>
      match py_num a, py_num b with
      | Some x, Some y => x_eq x y
      | _, _ => false
      end
  end.

(** [a is b or a == b]: what [in] and the comparisons of containers ask
    of two elements. *)
Definition py_same_or_eq (a b : pyval) : bool := same_nan a b || py_eq a b.

(** ** [a <= b]

    Numbers by value, strings by code point (which is the order of their
    UTF-8 bytes), lists lexicographically (the first pair of elements
    that are neither the same object nor equal decides); anything else is
    a TypeError. *)
Fixpoint py_le (a b : pyval) : result bool :=
  match a, b with
  | VStr s, VStr t => Ok (String.leb s t)
  | VList l, VList m =>
      (fix go (l m : list pyval) : result bool :=
         match l, m with
         | [], _ => Ok true
         | _ :: _, [] => Ok false
         | x :: l', y :: m' => if py_same_or_eq x y then go l' m' else py_le x y
         end) l m
  | _, _ =>
      match py_num a, py_num b with
      | Some x, Some y => Ok (x_le x y)
      | _, _ => Raise TypeError
      end
  end.

(** [lo <= x <= hi]: [x] is evaluated once and the second comparison only
    runs when the first holds. *)
Definition py_between (lo x hi : pyval) : result bool :=
  do b <- py_le lo x;
  if b then py_le x hi else Ok false.

Definition is_substring (s t : string) : bool :=
  match String.index 0 s t with
  | Some _ => true
  | None => false
  end.

(** ** [x in c]

    In a list: [x] is the same object as an element or equal to one.  In
    a str: substring.  In a dict: [x] is a key. *)
Definition py_in (x c : pyval) : result bool :=
  match c with
  | VList l => Ok (existsb (py_same_or_eq x) l)
  | VStr t =>
      match x with
      | VStr s => Ok (is_substring s t)
      | _ => Raise TypeError
      end
  | VDict d =>
      match x with
      | VStr s => Ok (dict_mem s d)
      | VList _ | VDict _ => Raise TypeError
      | _ => Ok false
      end
  | _ => Raise TypeError
  end.

(** [c.get(k, dflt)] on a value that may or may not be a dict. *)
Definition py_get (c : pyval) (k : string) (dflt : pyval) : result pyval :=
  match c with
  | VDict d => Ok (dict_get d k dflt)
  | _ => Raise AttributeError
  end.

(** ** [d.update(other)] for an arbitrary [other]

    A mapping is merged key by key.  Anything else is iterated, and every
    element must itself be a sequence of exactly two items, a key and a
    value.  The attribute set is only ever read at str keys, so a binding
    under a key that is not a str can not be observed, and is not kept. *)

Definition is_continuation (c : ascii) : bool :=
  let n := N_of_ascii c in (128 <=? n)%N && (n <? 192)%N.

(** The code points of a str, each as the str of its own UTF-8 bytes. *)
Fixpoint code_points_aux (s : string) : string * list string :=
  match s with
  | EmptyString => (EmptyString, [])
  | String c s' =>
      let '(pending, cps) := code_points_aux s' in
      if is_continuation c then (String c pending, cps)
      else (EmptyString, String c pending :: cps)
  end.

Definition code_points (s : string) : list string := snd (code_points_aux s).

(** The items of an element of the update sequence. *)
Definition as_sequence (v : pyval) : result (list pyval) :=
  match v with
  | VList l => Ok l
  | VStr s => Ok (map VStr (code_points s))
  | VDict d => Ok (map VStr (keys d))
  | _ => Raise TypeError
  end.

Definition update_pair (acc : dict pyval) (el : pyval) : result (dict pyval) :=
  do items <- as_sequence el;
  match items with
  | [k; v] =>
      match k with
      | VStr s => Ok (dict_set s v acc)
      | VList _ | VDict _ => Raise TypeError
      | _ => Ok acc
      end
  | _ => Raise ValueError
  end.

Fixpoint update_pairs (acc : dict pyval) (els : list pyval) : result (dict pyval) :=
  match els with
  | [] => Ok acc
  | el :: els' => do acc' <- update_pair acc el; update_pairs acc' els'
  end.

Definition py_update (d : dict pyval) (other : pyval) : result (dict pyval) :=
  match other with
  | VDict e => Ok (dict_update d e)
  | VList els => update_pairs d els
  | VStr s => update_pairs d (map VStr (code_points s))
  | _ => Raise TypeError
  end.

End Py.

(* ===================================================================== *)
(** * binary64 scores *)
(* ===================================================================== *)

(** Python floats are IEEE 754 binary64 numbers; [SpecFloat] gives their
    operations on (sign, mantissa, exponent) with round to nearest even. *)
Module F64.

Definition prec : Z := 53.
Definition emax : Z := 1024.

Definition mul : spec_float -> spec_float -> spec_float := SFmul prec emax.
Definition add : spec_float -> spec_float -> spec_float := SFadd prec emax.
Definition div : spec_float -> spec_float -> spec_float := SFdiv prec emax.
Definition ltb : spec_float -> spec_float -> bool := SFltb.
Definition leb : spec_float -> spec_float -> bool := SFleb.

(** [float(n)] for an int [n] *)
Definition of_int (n : Z) : spec_float := binary_normalize prec emax n 0 false.

(** The literals [0.0], [1.0], [0.5] and [0.7] (the double nearest to
    7/10, which is 6305039478318694 / 2^53). *)
Definition zero : spec_float := S754_zero false.
Definition one : spec_float := S754_finite false 4503599627370496 (-52).
Definition half : spec_float := S754_finite false 4503599627370496 (-53).
Definition seven_tenths : spec_float := S754_finite false 6305039478318694 (-53).

(** [a >= b] *)
Definition geb (a b : spec_float) : bool := leb b a.

(** [min(a, b)]: the first argument unless the second is smaller. *)
Definition min (a b : spec_float) : spec_float := if ltb b a then b else a.

(** [sum(xs)]: the int 0, then float additions from left to right.  (From
    CPython 3.12 on, [sum] compensates the rounding errors of the
    additions; the two agree whenever the additions are exact, as they
    are for the scores of this engine.) *)
Definition sum (xs : list spec_float) : spec_float := fold_left add xs (of_int 0).

(** The float [2^(-k)], in normal form (for [k <= 1022]). *)
Definition half_pow (k : nat) : spec_float :=
  S754_finite false 4503599627370496 (-52 - Z.of_nat k).

(** The exact value of a finite float. *)
Definition value (f : spec_float) : option Q :=
  match Py.SF2X f with
  | Py.XFin q => Some q
  | _ => None
  end.

End F64.

(* ===================================================================== *)
(** * models.py *)
(* ===================================================================== *)

Module Models.
Import Py.

(** A reading of the clock ([datetime.utcnow()]), in microseconds;
    [isoformat()] renders a reading one-to-one. *)
Definition datetime := Z.

Inductive AgentStatus := INACTIVE | ACTIVE | SUSPENDED.

Module TrustPolicy.
Record t := {
  id : string;
  name : string;
  description : string;
  rules : dict pyval;
  created_at : datetime
}.
End TrustPolicy.

Module Agent.
Record t := {
  id : string;
  name : string;
  organization : string;
  description : string;
  vlei_credential : option (dict pyval);
  credential_verified : bool;
  verification_details : option (dict pyval);
  trust_policies : list TrustPolicy.t;
  status : AgentStatus;
  created_at : datetime;
  last_active : option datetime;
  metadata : dict pyval
}.
End Agent.

(** The dict a rule evaluation returns.  The keys a branch does not set
    are [None] here.  [reason] holds the fields its f-string prints. *)
Inductive rule_reason :=
| UnknownRuleSkipped (rule_name : string)
| RuleEvaluationError (e : pyexn)
| EsgScore (esg_score : pyval) (meets : bool) (min_score max_score : pyval)
| JurisdictionBlocked (jurisdiction : pyval)
| JurisdictionNotAllowed (jurisdiction : pyval)
| JurisdictionOk (jurisdiction : pyval) (is_preferred : bool)
| OrganizationSize (size : pyval) (is_in : bool)
| SectorBlocked (sector : pyval)
| SectorNotAllowed (sector : pyval)
| SectorAcceptable (sector : pyval).

Module RuleResult.
Record t := {
  passed : bool;
  reason : rule_reason;
  value : option pyval;
  requirement : option pyval;
  preferred : option bool
}.
End RuleResult.

(** The dict a policy evaluation returns; [details] maps rule names to
    rule results, or holds the error. *)
Inductive policy_details :=
| RuleDetails (d : dict RuleResult.t)
| ErrorDetails (e : pyexn).

Module PolicyResult.
Record t := {
  policy_name : string;
  passed : bool;
  details : policy_details;
  score : spec_float
}.
End PolicyResult.

Inductive verification_details :=
| CredentialStatus (source_verified target_verified : bool)
| PolicyEvaluation (policy_results : list PolicyResult.t) (timestamp : datetime).

Module TrustVerificationResult.
Record t := {
  allowed : bool;
  reason : string;
  score : spec_float;
  policies_passed : list string;
  policies_failed : list string;
  verification_details : verification_details
}.
End TrustVerificationResult.

(** What [logger.error] is called with. *)
Inductive log_record :=
| ErrorEvaluatingPolicy (policy_name : string) (e : pyexn).

End Models.

(* ===================================================================== *)
(** * trust_service.py: class TrustService *)
(* ===================================================================== *)

Module Trust.
Import Py Models.

Definition nonempty {A} (l : list A) : bool := negb (Nat.eqb (length l) 0).

(** ** The rules *)

Definition rule_ok (reason : rule_reason) (value requirement : pyval)
    (preferred : option bool) : RuleResult.t :=
  {| RuleResult.passed := true; RuleResult.reason := reason;
     RuleResult.value := Some value; RuleResult.requirement := Some requirement;
     RuleResult.preferred := preferred |}.

Definition rule_failed (reason : rule_reason) (value requirement : pyval) : RuleResult.t :=
  {| RuleResult.passed := false; RuleResult.reason := reason;
     RuleResult.value := Some value; RuleResult.requirement := Some requirement;
     RuleResult.preferred := None |}.

(** [_evaluate_esg_rule] *)
Definition _evaluate_esg_rule (rule_config : pyval) (agent_data : dict pyval)
    : result RuleResult.t :=
  let esg_score := dict_get agent_data "esg_score" (VInt 50) in
  do min_score <- py_get rule_config "min" (VInt 0);
  do max_score <- py_get rule_config "max" (VInt 100);
  do passed <- py_between min_score esg_score max_score;
  Ok {| RuleResult.passed := passed;
        RuleResult.reason := EsgScore esg_score passed min_score max_score;
        RuleResult.value := Some esg_score;
        RuleResult.requirement := Some rule_config;
        RuleResult.preferred := None |}.

(** [_evaluate_jurisdiction_rule] *)
Definition _evaluate_jurisdiction_rule (rule_config : pyval) (agent_data : dict pyval)
    : result RuleResult.t :=
  let agent_jurisdiction := dict_get agent_data "jurisdiction" (VStr "UNKNOWN") in
  do allowed_jurisdictions <- py_get rule_config "allowed" (VList []);
  do blocked_jurisdictions <- py_get rule_config "blocked" (VList []);
  do preferred_jurisdictions <- py_get rule_config "preferred" (VList []);
  do is_blocked <-
    (if truthy blocked_jurisdictions
     then py_in agent_jurisdiction blocked_jurisdictions else Ok false);
  if is_blocked
  then Ok (rule_failed (JurisdictionBlocked agent_jurisdiction)
             agent_jurisdiction rule_config)
  else
    do not_allowed <-
      (if truthy allowed_jurisdictions
       then do b <- py_in agent_jurisdiction allowed_jurisdictions; Ok (negb b)
       else Ok false);
    if not_allowed
    then Ok (rule_failed (JurisdictionNotAllowed agent_jurisdiction)
               agent_jurisdiction rule_config)
    else
      do is_preferred <-
        (if truthy preferred_jurisdictions
         then py_in agent_jurisdiction preferred_jurisdictions else Ok true);
      Ok (rule_ok (JurisdictionOk agent_jurisdiction is_preferred)
            agent_jurisdiction rule_config (Some is_preferred)).

Definition default_sizes : pyval :=
  VList [VStr "small"; VStr "medium"; VStr "large"; VStr "enterprise"].

(** [_evaluate_size_rule] *)
Definition _evaluate_size_rule (rule_config : pyval) (agent_data : dict pyval)
    : result RuleResult.t :=
  let size := dict_get agent_data "organization_size" (VStr "medium") in
  do allowed_sizes <- py_get rule_config "allowed" default_sizes;
  do passed <- py_in size allowed_sizes;
  Ok {| RuleResult.passed := passed;
        RuleResult.reason := OrganizationSize size passed;
        RuleResult.value := Some size;
        RuleResult.requirement := Some rule_config;
        RuleResult.preferred := None |}.

(** [_evaluate_sector_rule] *)
Definition _evaluate_sector_rule (rule_config : pyval) (agent_data : dict pyval)
    : result RuleResult.t :=
  let sector := dict_get agent_data "sector" (VStr "unknown") in
  do allowed_sectors <- py_get rule_config "allowed" (VList []);
  do blocked_sectors <- py_get rule_config "blocked" (VList []);
  do is_blocked <-
    (if truthy blocked_sectors then py_in sector blocked_sectors else Ok false);
  if is_blocked
  then Ok (rule_failed (SectorBlocked sector) sector rule_config)
  else
    do not_allowed <-
      (if truthy allowed_sectors
       then do b <- py_in sector allowed_sectors; Ok (negb b)
       else Ok false);
    if not_allowed
    then Ok (rule_failed (SectorNotAllowed sector) sector rule_config)
    else Ok (rule_ok (SectorAcceptable sector) sector rule_config None).

(** [_evaluate_rule]: the dispatch on the rule name, inside a handler that
    turns any exception into a failed rule. *)
Definition _evaluate_rule (rule_name : string) (rule_config : pyval)
    (agent_data : dict pyval) : RuleResult.t :=
  let body :=
    if String.eqb rule_name "esg_score"
    then _evaluate_esg_rule rule_config agent_data
    else if String.eqb rule_name "jurisdiction"
    then _evaluate_jurisdiction_rule rule_config agent_data
    else if String.eqb rule_name "organization_size"
    then _evaluate_size_rule rule_config agent_data
    else if String.eqb rule_name "sector"
    then _evaluate_sector_rule rule_config agent_data
    else Ok {| RuleResult.passed := true;
               RuleResult.reason := UnknownRuleSkipped rule_name;
               RuleResult.value := None;
               RuleResult.requirement := None;
               RuleResult.preferred := None |} in
  match body with
  | Ok rule_result => rule_result
  | Raise e =>
      {| RuleResult.passed := false;
         RuleResult.reason := RuleEvaluationError e;
         RuleResult.value := None;
         RuleResult.requirement := None;
         RuleResult.preferred := None |}
  end.

(** ** Attribute resolution *)

Definition defaults : dict pyval :=
  [ ("esg_score", VInt 75);
    ("jurisdiction", VStr "EU");
    ("organization_size", VStr "medium");
    ("sector", VStr "technology") ].

(** The closing loop of [_extract_agent_data]. *)
Definition add_defaults (agent_data : dict pyval) : dict pyval :=
  fold_left
    (fun agent_data kv =>
       if dict_mem (fst kv) agent_data then agent_data
       else dict_set (fst kv) (snd kv) agent_data)
    defaults agent_data.

(** [_extract_agent_data] *)
Definition _extract_agent_data (agent : Agent.t) : result (dict pyval) :=
  let agent_data :=
    if nonempty (Agent.metadata agent) then Agent.metadata agent else [] in
  let agent_data :=
    match Agent.verification_details agent with
    | Some vd => if nonempty vd then dict_update agent_data vd else agent_data
    | None => agent_data
    end in
  do agent_data <-
    match Agent.vlei_credential agent with
    | Some credential =>
        if nonempty credential
        then py_update agent_data (dict_get credential "credentialSubject" (VDict []))
        else Ok agent_data
    | None => Ok agent_data
    end;
  Ok (add_defaults agent_data).

(** ** Policies *)

(** One turn of the loop over [rules.items()]. *)
Definition rule_step (agent_data : dict pyval) (policy_result : PolicyResult.t)
    (item : string * pyval) : PolicyResult.t :=
  let rule_result := _evaluate_rule (fst item) (snd item) agent_data in
  let details :=
    match PolicyResult.details policy_result with
    | RuleDetails d => RuleDetails (dict_set (fst item) rule_result d)
    | ErrorDetails e => ErrorDetails e
    end in
  if RuleResult.passed rule_result
  then {| PolicyResult.policy_name := PolicyResult.policy_name policy_result;
          PolicyResult.passed := PolicyResult.passed policy_result;
          PolicyResult.details := details;
          PolicyResult.score := PolicyResult.score policy_result |}
  else {| PolicyResult.policy_name := PolicyResult.policy_name policy_result;
          PolicyResult.passed := false;
          PolicyResult.details := details;
          PolicyResult.score := F64.mul (PolicyResult.score policy_result) F64.half |}.

(** [_evaluate_policy] once the attributes are resolved. *)
Definition evaluate_rules (policy : TrustPolicy.t) (agent_data : dict pyval)
    : PolicyResult.t :=
  fold_left (rule_step agent_data) (TrustPolicy.rules policy)
    {| PolicyResult.policy_name := TrustPolicy.name policy;
       PolicyResult.passed := true;
       PolicyResult.details := RuleDetails [];
       PolicyResult.score := F64.one |}.

(** [_evaluate_policy] on the outcome of the attribute resolution, with
    what it logs. *)
Definition evaluate_policy_on (policy : TrustPolicy.t)
    (resolved : result (dict pyval)) : PolicyResult.t * list log_record :=
  match resolved with
  | Ok agent_data => (evaluate_rules policy agent_data, [])
  | Raise e =>
      ({| PolicyResult.policy_name := TrustPolicy.name policy;
          PolicyResult.passed := false;
          PolicyResult.details := ErrorDetails e;
          PolicyResult.score := F64.zero |},
       [ErrorEvaluatingPolicy (TrustPolicy.name policy) e])
  end.

(** [_evaluate_policy] *)
Definition _evaluate_policy (policy : TrustPolicy.t) (target_agent : Agent.t)
    : PolicyResult.t * list log_record :=
  evaluate_policy_on policy (_extract_agent_data target_agent).

(** [_calculate_trust_score] *)
Definition _calculate_trust_score (policy_results : list PolicyResult.t) : spec_float :=
  if nonempty policy_results
  then
    let total_score := F64.sum (map PolicyResult.score policy_results) in
    F64.min (F64.div total_score (F64.of_int (Z.of_nat (length policy_results)))) F64.one
  else F64.zero.

(** [_load_default_policies] *)
Definition _load_default_policies (now now' : datetime) : list TrustPolicy.t :=
  [ {| TrustPolicy.id := "default-esg";
       TrustPolicy.name := "ESG Compliance";
       TrustPolicy.description := "Minimum ESG score requirement";
       TrustPolicy.rules := [("esg_score", VDict [("min", VInt 60)])];
       TrustPolicy.created_at := now |};
    {| TrustPolicy.id := "default-jurisdiction";
       TrustPolicy.name := "Jurisdiction Trust";
       TrustPolicy.description := "Acceptable jurisdictions for business";
       TrustPolicy.rules :=
         [("jurisdiction",
           VDict [("preferred",
                   VList [VStr "EU"; VStr "US"; VStr "CA"; VStr "UK"; VStr "AU"]);
                  ("blocked", VList [VStr "SANCTIONED"])])];
       TrustPolicy.created_at := now' |} ].

(** The instance: [__init__] stores the default policies.  [now] and
    [now'] are the readings of the clock that stamp the two policies. *)
Record TrustService := { default_policies : list TrustPolicy.t }.

Definition __init__ (now now' : datetime) : TrustService :=
  {| default_policies := _load_default_policies now now' |}.

(** The local lists of [verify_trust], and the log. *)
Record loop_state := {
  policy_results : list PolicyResult.t;
  policies_passed : list string;
  policies_failed : list string;
  log : list log_record
}.

(** What one turn of the loop over [policies_to_check] does with the
    result of the policy. *)
Definition record_result (st : loop_state) (policy : TrustPolicy.t)
    (evaluated : PolicyResult.t * list log_record) : loop_state :=
  let '(result, logged) := evaluated in
  {| policy_results := policy_results st ++ [result];
     policies_passed :=
       if PolicyResult.passed result
       then policies_passed st ++ [TrustPolicy.name policy]
       else policies_passed st;
     policies_failed :=
       if PolicyResult.passed result
       then policies_failed st
       else policies_failed st ++ [TrustPolicy.name policy];
     log := log st ++ logged |}.

Definition policy_step (target_agent : Agent.t) (st : loop_state)
    (policy : TrustPolicy.t) : loop_state :=
  record_result st policy (_evaluate_policy policy target_agent).

Definition policies_to_check (self : TrustService) (source_agent : Agent.t)
    : list TrustPolicy.t :=
  if nonempty (Agent.trust_policies source_agent)
  then Agent.trust_policies source_agent
  else default_policies self.

Definition no_results : loop_state :=
  {| policy_results := []; policies_passed := []; policies_failed := []; log := [] |}.

(** The early return of [verify_trust]. *)
Definition lacks_credentials (source_verified target_verified : bool)
    : TrustVerificationResult.t :=
  {| TrustVerificationResult.allowed := false;
     TrustVerificationResult.reason :=
       "One or both agents lack verified vLEI credentials";
     TrustVerificationResult.score := F64.zero;
     TrustVerificationResult.policies_passed := [];
     TrustVerificationResult.policies_failed := ["credential_verification"];
     TrustVerificationResult.verification_details :=
       CredentialStatus source_verified target_verified |}.

(** The end of [verify_trust], after the loop.  [now] is what
    [datetime.utcnow()] returns when the result is built. *)
Definition conclude (now : datetime) (st : loop_state)
    : TrustVerificationResult.t * list log_record :=
  let trust_score := _calculate_trust_score (policy_results st) in
  let allowed :=
    F64.geb trust_score F64.seven_tenths
    && Nat.eqb (length (policies_failed st)) 0 in
  let reason :=
    if allowed then "Trust verification passed"
    else String.append "Failed policies: "
                       (String.concat ", " (policies_failed st)) in
  ({| TrustVerificationResult.allowed := allowed;
      TrustVerificationResult.reason := reason;
      TrustVerificationResult.score := trust_score;
      TrustVerificationResult.policies_passed := policies_passed st;
      TrustVerificationResult.policies_failed := policies_failed st;
      TrustVerificationResult.verification_details :=
        PolicyEvaluation (policy_results st) now |},
   log st).

(** [verify_trust].  The second component is what the call logs.  (The
    outer handler of the method is not reached: every helper returns.) *)
Definition verify_trust (self : TrustService) (now : datetime)
    (source_agent target_agent : Agent.t)
    : TrustVerificationResult.t * list log_record :=
  if negb (Agent.credential_verified source_agent)
     || negb (Agent.credential_verified target_agent)
  then
    (lacks_credentials (Agent.credential_verified source_agent)
                       (Agent.credential_verified target_agent), [])
  else
    conclude now
      (fold_left (policy_step target_agent)
         (policies_to_check self source_agent) no_results).

End Trust.


(* ===================================================================== *)
(** * The engine over a store of dict objects *)
(* ===================================================================== *)

(** In Python the dict attributes of an agent are references to objects
    that the caller keeps.  Here the store maps locations to the contents
    of dict objects, an agent holds locations, and a method takes a store
    and returns the store it leaves.  The dicts the engine writes to are
    [agent_data] (built by [_extract_agent_data]) and its own results;
    the results are values here, [agent_data] is an object of the store. *)
Module Store.
Import Py Models Trust.

Definition loc := positive.
Abbreviation store := (gmap loc (dict pyval)).

(** An agent object: [scalars] holds its attributes other than the three
    dicts, which are found at the given locations ([None] for an attribute
    that is None). *)
Record agent_object := {
  scalars : Agent.t;
  metadata_at : loc;
  verification_details_at : option loc;
  vlei_credential_at : option loc
}.

(** The content of the object at [l] (no object: no entry). *)
Definition content (σ : store) (l : loc) : dict pyval :=
  match σ !! l with
  | Some d => d
  | None => []
  end.

Definition deref (σ : store) (at_ : option loc) : option (option (dict pyval)) :=
  match at_ with
  | None => Some None
  | Some l =>
      match σ !! l with
      | Some d => Some (Some d)
      | None => None
      end
  end.

(** The agent an agent object stands for in store [σ], when its
    locations are allocated. *)
Definition read (σ : store) (agent : agent_object) : option Agent.t :=
  match σ !! metadata_at agent,
        deref σ (verification_details_at agent),
        deref σ (vlei_credential_at agent) with
  | Some metadata, Some verification_details, Some vlei_credential =>
      let a := scalars agent in
      Some {| Agent.id := Agent.id a; Agent.name := Agent.name a;
              Agent.organization := Agent.organization a;
              Agent.description := Agent.description a;
              Agent.vlei_credential := vlei_credential;
              Agent.credential_verified := Agent.credential_verified a;
              Agent.verification_details := verification_details;
              Agent.trust_policies := Agent.trust_policies a;
              Agent.status := Agent.status a;
              Agent.created_at := Agent.created_at a;
              Agent.last_active := Agent.last_active a;
              Agent.metadata := metadata |}
  | _, _, _ => None
  end.

(** A new dict object. *)
Definition alloc (d : dict pyval) (σ : store) : store * loc :=
  let l := fresh (dom σ) in (<[l := d]> σ, l).

(** [_extract_agent_data]: [agent_data] is a new object, a copy of the
    metadata or an empty dict; the two [update]s and the loop over the
    defaults write to it in place.  It returns the location of
    [agent_data].  (When the last [update] raises, [agent_data] is
    dropped; what had been written to it by then is not kept here.) *)
Definition _extract_agent_data (agent : agent_object) (σ : store)
    : store * result loc :=
  let metadata := content σ (metadata_at agent) in
  let '(σ, agent_data) := alloc (if nonempty metadata then metadata else []) σ in
  let σ :=
    match verification_details_at agent with
    | Some l =>
        let vd := content σ l in
        if nonempty vd
        then <[agent_data := dict_update (content σ agent_data) vd]> σ
        else σ
    | None => σ
    end in
  let updated :=
    match vlei_credential_at agent with
    | Some l =>
        let credential := content σ l in
        if nonempty credential
        then py_update (content σ agent_data)
               (dict_get credential "credentialSubject" (VDict []))
        else Ok (content σ agent_data)
    | None => Ok (content σ agent_data)
    end in
  match updated with
  | Ok d => (<[agent_data := add_defaults d]> σ, Ok agent_data)
  | Raise e => (σ, Raise e)
  end.

(** [_evaluate_policy] *)
Definition _evaluate_policy (policy : TrustPolicy.t) (target_agent : agent_object)
    (σ : store) : store * (PolicyResult.t * list log_record) :=
  let '(σ, agent_data) := _extract_agent_data target_agent σ in
  (σ, evaluate_policy_on policy
        match agent_data with
        | Ok l => Ok (content σ l)
        | Raise e => Raise e
        end).

Definition policy_step (target_agent : agent_object) (acc : store * loop_state)
    (policy : TrustPolicy.t) : store * loop_state :=
  let '(σ, st) := acc in
  let '(σ, evaluated) := _evaluate_policy policy target_agent σ in
  (σ, record_result st policy evaluated).

(** [verify_trust] *)
Definition verify_trust (self : TrustService) (now : datetime)
    (source_agent target_agent : agent_object) (σ : store)
    : store * (TrustVerificationResult.t * list log_record) :=
  let source_verified := Agent.credential_verified (scalars source_agent) in
  let target_verified := Agent.credential_verified (scalars target_agent) in
  if negb source_verified || negb target_verified
  then (σ, (lacks_credentials source_verified target_verified, []))
  else
    let '(σ, st) :=
      fold_left (policy_step target_agent)
        (policies_to_check self (scalars source_agent)) (σ, no_results) in
    (σ, conclude now st).

End Store.

(* ===================================================================== *)
(** * websocket_manager.py: class ConnectionManager *)
(* ===================================================================== *)

From Stdlib Require Import DecimalString.

Module Web.
Import Py Models.

(** A WebSocket object, by its identity. *)
Definition websocket := nat.

(** A value handed to [json.dumps]: a JSON value or a datetime object. *)
Inductive field :=
| Plain (v : pyval)
| Datetime (t : datetime).

(** A text sent over a socket: a str as it is, or the text that
    [json.dumps] returns for a dict of JSON values. *)
Inductive text :=
| Raw (s : string)
| JsonOf (d : dict pyval).

(** What a call does to the outside: texts that sockets took, errors that
    were logged. *)
Inductive event :=
| Sent (ws : websocket) (t : text)
| ErrorSending (agent_id : string)
| ErrorBroadcasting (connection_id : string).

(** [str(n)] for a length [n]. *)
Definition str_nat (n : nat) : string :=
  DecimalString.NilEmpty.string_of_uint (Nat.to_uint n).

(** [del d[k]]; every [del] of the class is guarded by a test that the
    key is there. *)
Fixpoint dict_del {V} (k : string) (d : dict V) : dict V :=
  match d with
  | [] => []
  | (k', v) :: d' => if String.eqb k k' then d' else (k', v) :: dict_del k d'
  end.

(** [json.dumps(message)]: a datetime is not JSON serializable. *)
Fixpoint plain_fields (message : dict field) : option (dict pyval) :=
  match message with
  | [] => Some []
  | (k, Plain v) :: rest =>
      match plain_fields rest with
      | Some d => Some ((k, v) :: d)
      | None => None
      end
  | (k, Datetime _) :: rest => None
  end.

Definition json_dumps (message : dict field) : result text :=
  match plain_fields message with
  | Some d => Ok (JsonOf d)
  | None => Raise TypeError
  end.

Module ConnectionManager.
Record t := {
  active_connections : dict websocket;
  agent_connections : dict string
}.
End ConnectionManager.

Definition __init__ : ConnectionManager.t :=
  {| ConnectionManager.active_connections := [];
     ConnectionManager.agent_connections := [] |}.

(** [connect], once [websocket.accept()] has returned. *)
Definition connect (ws : websocket) (agent_id : string) (self : ConnectionManager.t)
    : ConnectionManager.t :=
  let connection_id :=
    String.append "conn_"
      (str_nat (length (ConnectionManager.active_connections self))) in
  {| ConnectionManager.active_connections :=
       dict_set connection_id ws (ConnectionManager.active_connections self);
     ConnectionManager.agent_connections :=
       dict_set agent_id connection_id (ConnectionManager.agent_connections self) |}.

(** [disconnect]: the websocket argument is not used. *)
Definition disconnect (ws : websocket) (agent_id : string) (self : ConnectionManager.t)
    : ConnectionManager.t :=
  match dict_lookup agent_id (ConnectionManager.agent_connections self) with
  | Some connection_id =>
      if negb (String.eqb connection_id "")
         && dict_mem connection_id (ConnectionManager.active_connections self)
      then
        {| ConnectionManager.active_connections :=
             dict_del connection_id (ConnectionManager.active_connections self);
           ConnectionManager.agent_connections :=
             dict_del agent_id (ConnectionManager.agent_connections self) |}
      else self
  | None => self
  end.

(** [send_personal_message]; [sends ws] tells whether [ws.send_text]
    returns (or raises) at this call. *)
Definition send_personal_message (sends : websocket -> bool) (message : string)
    (agent_id : string) (self : ConnectionManager.t)
    : ConnectionManager.t * list event :=
  match dict_lookup agent_id (ConnectionManager.agent_connections self) with
  | Some connection_id =>
      if negb (String.eqb connection_id "")
      then
        match dict_lookup connection_id (ConnectionManager.active_connections self) with
        | Some ws =>
            if sends ws then (self, [Sent ws (Raw message)])
            else (disconnect ws agent_id self, [ErrorSending agent_id])
        | None => (self, [])
        end
      else (self, [])
  | None => (self, [])
  end.

(** The first loop of [broadcast_message]: the events, and the
    connections whose send raised. *)
Fixpoint broadcast_sends (sends : websocket -> bool) (message_text : text)
    (connections : dict websocket) : list event * list string :=
  match connections with
  | [] => ([], [])
  | (connection_id, ws) :: rest =>
      let '(events, disconnected) := broadcast_sends sends message_text rest in
      if sends ws then (Sent ws message_text :: events, disconnected)
      else (ErrorBroadcasting connection_id :: events, connection_id :: disconnected)
  end.

(** The agent the inner loop finds for a connection: the first one
    mapped to it. *)
Fixpoint agent_of (connection_id : string) (agents : dict string) : option string :=
  match agents with
  | [] => None
  | (aid, cid) :: rest =>
      if String.eqb cid connection_id then Some aid else agent_of connection_id rest
  end.

(** One turn of the cleanup loop of [broadcast_message]. *)
Definition forget (self : ConnectionManager.t) (connection_id : string)
    : ConnectionManager.t :=
  if dict_mem connection_id (ConnectionManager.active_connections self)
  then
    {| ConnectionManager.active_connections :=
         dict_del connection_id (ConnectionManager.active_connections self);
       ConnectionManager.agent_connections :=
         match agent_of connection_id (ConnectionManager.agent_connections self) with
         | Some agent_id =>
             if negb (String.eqb agent_id "")
             then dict_del agent_id (ConnectionManager.agent_connections self)
             else ConnectionManager.agent_connections self
         | None => ConnectionManager.agent_connections self
         end |}
  else self.

(** [broadcast_message] *)
Definition broadcast_message (sends : websocket -> bool) (message : dict field)
    (self : ConnectionManager.t) : result (ConnectionManager.t * list event) :=
  do message_text <- json_dumps message;
  let '(events, disconnected_connections) :=
    broadcast_sends sends message_text (ConnectionManager.active_connections self) in
  Ok (fold_left forget disconnected_connections self, events).

(** [get_connected_agents] *)
Definition get_connected_agents (self : ConnectionManager.t) : list string :=
  keys (ConnectionManager.agent_connections self).

End Web.

(* ===================================================================== *)
(** * models.py: messages *)
(* ===================================================================== *)

Module Messages.
Import Py Models.

Inductive MessageType :=
| TEXT
| CREDENTIAL_REQUEST
| CREDENTIAL_RESPONSE
| POLICY_CHECK
| AI_RESPONSE.

(** The str value of a member. *)
Definition value_of (m : MessageType) : string :=
  match m with
  | TEXT => "text"
  | CREDENTIAL_REQUEST => "credential_request"
  | CREDENTIAL_RESPONSE => "credential_response"
  | POLICY_CHECK => "policy_check"
  | AI_RESPONSE => "ai_response"
  end.

(** The member a value validates to, if any. *)
Definition member_of (v : pyval) : option MessageType :=
  match v with
  | VStr s =>
      if String.eqb s "text" then Some TEXT
      else if String.eqb s "credential_request" then Some CREDENTIAL_REQUEST
      else if String.eqb s "credential_response" then Some CREDENTIAL_RESPONSE
      else if String.eqb s "policy_check" then Some POLICY_CHECK
      else if String.eqb s "ai_response" then Some AI_RESPONSE
      else None
  | _ => None
  end.

Module AgentMessage.
Record t := {
  id : string;
  from_agent_id : string;
  to_agent_id : string;
  content : string;
  message_type : MessageType;
  timestamp : datetime;
  trust_verified : bool;
  ai_processed : bool;
  metadata : dict pyval
}.
End AgentMessage.

(** [message.dict()]: the fields as Python objects; the timestamp is a
    datetime object, the message type a str-valued enum member. *)
Definition dict_of (m : AgentMessage.t) : dict Web.field :=
  [ ("id", Web.Plain (VStr (AgentMessage.id m)));
    ("from_agent_id", Web.Plain (VStr (AgentMessage.from_agent_id m)));
    ("to_agent_id", Web.Plain (VStr (AgentMessage.to_agent_id m)));
    ("content", Web.Plain (VStr (AgentMessage.content m)));
    ("message_type", Web.Plain (VStr (value_of (AgentMessage.message_type m))));
    ("timestamp", Web.Datetime (AgentMessage.timestamp m));
    ("trust_verified", Web.Plain (VBool (AgentMessage.trust_verified m)));
    ("ai_processed", Web.Plain (VBool (AgentMessage.ai_processed m)));
    ("metadata", Web.Plain (VDict (AgentMessage.metadata m))) ].

End Messages.

(* ===================================================================== *)
(** * main.py: the endpoints around the trust service *)
(* ===================================================================== *)

Module Main.
Import Py Models Trust Messages.

(** Exceptions of the application layer.  The detail of an HTTPException
    is a text, or [str(e)] of the exception [e] it reports. *)
Inductive exn :=
| HTTPException (status_code : nat) (detail : detail)
| KeyError (key : pyval)
| UnhashableKey
| ValidationError
| NotJSONSerializable
with detail :=
| Literal (s : string)
| StrOf (e : exn).

Inductive response (A : Type) :=
| Return (a : A)
| Raises (e : exn).
Arguments Return {A} a.
Arguments Raises {A} e.

Module TrustLog.
Record t := {
  id : string;
  timestamp : datetime;
  source_agent_id : string;
  target_agent_id : string;
  trust_result : TrustVerificationResult.t;
  policies_applied : list TrustPolicy.t
}.
End TrustLog.

(** The module-level stores and the connection manager. *)
Record state := {
  agents_db : dict Agent.t;
  messages_db : list AgentMessage.t;
  trust_logs_db : list TrustLog.t;
  manager : Web.ConnectionManager.t
}.

(** What a call logs and what it sends over sockets. *)
Inductive effect :=
| ServiceLog (r : log_record)
| ErrorVerifyingTrust (e : exn)
| ErrorSendingMessage (e : exn)
| Socket (e : Web.event).

Definition with_trust_logs (st : state) (logs : list TrustLog.t) : state :=
  {| agents_db := agents_db st; messages_db := messages_db st;
     trust_logs_db := logs; manager := manager st |}.

Definition with_messages (st : state) (messages : list AgentMessage.t) : state :=
  {| agents_db := agents_db st; messages_db := messages;
     trust_logs_db := trust_logs_db st; manager := manager st |}.


Definition with_manager (st : state) (m : Web.ConnectionManager.t) : state :=
  {| agents_db := agents_db st; messages_db := messages_db st;
     trust_logs_db := trust_logs_db st; manager := m |}.

(** The endpoint [verify_trust] (POST /api/trust/verify).  [uuid] is the
    id that [uuid.uuid4()] draws for the log entry, [now] the clock reading
    inside the trust service and [now'] the one of the log entry.  The 404
    is raised inside the try block, whose handler catches every Exception
    and raises a 400 with [str(e)] as detail. *)
Definition verify_trust (trust_service : TrustService) (uuid : string)
    (now now' : datetime) (source_agent_id target_agent_id : string) (st : state)
    : state * response TrustVerificationResult.t * list effect :=
  match dict_lookup source_agent_id (agents_db st),
        dict_lookup target_agent_id (agents_db st) with
  | Some source_agent, Some target_agent =>
      let '(trust_result, logged) :=
        Trust.verify_trust trust_service now source_agent target_agent in
      let trust_log :=
        {| TrustLog.id := uuid;
           TrustLog.timestamp := now';
           TrustLog.source_agent_id := source_agent_id;
           TrustLog.target_agent_id := target_agent_id;
           TrustLog.trust_result := trust_result;
           TrustLog.policies_applied := Agent.trust_policies source_agent |} in
      (with_trust_logs st (trust_logs_db st ++ [trust_log]),
       Return trust_result,
       map ServiceLog logged)
  | _, _ =>
      let e := HTTPException 404 (Literal "Agent not found") in
      (st, Raises (HTTPException 400 (StrOf e)), [ErrorVerifyingTrust e])
  end.



(** [message_data[key]] *)
Definition item (message_data : dict pyval) (key : string) : response pyval :=
  match dict_lookup key message_data with
  | Some v => Return v
  | None => Raises (KeyError (VStr key))
  end.

(** [agents_db[v]] for a value [v] of the request body. *)
Definition agent_item (agents : dict Agent.t) (v : pyval) : response (string * Agent.t) :=
  match v with
  | VStr s =>
      match dict_lookup s agents with
      | Some agent => Return (s, agent)
      | None => Raises (KeyError v)
      end
  | VList _ | VDict _ => Raises UnhashableKey
  | _ => Raises (KeyError v)
  end.

(** What [send_message] takes from outside: the ids and clock readings
    it draws, pydantic's validation of a str field ([None]: rejected), the
    answer of the AI service, and which sockets take a text. *)
Record environment := {
  uuid : string;
  trust_clock : datetime;
  message_clock : datetime;
  validate_str : pyval -> option string;
  process_message : AgentMessage.t -> dict Agent.t -> response (option AgentMessage.t);
  sends : Web.websocket -> bool
}.

(** The body of [send_message] after the trust check: the message is
    built and stored, processed by the AI service when asked for, then
    broadcast as [message.dict()]. *)
Definition deliver (env : environment) (message_data : dict pyval)
    (from_agent_id to_agent_id : string) (st : state)
    : state * response string * list effect :=
  match item message_data "content" with
  | Raises e => (st, Raises e, [])
  | Return content_value =>
      match validate_str env content_value,
            member_of (dict_get message_data "message_type" (VStr "text")) with
      | Some content, Some message_type =>
          let message :=
            {| AgentMessage.id := uuid env;
               AgentMessage.from_agent_id := from_agent_id;
               AgentMessage.to_agent_id := to_agent_id;
               AgentMessage.content := content;
               AgentMessage.message_type := message_type;
               AgentMessage.timestamp := message_clock env;
               AgentMessage.trust_verified := false;
               AgentMessage.ai_processed := false;
               AgentMessage.metadata := [] |} in
          let st := with_messages st (messages_db st ++ [message]) in
          let processed :=
            if truthy (dict_get message_data "ai_process" (VBool false))
            then
              match process_message env message (agents_db st) with
              | Return (Some ai_response) =>
                  Return (with_messages st (messages_db st ++ [ai_response]))
              | Return None => Return st
              | Raises e => Raises e
              end
            else Return st in
          match processed with
          | Raises e => (st, Raises e, [])
          | Return st =>
              match Web.broadcast_message (sends env) (dict_of message) (manager st) with
              | Raise _ => (st, Raises NotJSONSerializable, [])
              | Ok (m, events) =>
                  (with_manager st m, Return (AgentMessage.id message),
                   map Socket events)
              end
          end
      | _, _ => (st, Raises ValidationError, [])
      end
  end.

(** The endpoint [send_message] (POST /api/messages): everything runs in
    a try block whose handler turns every exception into a 400. *)
Definition send_message (trust_service : TrustService) (env : environment)
    (message_data : dict pyval) (st : state)
    : state * response string * list effect :=
  let body : state * response string * list effect :=
    match item message_data "from_agent_id" with
    | Raises e => (st, Raises e, [])
    | Return from_value =>
        match agent_item (agents_db st) from_value with
        | Raises e => (st, Raises e, [])
        | Return (from_agent_id, from_agent) =>
            match item message_data "to_agent_id" with
            | Raises e => (st, Raises e, [])
            | Return to_value =>
                match agent_item (agents_db st) to_value with
                | Raises e => (st, Raises e, [])
                | Return (to_agent_id, to_agent) =>
                    let '(trust_result, logged) :=
                      Trust.verify_trust trust_service (trust_clock env)
                        from_agent to_agent in
                    if negb (TrustVerificationResult.allowed trust_result)
                    then
                      (st,
                       Raises (HTTPException 403
                                 (Literal (String.append "Communication blocked: "
                                             (TrustVerificationResult.reason trust_result)))),
                       map ServiceLog logged)
                    else
                      let '(st', r, effects) :=
                        deliver env message_data from_agent_id to_agent_id st in
                      (st', r, map ServiceLog logged ++ effects)
                end
            end
        end
    end in
  match body with
  | (st', Return r, effects) => (st', Return r, effects)
  | (st', Raises e, effects) =>
      (st', Raises (HTTPException 400 (StrOf e)), effects ++ [ErrorSendingMessage e])
  end.

End Main.

(* ===================================================================== *)
(** * identity_service.py: the checks that need no network *)
(* ===================================================================== *)

Module Identity.
Import Py Models.

Module CredentialVerification.
Record t := {
  credential_id : string;
  is_valid : bool;
  verification_date : datetime;
  issuer : string;
  subject : string;
  details : dict pyval;
  gleif_response : option (dict pyval)
}.
End CredentialVerification.

Inductive exn :=
| AttributeError
| ValidationError.

Inductive outcome (A : Type) :=
| Returns (a : A)
| Fails (e : exn).
Arguments Returns {A} a.
Arguments Fails {A} e.

(** What [_mock_credential_verification] takes from outside: the text of
    [datetime.utcnow().isoformat()], the text of
    [f"mock-{datetime.utcnow().timestamp()}"], the reading of the clock
    for verification_date, and pydantic's validation of a str field
    ([None]: rejected). *)
Record environment := {
  isoformat_now : string;
  mock_id : string;
  verification_clock : datetime;
  validate_str : pyval -> option string
}.

(** [v.get("id", dflt)] on the credentialSubject entry [v]. *)
Definition subject_id (v : pyval) (dflt : string) : outcome pyval :=
  match v with
  | VDict d => Returns (dict_get d "id" (VStr dflt))
  | _ => Fails AttributeError
  end.

(** [_mock_credential_verification] *)
Definition _mock_credential_verification (env : environment) (credential : dict pyval)
    : outcome CredentialVerification.t :=
  let is_valid := true in
  let verification_details :=
    [ ("mock", VBool true);
      ("verification_method", VStr "development_mode");
      ("timestamp", VStr (isoformat_now env)) ] in
  let '(is_valid, verification_details) :=
    if negb (truthy (dict_get credential "credentialSubject" VNone))
    then (false, dict_set "error" (VStr "Missing credentialSubject") verification_details)
    else (is_valid, verification_details) in
  let '(is_valid, verification_details) :=
    if negb (truthy (dict_get credential "issuer" VNone))
    then (false, dict_set "error" (VStr "Missing issuer") verification_details)
    else (is_valid, verification_details) in
  let credential_id := dict_get credential "id" (VStr (mock_id env)) in
  let issuer := dict_get credential "issuer" (VStr "mock-issuer") in
  match subject_id (dict_get credential "credentialSubject" (VDict [])) "mock-subject" with
  | Fails e => Fails e
  | Returns subject =>
      match validate_str env credential_id, validate_str env issuer,
            validate_str env subject with
      | Some credential_id, Some issuer, Some subject =>
          Returns
            {| CredentialVerification.credential_id := credential_id;
               CredentialVerification.is_valid := is_valid;
               CredentialVerification.verification_date := verification_clock env;
               CredentialVerification.issuer := issuer;
               CredentialVerification.subject := subject;
               CredentialVerification.details := verification_details;
               CredentialVerification.gleif_response := Some verification_details |}
      | _, _, _ => Fails ValidationError
      end
  end.

(** [verify_credential_presentation]: [all(field in presentation ...)]
    inside a handler that answers False on any exception. *)
Fixpoint all_in (fields : list string) (presentation : pyval) : bool :=
  match fields with
  | [] => true
  | f :: rest =>
      match py_in (VStr f) presentation with
      | Ok true => all_in rest presentation
      | Ok false => false
      | Raise _ => false
      end
  end.

Definition verify_credential_presentation (presentation : pyval) : bool :=
  all_in ["credentials"; "proof"; "challenge"] presentation.

End Identity.

(* ===================================================================== *)
(** * langchain_agent_service.py: the trust verification tool *)
(* ===================================================================== *)

Module Tools.
Import Py Models.

(** The float 0.85. *)
Definition score_085 : spec_float := S754_finite false 7656119366529843 (-53).

(** [TrustVerificationTool._run]: the str it returns, with the text of
    [json.dumps] kept as the dict it renders. *)
Definition _run (agents_db : dict Agent.t) (source_agent_id target_agent_id : string)
    : Web.text :=
  if negb (dict_mem source_agent_id agents_db) || negb (dict_mem target_agent_id agents_db)
  then Web.Raw "Error: One or both agents not found"
  else
    Web.JsonOf
      [ ("allowed", VBool true);
        ("score", VFloat score_085);
        ("reason", VStr "Mock trust verification passed") ].

End Tools.
(* ===================================================================== *)
(** * Sample agents and policies *)
(* ===================================================================== *)

Module Samples.
Import Py Models Trust.

Definition policy (name : string) (rules : dict pyval) : TrustPolicy.t :=
  {| TrustPolicy.id := name; TrustPolicy.name := name;
     TrustPolicy.description := ""; TrustPolicy.rules := rules;
     TrustPolicy.created_at := 0%Z |}.

Definition agent (name : string) (verified : bool)
    (policies : list TrustPolicy.t) (metadata : dict pyval) : Agent.t :=
  {| Agent.id := name; Agent.name := name; Agent.organization := "org";
     Agent.description := ""; Agent.vlei_credential := None;
     Agent.credential_verified := verified;
     Agent.verification_details := None;
     Agent.trust_policies := policies; Agent.status := ACTIVE;
     Agent.created_at := 0%Z; Agent.last_active := None;
     Agent.metadata := metadata |}.

(** The engine as the application starts it. *)
Definition service : TrustService := __init__ 0%Z 1%Z.

Definition min_esg (n : Z) : dict pyval := [("esg_score", VDict [("min", VInt n)])].

(** The agents of the end-to-end scenarios. *)
Definition agent_a : Agent.t := agent "A" true [policy "esg-85" (min_esg 85)] [].
Definition agent_b : Agent.t := agent "B" true [] [("esg_score", VInt 88)].
Definition agent_c : Agent.t := agent "C" true [] [("esg_score", VInt 45)].
Definition unverified : Agent.t := agent "U" false [policy "esg-85" (min_esg 85)] [].

(** A verified source without policies of its own. *)
Definition no_policies : Agent.t := agent "N" true [] [].

(** Three policies that pass and one that fails on one rule. *)
Definition diluted : Agent.t :=
  agent "D" true
    [ policy "p1" (min_esg 10); policy "p2" (min_esg 20);
      policy "p3" (min_esg 30); policy "strict" (min_esg 90) ] [].

(** An agent with a credential, verification details and metadata. *)
Definition credentialed : Agent.t :=
  {| Agent.id := "E"; Agent.name := "E"; Agent.organization := "org";
     Agent.description := "";
     Agent.vlei_credential :=
       Some [("issuer", VStr "GLEIF");
             ("credentialSubject", VDict [("jurisdiction", VStr "US")])];
     Agent.credential_verified := true;
     Agent.verification_details :=
       Some [("esg_score", VInt 90); ("jurisdiction", VStr "CA")];
     Agent.trust_policies := []; Agent.status := ACTIVE;
     Agent.created_at := 0%Z; Agent.last_active := None;
     Agent.metadata := [("esg_score", VInt 45); ("sector", VStr "energy")] |}.

(** An agent whose credential subject is not a mapping. *)
Definition malformed : Agent.t :=
  {| Agent.id := "M"; Agent.name := "M"; Agent.organization := "org";
     Agent.description := "";
     Agent.vlei_credential := Some [("credentialSubject", VInt 5)];
     Agent.credential_verified := true;
     Agent.verification_details := None;
     Agent.trust_policies := []; Agent.status := ACTIVE;
     Agent.created_at := 0%Z; Agent.last_active := None;
     Agent.metadata := [("esg_score", VInt 99)] |}.

(** A store with the dict objects of A (metadata at 1) and of the
    credentialed agent (metadata at 2, verification details at 3,
    credential at 4), and the two agent objects. *)
Definition objects : Store.store :=
  <[1%positive := []]>
    (<[2%positive := Agent.metadata credentialed]>
       (<[3%positive := [("esg_score", VInt 90); ("jurisdiction", VStr "CA")]]>
          (<[4%positive := [("issuer", VStr "GLEIF");
                            ("credentialSubject", VDict [("jurisdiction", VStr "US")])]]>
             ∅))).

Definition object_a : Store.agent_object :=
  {| Store.scalars := agent_a; Store.metadata_at := 1%positive;
     Store.verification_details_at := None; Store.vlei_credential_at := None |}.

Definition object_e : Store.agent_object :=
  {| Store.scalars := credentialed; Store.metadata_at := 2%positive;
     Store.verification_details_at := Some 3%positive;
     Store.vlei_credential_at := Some 4%positive |}.

End Samples.

(* ===================================================================== *)
(** * Notions used by the statements *)
(* ===================================================================== *)

Import Py Models Trust.

(** ** The outcome of one policy on a target *)

Definition result_of (target : Agent.t) (policy : TrustPolicy.t) : PolicyResult.t :=
  fst (_evaluate_policy policy target).

Definition fails_on (target : Agent.t) (policy : TrustPolicy.t) : bool :=
  negb (PolicyResult.passed (result_of target policy)).

Definition passes_on (target : Agent.t) (policy : TrustPolicy.t) : bool :=
  PolicyResult.passed (result_of target policy).

(** [verify_trust] on two verified agents, without the loop. *)
Definition decision (now : datetime) (target : Agent.t) (ps : list TrustPolicy.t)
    : TrustVerificationResult.t :=
  let failed := map TrustPolicy.name (List.filter (fails_on target) ps) in
  let trust_score := _calculate_trust_score (map (result_of target) ps) in
  let allowed :=
    F64.geb trust_score F64.seven_tenths && Nat.eqb (length failed) 0 in
  {| TrustVerificationResult.allowed := allowed;
     TrustVerificationResult.reason :=
       if allowed then "Trust verification passed"
       else String.append "Failed policies: " (String.concat ", " failed);
     TrustVerificationResult.score := trust_score;
     TrustVerificationResult.policies_passed :=
       map TrustPolicy.name (List.filter (passes_on target) ps);
     TrustVerificationResult.policies_failed := failed;
     TrustVerificationResult.verification_details :=
       PolicyEvaluation (map (result_of target) ps) now |}.


(** ** Rules *)

(** The rule names [_evaluate_rule] knows. *)
Definition builtin_rules : list string :=
  ["esg_score"; "jurisdiction"; "organization_size"; "sector"].

(** [agent] with [policies] as its trust policies. *)
Definition with_policies (agent : Agent.t) (policies : list TrustPolicy.t) : Agent.t :=
  {| Agent.id := Agent.id agent; Agent.name := Agent.name agent;
     Agent.organization := Agent.organization agent;
     Agent.description := Agent.description agent;
     Agent.vlei_credential := Agent.vlei_credential agent;
     Agent.credential_verified := Agent.credential_verified agent;
     Agent.verification_details := Agent.verification_details agent;
     Agent.trust_policies := policies;
     Agent.status := Agent.status agent;
     Agent.created_at := Agent.created_at agent;
     Agent.last_active := Agent.last_active agent;
     Agent.metadata := Agent.metadata agent |}.

(** ** Rules of a policy *)

Definition rule_passes (agent_data : dict pyval) (item : string * pyval) : bool :=
  RuleResult.passed (_evaluate_rule (fst item) (snd item) agent_data).

Definition rule_fails (agent_data : dict pyval) (item : string * pyval) : bool :=
  negb (rule_passes agent_data item).

(** The number of rules of [rules] whose result has passed=false. *)
Definition failed_rules (rules : dict pyval) (agent_data : dict pyval) : nat :=
  length (List.filter (rule_fails agent_data) rules).

(** [score *= 0.5] *)
Definition halve (x : spec_float) : spec_float := F64.mul x F64.half.

(** The verdict of a rule whose test gave [r]: an exception fails it. *)
Definition passed_or_false (r : result bool) : bool :=
  match r with
  | Ok b => b
  | Raise _ => false
  end.


Definition size_names : list string := ["small"; "medium"; "large"; "enterprise"].

(** [v] is equal ([==]) to an element of [l]. *)
Definition listed (v : pyval) (l : list pyval) : bool := existsb (py_eq v) l.

(** [v] is in [l] as the rules test it ([v in l]): [v] is an element of
    [l], the same object, or is equal to one. *)
Definition element_of (v : pyval) (l : list pyval) : bool :=
  existsb (py_same_or_eq v) l.

(** [v] is a NaN object. *)
Definition is_nan (v : pyval) : bool :=
  match v with
  | VFloat S754_nan | VNan _ => true
  | _ => false
  end.

(** ** Sources of attributes *)

(** The first of two sources that defines the key. *)
Definition or_else {A} (a b : option A) : option A :=
  match a with
  | Some x => Some x
  | None => b
  end.

(** What [_extract_agent_data] hands to the last [update]: the
    credentialSubject entry of a credential that is present and not empty,
    and no claim otherwise. *)
Definition credential_subject (agent : Agent.t) : pyval :=
  match Agent.vlei_credential agent with
  | Some credential =>
      if nonempty credential
      then dict_get credential "credentialSubject" (VDict [])
      else VDict []
  | None => VDict []
  end.

(** The verification details, none when the attribute is None. *)
Definition details_of (agent : Agent.t) : dict pyval :=
  match Agent.verification_details agent with
  | Some vd => vd
  | None => []
  end.

(** ** Parts of a result *)

(** The policy results held by the verification details of a result. *)
Definition evaluated_policies (d : verification_details) : option (list PolicyResult.t) :=
  match d with
  | PolicyEvaluation policy_results _ => Some policy_results
  | CredentialStatus _ _ => None
  end.

(** The timestamp held by the verification details of a result. *)
Definition timestamp_of (d : verification_details) : option datetime :=
  match d with
  | PolicyEvaluation _ timestamp => Some timestamp
  | CredentialStatus _ _ => None
  end.

(* ===================================================================== *)
(** * Further notions used by the statements *)
(* ===================================================================== *)

(** [v] passes an allowed list: an empty list allows everything. *)
Definition allowed_by (v : pyval) (allowed : list pyval) : bool :=
  negb (nonempty allowed) || element_of v allowed.

(** The result of a rule whose evaluation raised [e]. *)
Definition rule_error (e : pyexn) : RuleResult.t :=
  {| RuleResult.passed := false;
     RuleResult.reason := RuleEvaluationError e;
     RuleResult.value := None;
     RuleResult.requirement := None;
     RuleResult.preferred := None |}.

Definition is_dict (v : pyval) : bool :=
  match v with
  | VDict _ => true
  | _ => false
  end.

(** The result of a policy whose attribute resolution raised [e]. *)
Definition policy_error (policy : TrustPolicy.t) (e : pyexn) : PolicyResult.t :=
  {| PolicyResult.policy_name := TrustPolicy.name policy;
     PolicyResult.passed := false;
     PolicyResult.details := ErrorDetails e;
     PolicyResult.score := F64.zero |}.

(** The float 0.75. *)
Definition three_quarters : spec_float := S754_finite false 6755399441055744 (-53).

(** What [verify_trust] reads of its two arguments. *)
Definition same_source (a b : Agent.t) : Prop :=
  Agent.credential_verified a = Agent.credential_verified b
  /\ Agent.trust_policies a = Agent.trust_policies b.

Definition same_target (a b : Agent.t) : Prop :=
  Agent.credential_verified a = Agent.credential_verified b
  /\ Agent.metadata a = Agent.metadata b
  /\ Agent.verification_details a = Agent.verification_details b
  /\ Agent.vlei_credential a = Agent.vlei_credential b.

(** ** Floats of integers *)

(** [p * 2^j] *)
Definition nshift (j : nat) (p : positive) : positive := Nat.iter j xO p.

(** The binary64 float of the integer [k] when [k] has at most 53 bits:
    the mantissa is [k] shifted to 53 bits. *)
Definition normal (k : positive) : spec_float :=
  S754_finite false
    (nshift (53 - Pos.to_nat (digits2_pos k)) k)
    (Zpos (digits2_pos k) - 53).

(** ** Connections *)

(** A connection on which a send raises. *)
Definition dead (sends : Web.websocket -> bool) (kv : string * Web.websocket) : bool :=
  negb (sends (snd kv)).

(** ** More sample agents *)

Module MoreSamples.

(** Agent B, suspended, renamed and with policies of its own. *)
Definition suspended_b : Agent.t :=
  {| Agent.id := "B2"; Agent.name := "B (suspended)"; Agent.organization := "other";
     Agent.description := "suspended"; Agent.vlei_credential := None;
     Agent.credential_verified := true;
     Agent.verification_details := None;
     Agent.trust_policies := [Samples.policy "never" (Samples.min_esg 101)];
     Agent.status := SUSPENDED;
     Agent.created_at := 5%Z; Agent.last_active := Some 6%Z;
     Agent.metadata := [("esg_score", VInt 88)] |}.

(** A verified agent in a sanctioned jurisdiction. *)
Definition sanctioned : Agent.t :=
  Samples.agent "S" true [] [("jurisdiction", VStr "SANCTIONED"); ("esg_score", VInt 99)].

(** The stores of the application with five agents registered and A
    connected. *)
Definition app : Main.state :=
  {| Main.agents_db :=
       [ ("A", Samples.agent_a); ("B", Samples.agent_b); ("C", Samples.agent_c);
         ("N", Samples.no_policies); ("U", Samples.unverified) ];
     Main.messages_db := [];
     Main.trust_logs_db := [];
     Main.manager := Web.connect 1%nat "A" Web.__init__ |}.

(** A str validation that takes a str as it is and nothing else. *)
Definition str_only (v : pyval) : option string :=
  match v with
  | VStr s => Some s
  | _ => None
  end.

(** Sockets that take every text, an AI service that has no answer. *)
Definition env : Main.environment :=
  {| Main.uuid := "m-1";
     Main.trust_clock := 7%Z;
     Main.message_clock := 8%Z;
     Main.validate_str := str_only;
     Main.process_message := fun _ _ => Main.Return None;
     Main.sends := fun _ => true |}.

Definition request (from_agent_id to_agent_id : string) : dict pyval :=
  [ ("from_agent_id", VStr from_agent_id); ("to_agent_id", VStr to_agent_id);
    ("content", VStr "hello") ].

(** The environment of a mock credential verification. *)
Definition identity_env : Identity.environment :=
  {| Identity.isoformat_now := "2024-01-01T00:00:00";
     Identity.mock_id := "mock-1704067200.0";
     Identity.verification_clock := 9%Z;
     Identity.validate_str := str_only |}.

End MoreSamples.
(* ===================================================================== *)
(** * Properties *)
(* ===================================================================== *)

(** ** The loop of [verify_trust] *)

Lemma loop_policy_results target ps st :
  policy_results (fold_left (policy_step target) ps st)
  = policy_results st ++ map (result_of target) ps.
Proof.
  revert st. induction ps as [|p ps IH]; intros st; simpl.
  - now rewrite app_nil_r.
  - rewrite IH. unfold policy_step, record_result, result_of.
    destruct (_evaluate_policy p target) as [r lg]; simpl.
    now rewrite <- app_assoc.
Qed.

Lemma loop_policies_failed target ps st :
  policies_failed (fold_left (policy_step target) ps st)
  = policies_failed st ++ map TrustPolicy.name (List.filter (fails_on target) ps).
Proof.
  revert st. induction ps as [|p ps IH]; intros st; simpl.
  - now rewrite app_nil_r.
  - rewrite IH. unfold policy_step, record_result, fails_on, result_of.
    destruct (_evaluate_policy p target) as [r lg]; simpl.
    destruct (PolicyResult.passed r); simpl; [reflexivity|].
    now rewrite <- app_assoc.
Qed.

Lemma loop_policies_passed target ps st :
  policies_passed (fold_left (policy_step target) ps st)
  = policies_passed st ++ map TrustPolicy.name (List.filter (passes_on target) ps).
Proof.
  revert st. induction ps as [|p ps IH]; intros st; simpl.
  - now rewrite app_nil_r.
  - rewrite IH. unfold policy_step, record_result, passes_on, result_of.
    destruct (_evaluate_policy p target) as [r lg]; simpl.
    destruct (PolicyResult.passed r); simpl; [|reflexivity].
    now rewrite <- app_assoc.
Qed.

Lemma loop_log target ps st :
  log (fold_left (policy_step target) ps st)
  = log st ++ concat (map (fun p => snd (_evaluate_policy p target)) ps).
Proof.
  revert st. induction ps as [|p ps IH]; intros st; simpl.
  - now rewrite app_nil_r.
  - rewrite IH. unfold policy_step, record_result.
    destruct (_evaluate_policy p target) as [r lg]; simpl.
    now rewrite <- app_assoc.
Qed.

Lemma verify_trust_verified self now source target :
  Agent.credential_verified source = true ->
  Agent.credential_verified target = true ->
  fst (verify_trust self now source target)
  = decision now target (policies_to_check self source).
Proof.
  intros Hs Ht. unfold verify_trust, conclude, decision. rewrite Hs, Ht. simpl.
  rewrite loop_policy_results, loop_policies_failed, loop_policies_passed.
  reflexivity.
Qed.

Lemma failed_names_empty target ps :
  Nat.eqb (length (map TrustPolicy.name (List.filter (fails_on target) ps))) 0 = true
  <-> forall p, In p ps -> PolicyResult.passed (result_of target p) = true.
Proof.
  rewrite length_map, Nat.eqb_eq. split.
  - intros Hlen p Hin.
    destruct (PolicyResult.passed (result_of target p)) eqn:Hp; [reflexivity|].
    assert (Hf : In p (List.filter (fails_on target) ps)).
    { apply filter_In. split; [assumption|]. unfold fails_on. now rewrite Hp. }
    destruct (List.filter (fails_on target) ps); [destruct Hf | discriminate].
  - intros Hall.
    destruct (List.filter (fails_on target) ps) as [|p l] eqn:Hfl; [reflexivity|].
    assert (Hf : In p (List.filter (fails_on target) ps)) by (rewrite Hfl; now left).
    apply filter_In in Hf. destruct Hf as [Hin Hf].
    unfold fails_on in Hf. rewrite (Hall p Hin) in Hf. discriminate.
Qed.

(** ** C1: the verification gate *)

(** C1. When the source or the target is not verified, [verify_trust]
    returns allowed=false, score=0.0, policies_passed=[] and
    policies_failed=["credential_verification"], logs nothing, and the whole
    result depends on the two verified flags only: not on the service, the
    clock, the policies of the source or the attributes of the target. *)
Theorem unverified_is_rejected self now source target :
  Agent.credential_verified source = false
  \/ Agent.credential_verified target = false ->
  let r := fst (verify_trust self now source target) in
  TrustVerificationResult.allowed r = false
  /\ TrustVerificationResult.score r = F64.zero
  /\ TrustVerificationResult.policies_passed r = []
  /\ TrustVerificationResult.policies_failed r = ["credential_verification"]
  /\ snd (verify_trust self now source target) = []
  /\ forall self' now' source' target',
       Agent.credential_verified source' = Agent.credential_verified source ->
       Agent.credential_verified target' = Agent.credential_verified target ->
       verify_trust self' now' source' target' = verify_trust self now source target.
Proof.
  intros H.
  assert (Hgate : negb (Agent.credential_verified source)
                  || negb (Agent.credential_verified target) = true).
  { destruct H as [-> | ->]; simpl; [reflexivity | apply orb_true_r]. }
  unfold verify_trust. rewrite Hgate. simpl.
  repeat split; try reflexivity.
  intros self' now' source' target' -> ->. now rewrite Hgate.
Qed.

Lemma unverified_is_rejected_witness :
  let r := fst (verify_trust Samples.service 7%Z Samples.unverified Samples.agent_b) in
  TrustVerificationResult.allowed r = false
  /\ TrustVerificationResult.score r = F64.zero.
Proof.
  destruct (unverified_is_rejected Samples.service 7%Z Samples.unverified
              Samples.agent_b (or_introl eq_refl)) as (Ha & Hs & _).
  split; assumption.
Defined.

(** ** C5: rule names the engine does not know *)

Lemma unknown_rule_result rule_name rule_config agent_data :
  ~ In rule_name builtin_rules ->
  _evaluate_rule rule_name rule_config agent_data
  = {| RuleResult.passed := true;
       RuleResult.reason := UnknownRuleSkipped rule_name;
       RuleResult.value := None;
       RuleResult.requirement := None;
       RuleResult.preferred := None |}.
Proof.
  intros Hnot. unfold _evaluate_rule.
  repeat match goal with
  | |- context [String.eqb rule_name ?s] =>
      destruct (String.eqb_spec rule_name s) as [->|_];
      [exfalso; apply Hnot; unfold builtin_rules; simpl; tauto|]
  end.
  reflexivity.
Qed.

(** C5. A rule whose name is none of esg_score, jurisdiction,
    organization_size and sector passes, whatever its configuration and
    whatever the attributes. *)
Theorem unknown_rule_passes rule_name rule_config agent_data :
  ~ In rule_name builtin_rules ->
  RuleResult.passed (_evaluate_rule rule_name rule_config agent_data) = true.
Proof.
  intros Hnot. now rewrite unknown_rule_result.
Qed.

Lemma unknown_rule_passes_witness :
  RuleResult.passed
    (_evaluate_rule "foo" (VList [VInt 1; VNone]) [("esg_score", VInt 3)]) = true.
Proof.
  apply unknown_rule_passes. unfold builtin_rules. simpl.
  intros [H|[H|[H|[H|[]]]]]; discriminate H.
Defined.

Lemma failed_rule_is_builtin rule_name rule_config agent_data :
  RuleResult.passed (_evaluate_rule rule_name rule_config agent_data) = false ->
  In rule_name builtin_rules.
Proof.
  intros Hfail.
  destruct (in_dec string_dec rule_name builtin_rules) as [Hin|Hnot]; [assumption|].
  rewrite unknown_rule_result in Hfail by assumption. discriminate.
Qed.

(** ** C2: the final decision *)



(** A score above the threshold does not save a source one of whose
    policies failed: three policies at 1.0 and one at 0.5 average 0.875. *)
Example veto_despite_high_score :
  let r := fst (verify_trust Samples.service 7%Z Samples.diluted Samples.agent_b) in
  TrustVerificationResult.score r = S754_finite false 7881299347898368 (-53)
  /\ F64.geb (TrustVerificationResult.score r) F64.seven_tenths = true
  /\ TrustVerificationResult.policies_failed r = ["strict"]
  /\ TrustVerificationResult.allowed r = false.
Proof. vm_compute. repeat split. Qed.

(** The end-to-end scenarios: A (min 85) accepts B (88) with score 1.0 and
    rejects C (45) with score 0.5. *)
Example end_to_end_accept :
  let r := fst (verify_trust Samples.service 7%Z Samples.agent_a Samples.agent_b) in
  TrustVerificationResult.allowed r = true
  /\ TrustVerificationResult.policies_failed r = []
  /\ TrustVerificationResult.score r = F64.one.
Proof. vm_compute. repeat split. Qed.

Example end_to_end_reject :
  let r := fst (verify_trust Samples.service 7%Z Samples.agent_a Samples.agent_c) in
  TrustVerificationResult.allowed r = false
  /\ TrustVerificationResult.policies_failed r = ["esg-85"]
  /\ TrustVerificationResult.score r = F64.half.
Proof. vm_compute. repeat split. Qed.

(** ** C4: a source without policies *)

Lemma rule_step_name agent_data pr item :
  PolicyResult.policy_name (rule_step agent_data pr item)
  = PolicyResult.policy_name pr.
Proof.
  unfold rule_step.
  now destruct (RuleResult.passed (_evaluate_rule (fst item) (snd item) agent_data)).
Qed.

Lemma fold_rule_step_name agent_data rs pr :
  PolicyResult.policy_name (fold_left (rule_step agent_data) rs pr)
  = PolicyResult.policy_name pr.
Proof.
  revert pr. induction rs as [|item rs IH]; intros pr; simpl; [reflexivity|].
  now rewrite IH, rule_step_name.
Qed.

Lemma result_of_name target policy :
  PolicyResult.policy_name (result_of target policy) = TrustPolicy.name policy.
Proof.
  unfold result_of, _evaluate_policy, evaluate_policy_on, evaluate_rules.
  destruct (_extract_agent_data target); simpl; [|reflexivity].
  now rewrite fold_rule_step_name.
Qed.

(** C4 fails as stated: a verified source without policies is judged by
    the default policies, which a verified target with default attributes
    passes with score 1.0. *)
Lemma empty_policy_set_counterexample :
  ~ (forall self now source target,
       Agent.credential_verified source = true ->
       Agent.credential_verified target = true ->
       Agent.trust_policies source = [] ->
       let r := fst (verify_trust self now source target) in
       TrustVerificationResult.score r = F64.zero
       /\ TrustVerificationResult.allowed r = false).
Proof.
  intros H.
  specialize (H Samples.service 7%Z Samples.no_policies Samples.agent_b
                eq_refl eq_refl eq_refl).
  destruct H as [_ H]. vm_compute in H. discriminate H.
Qed.

(** C4, amended. For two verified agents, a source without policies is
    judged by the default policies of the service: the call returns what it
    returns for the same source carrying the two default policies, and two
    policy results enter the score.  The scorer gives 0.0 on an empty list
    of results; [verify_trust] never hands it one. *)
Theorem empty_policy_set_uses_defaults now0 now0' now source target :
  Agent.credential_verified source = true ->
  Agent.credential_verified target = true ->
  Agent.trust_policies source = [] ->
  let self := __init__ now0 now0' in
  verify_trust self now source target
  = verify_trust self now (with_policies source (default_policies self)) target
  /\ (exists r1 r2,
        TrustVerificationResult.verification_details
          (fst (verify_trust self now source target))
        = PolicyEvaluation [r1; r2] now
        /\ PolicyResult.policy_name r1 = "ESG Compliance"
        /\ PolicyResult.policy_name r2 = "Jurisdiction Trust")
  /\ _calculate_trust_score [] = F64.zero.
Proof.
  intros Hs Ht Hp self. split; [|split; [|reflexivity]].
  - unfold verify_trust, policies_to_check. simpl. rewrite Hp. reflexivity.
  - rewrite (verify_trust_verified _ _ _ _ Hs Ht).
    unfold policies_to_check. rewrite Hp. simpl.
    eexists _, _. split; [reflexivity|].
    now rewrite !result_of_name.
Qed.

Lemma empty_policy_set_uses_defaults_witness :
  verify_trust (__init__ 0%Z 1%Z) 7%Z Samples.no_policies Samples.agent_b
  = verify_trust (__init__ 0%Z 1%Z) 7%Z
      (with_policies Samples.no_policies (default_policies (__init__ 0%Z 1%Z)))
      Samples.agent_b.
Proof.
  exact (proj1 (empty_policy_set_uses_defaults 0%Z 1%Z 7%Z Samples.no_policies
                  Samples.agent_b eq_refl eq_refl eq_refl)).
Defined.

(** ** C3 and C9: the score and the verdict of one policy *)

Lemma rule_step_passed agent_data pr item :
  PolicyResult.passed (rule_step agent_data pr item)
  = PolicyResult.passed pr && rule_passes agent_data item.
Proof.
  unfold rule_step, rule_passes.
  destruct (RuleResult.passed (_evaluate_rule (fst item) (snd item) agent_data));
    simpl; [now rewrite andb_true_r | now rewrite andb_false_r].
Qed.

Lemma rule_step_score agent_data pr item :
  PolicyResult.score (rule_step agent_data pr item)
  = if rule_fails agent_data item
    then halve (PolicyResult.score pr) else PolicyResult.score pr.
Proof.
  unfold rule_step, rule_fails, rule_passes.
  now destruct (RuleResult.passed (_evaluate_rule (fst item) (snd item) agent_data)).
Qed.

Lemma iter_halve_shift k x : Nat.iter k halve (halve x) = halve (Nat.iter k halve x).
Proof. induction k as [|k IH]; simpl; [reflexivity | now rewrite IH]. Qed.

(** The loop over the rules: the verdict is the conjunction of the rule
    verdicts, the score is halved once per failed rule. *)
Lemma fold_rule_step agent_data rs pr :
  PolicyResult.passed (fold_left (rule_step agent_data) rs pr)
  = PolicyResult.passed pr && forallb (rule_passes agent_data) rs
  /\ PolicyResult.score (fold_left (rule_step agent_data) rs pr)
     = Nat.iter (failed_rules rs agent_data) halve (PolicyResult.score pr).
Proof.
  revert pr. induction rs as [|item rs IH]; intros pr; simpl.
  - now rewrite andb_true_r.
  - destruct (IH (rule_step agent_data pr item)) as [Hp Hs]. split.
    + rewrite Hp, rule_step_passed. now rewrite andb_assoc.
    + rewrite Hs, rule_step_score. unfold failed_rules. simpl.
      destruct (rule_fails agent_data item); simpl; [|reflexivity].
      apply iter_halve_shift.
Qed.

Lemma NoDup_keys_filter {V} (f : string * V -> bool) (d : dict V) :
  NoDup (keys d) -> NoDup (keys (List.filter f d)).
Proof.
  unfold keys. induction d as [|[k v] d IH]; simpl; intros Hnd; [constructor|].
  inversion Hnd as [|? ? Hnotin Hnd']; subst.
  destruct (f (k, v)); simpl; [|now apply IH].
  constructor; [|now apply IH].
  intros Hin. apply Hnotin.
  apply list_elem_of_In in Hin. apply list_elem_of_In.
  apply in_map_iff in Hin. destruct Hin as [[k' v'] [Hk Hin]].
  apply filter_In in Hin. apply in_map_iff. exists (k', v'). tauto.
Qed.

(** A dict holds each of the four rule names at most once, and no other
    rule can fail. *)
Lemma failed_rules_le_4 (rs : dict pyval) agent_data :
  NoDup (keys rs) -> (failed_rules rs agent_data <= 4)%nat.
Proof.
  intros Hnd. unfold failed_rules.
  rewrite <- (length_map fst).
  change 4%nat with (length builtin_rules).
  apply NoDup_incl_length.
  - apply NoDup_ListNoDup. now apply (NoDup_keys_filter (rule_fails agent_data)).
  - intros name Hin. apply in_map_iff in Hin. destruct Hin as [[k v] [<- Hin]].
    apply filter_In in Hin. destruct Hin as [_ Hfail].
    unfold rule_fails, rule_passes in Hfail. simpl in *.
    apply (failed_rule_is_builtin k v agent_data).
    now destruct (RuleResult.passed (_evaluate_rule k v agent_data)).
Qed.

Lemma iter_halve_one k : (k <= 4)%nat -> Nat.iter k halve F64.one = F64.half_pow k.
Proof.
  intros Hk.
  do 5 (destruct k as [|k]; [vm_compute; reflexivity|]). lia.
Qed.

Lemma half_pow_value k :
  (k <= 4)%nat ->
  exists q, F64.value (F64.half_pow k) = Some q /\ (q == (1 # 2) ^ Z.of_nat k)%Q.
Proof.
  intros Hk.
  do 5 (destruct k as [|k]; [eexists; split; [reflexivity | vm_compute; reflexivity]|]).
  lia.
Qed.

(** C3. For every policy (a dict of rules: each name once) and every
    resolved attribute set, the policy result has score 0.5^k, where k is
    the number of rules whose result has passed=false, as the float
    2^52 * 2^(-52-k) whose value is exactly (1/2)^k; it has passed=true
    exactly when every rule passed; and a policy without rules has
    passed=true and score 1.0. *)
Theorem policy_score_geometric policy agent_data :
  NoDup (keys (TrustPolicy.rules policy)) ->
  let r := fst (evaluate_policy_on policy (Ok agent_data)) in
  let k := failed_rules (TrustPolicy.rules policy) agent_data in
  PolicyResult.score r = Nat.iter k halve F64.one
  /\ PolicyResult.score r = F64.half_pow k
  /\ (exists q, F64.value (PolicyResult.score r) = Some q
                /\ (q == (1 # 2) ^ Z.of_nat k)%Q)
  /\ (PolicyResult.passed r = true
      <-> forall rule_name rule_config,
            In (rule_name, rule_config) (TrustPolicy.rules policy) ->
            RuleResult.passed (_evaluate_rule rule_name rule_config agent_data) = true)
  /\ (PolicyResult.passed r = true <-> k = 0%nat)
  /\ (TrustPolicy.rules policy = [] ->
      PolicyResult.passed r = true /\ PolicyResult.score r = F64.one).
Proof.
  intros Hnd r k. subst r k. simpl. unfold evaluate_rules.
  destruct (fold_rule_step agent_data (TrustPolicy.rules policy)
              {| PolicyResult.policy_name := TrustPolicy.name policy;
                 PolicyResult.passed := true;
                 PolicyResult.details := RuleDetails [];
                 PolicyResult.score := F64.one |}) as [Hp Hs].
  simpl in Hp, Hs. rewrite Hp, Hs.
  pose proof (failed_rules_le_4 _ agent_data Hnd) as Hk.
  split; [reflexivity|].
  split; [now apply iter_halve_one|].
  split; [rewrite iter_halve_one by assumption; now apply half_pow_value|].
  split; [|split].
  - rewrite forallb_forall. split.
    + intros H name cfg Hin. exact (H (name, cfg) Hin).
    + intros H [name cfg] Hin. exact (H name cfg Hin).
  - unfold failed_rules. clear.
    induction (TrustPolicy.rules policy) as [|item rs IH]; simpl; [tauto|].
    unfold rule_fails at 1.
    destruct (rule_passes agent_data item); simpl; [exact IH|].
    split; discriminate.
  - intros ->. split; reflexivity.
Qed.

Lemma policy_score_geometric_witness :
  let policy :=
    Samples.policy "two-failures"
      [("esg_score", VDict [("min", VInt 90)]);
       ("sector", VDict [("blocked", VList [VStr "technology"])]);
       ("jurisdiction", VDict [("allowed", VList [VStr "EU"])])] in
  let agent_data :=
    [("esg_score", VInt 45); ("jurisdiction", VStr "EU"); ("sector", VStr "technology")] in
  failed_rules (TrustPolicy.rules policy) agent_data = 2%nat
  /\ PolicyResult.score (fst (evaluate_policy_on policy (Ok agent_data)))
     = F64.half_pow (failed_rules (TrustPolicy.rules policy) agent_data).
Proof.
  split; [reflexivity|].
  refine (proj1 (proj2 (policy_score_geometric _ _ _))).
  apply (bool_decide_unpack _). vm_compute. exact I.
Defined.

Lemma forallb_Permutation {A} (f : A -> bool) (l l' : list A) :
  Permutation l l' -> forallb f l = forallb f l'.
Proof.
  induction 1 as [|x l l' _ IH|x y l|l l' l'' _ IH1 _ IH2]; simpl.
  - reflexivity.
  - now rewrite IH.
  - rewrite !andb_assoc. now rewrite (andb_comm (f y) (f x)).
  - now rewrite IH1.
Qed.

Lemma failed_rules_Permutation rs rs' agent_data :
  Permutation rs rs' -> failed_rules rs agent_data = failed_rules rs' agent_data.
Proof.
  unfold failed_rules.
  induction 1 as [|x l l' _ IH|x y l|l l' l'' _ IH1 _ IH2]; simpl.
  - reflexivity.
  - destruct (rule_fails agent_data x); simpl; now rewrite IH.
  - now destruct (rule_fails agent_data x), (rule_fails agent_data y).
  - now rewrite IH1.
Qed.

(** C9. Two policies whose rule sequences are permutations of each other
    get the same passed flag and the same score on every attribute set. *)
Theorem rule_order_irrelevant policy policy' agent_data :
  Permutation (TrustPolicy.rules policy) (TrustPolicy.rules policy') ->
  let r := fst (evaluate_policy_on policy (Ok agent_data)) in
  let r' := fst (evaluate_policy_on policy' (Ok agent_data)) in
  PolicyResult.passed r = PolicyResult.passed r'
  /\ PolicyResult.score r = PolicyResult.score r'.
Proof.
  intros Hperm. simpl. unfold evaluate_rules.
  destruct (fold_rule_step agent_data (TrustPolicy.rules policy)
              {| PolicyResult.policy_name := TrustPolicy.name policy;
                 PolicyResult.passed := true;
                 PolicyResult.details := RuleDetails [];
                 PolicyResult.score := F64.one |}) as [-> ->].
  destruct (fold_rule_step agent_data (TrustPolicy.rules policy')
              {| PolicyResult.policy_name := TrustPolicy.name policy';
                 PolicyResult.passed := true;
                 PolicyResult.details := RuleDetails [];
                 PolicyResult.score := F64.one |}) as [-> ->].
  simpl. split.
  - now rewrite (forallb_Permutation _ _ _ Hperm).
  - now rewrite (failed_rules_Permutation _ _ _ Hperm).
Qed.

Lemma rule_order_irrelevant_witness :
  let esg := ("esg_score", VDict [("min", VInt 90)]) in
  let sec := ("sector", VDict [("allowed", VList [VStr "finance"])]) in
  let jur := ("jurisdiction", VDict [("blocked", VList [VStr "SANCTIONED"])]) in
  let r := fst (evaluate_policy_on (Samples.policy "p" [esg; sec; jur]) (Ok [])) in
  let r' := fst (evaluate_policy_on (Samples.policy "p" [jur; esg; sec]) (Ok [])) in
  PolicyResult.passed r = PolicyResult.passed r'
  /\ PolicyResult.score r = PolicyResult.score r'.
Proof.
  apply (rule_order_irrelevant
           (Samples.policy "p" [("esg_score", VDict [("min", VInt 90)]);
                                ("sector", VDict [("allowed", VList [VStr "finance"])]);
                                ("jurisdiction", VDict [("blocked", VList [VStr "SANCTIONED"])])])
           (Samples.policy "p" [("jurisdiction", VDict [("blocked", VList [VStr "SANCTIONED"])]);
                                ("esg_score", VDict [("min", VInt 90)]);
                                ("sector", VDict [("allowed", VList [VStr "finance"])])])).
  simpl.
  apply Permutation_sym, (Permutation_cons_app [_; _] []), Permutation_refl.
Defined.

(** ** C7: the esg_score rule *)

Lemma esg_rule_passed (config : dict pyval) agent_data :
  RuleResult.passed (_evaluate_rule "esg_score" (VDict config) agent_data)
  = passed_or_false
      (py_between (dict_get config "min" (VInt 0))
                  (dict_get agent_data "esg_score" (VInt 50))
                  (dict_get config "max" (VInt 100))).
Proof.
  unfold _evaluate_rule, _evaluate_esg_rule. simpl.
  now destruct (py_between _ _ _).
Qed.

Lemma x_le_fin_iff p x r :
  x_le (XFin p) x && x_le x (XFin r) = true
  <-> exists q, x = XFin q /\ (p <= q /\ q <= r)%Q.
Proof.
  destruct x as [|[|]|q]; simpl.
  - split; [discriminate | intros (q & Hq & _); discriminate].
  - split; [discriminate | intros (q & Hq & _); discriminate].
  - split; [discriminate | intros (q & Hq & _); discriminate].
  - rewrite andb_true_iff, !Qle_bool_iff. split.
    + intros H. now exists q.
    + now intros (q' & [= ->] & H).
Qed.

(** [lo <= v <= hi] between two ints holds exactly for the numbers in
    the closed interval; on anything else it is false or raises. *)
Lemma between_ints lo hi v :
  passed_or_false (py_between (VInt lo) v (VInt hi)) = true
  <-> exists q, py_num v = Some (XFin q) /\ (inject_Z lo <= q /\ q <= inject_Z hi)%Q.
Proof.
  assert (Hnum : forall x, py_num v = Some x ->
            passed_or_false (py_between (VInt lo) v (VInt hi))
            = x_le (XFin (inject_Z lo)) x && x_le x (XFin (inject_Z hi))).
  { intros x Hx. unfold py_between.
    destruct v; simpl in Hx; try discriminate; injection Hx as <-;
      cbn -[x_le];
      match goal with
      | |- context [x_le ?a ?b] => destruct (x_le a b); reflexivity
      end. }
  destruct (py_num v) as [x|] eqn:Hx.
  - rewrite (Hnum x eq_refl), x_le_fin_iff. split.
    + intros (q & -> & H). now exists q.
    + intros (q & [= ->] & H). now exists q.
  - split; [|intros (q & Hq & _); discriminate].
    destruct v; simpl in Hx; try discriminate; simpl; discriminate.
Qed.

(** C7 fails as stated: with {min: 85} an esg_score of 101 is at least 85
    and does not pass, because max defaults to 100. *)
Lemma esg_min_85_counterexample :
  ~ (RuleResult.passed
       (_evaluate_rule "esg_score" (VDict [("min", VInt 85)])
          [("esg_score", VInt 101)]) = true
     <-> (101 >= 85)%Z).
Proof.
  intros [_ H]. specialize (H ltac:(lia)). vm_compute in H. discriminate H.
Qed.

(** C7, amended. An esg_score rule configured with exactly {min: 85}
    passes exactly when the esg_score attribute (50 when the attribute set
    has none) is a number between 85 and 100, both included; for an int
    attribute, exactly when 85 <= esg_score <= 100.  85 passes, 84 fails. *)
Theorem esg_min_85 agent_data :
  let config := VDict [("min", VInt 85)] in
  let esg_score := dict_get agent_data "esg_score" (VInt 50) in
  let passed := RuleResult.passed (_evaluate_rule "esg_score" config agent_data) in
  (passed = true
   <-> exists q, py_num esg_score = Some (XFin q) /\ (85 <= q /\ q <= 100)%Q)
  /\ (forall z, esg_score = VInt z -> (passed = true <-> (85 <= z <= 100)%Z))
  /\ (esg_score = VInt 85 -> passed = true)
  /\ (esg_score = VInt 84 -> passed = false).
Proof.
  intros config esg_score passed.
  assert (Hq : passed = true
               <-> exists q, py_num esg_score = Some (XFin q)
                             /\ (85 <= q /\ q <= 100)%Q).
  { subst passed config. rewrite esg_rule_passed. apply between_ints. }
  assert (Hz : forall z, esg_score = VInt z ->
                 (passed = true <-> (85 <= z <= 100)%Z)).
  { intros z Hv. rewrite Hq, Hv. simpl. split.
    - intros (q & [= <-] & H1 & H2).
      change 85%Q with (inject_Z 85) in H1. change 100%Q with (inject_Z 100) in H2.
      rewrite <- Zle_Qle in H1, H2. lia.
    - intros [H1 H2]. exists (inject_Z z). split; [reflexivity|].
      change 85%Q with (inject_Z 85). change 100%Q with (inject_Z 100).
      now rewrite <- !Zle_Qle. }
  split; [exact Hq|]. split; [exact Hz|]. split.
  - intros Hv. apply (Hz 85%Z Hv). lia.
  - intros Hv. apply not_true_is_false. intros Hp.
    apply (Hz 84%Z Hv) in Hp. lia.
Qed.

Example esg_boundaries :
  let passed v :=
    RuleResult.passed
      (_evaluate_rule "esg_score" (VDict [("min", VInt 85)]) [("esg_score", v)]) in
  passed (VInt 85) = true /\ passed (VInt 84) = false
  /\ passed (VInt 100) = true /\ passed (VInt 101) = false
  /\ passed (VFloat (S754_finite false 5980780305148018 (-46))) = false
  /\ passed (VStr "90") = false /\ passed (VBool true) = false.
Proof. vm_compute. repeat split. Qed.

(** ** C10: an empty allowed list *)

Section EmptyAllowed.
Variable config : dict pyval.
Variable agent_data : dict pyval.
Hypothesis allowed_empty : dict_lookup "allowed" config = Some (VList []).

Lemma get_allowed_empty dflt : dict_get config "allowed" dflt = VList [].
Proof. unfold dict_get. now rewrite allowed_empty. Qed.

Lemma jurisdiction_allowed_empty blocked preferred :
  dict_get config "blocked" (VList []) = VList blocked ->
  dict_get config "preferred" (VList []) = VList preferred ->
  RuleResult.passed (_evaluate_rule "jurisdiction" (VDict config) agent_data)
  = negb (element_of (dict_get agent_data "jurisdiction" (VStr "UNKNOWN")) blocked).
Proof.
  intros Hb Hp. unfold _evaluate_rule, _evaluate_jurisdiction_rule. simpl.
  rewrite Hb, Hp, get_allowed_empty. simpl.
  unfold element_of.
  destruct blocked as [|b blocked]; simpl; [now destruct preferred|].
  destruct (py_same_or_eq _ b || existsb _ blocked); simpl; [reflexivity|].
  now destruct preferred.
Qed.

Lemma sector_allowed_empty blocked :
  dict_get config "blocked" (VList []) = VList blocked ->
  RuleResult.passed (_evaluate_rule "sector" (VDict config) agent_data)
  = negb (element_of (dict_get agent_data "sector" (VStr "unknown")) blocked).
Proof.
  intros Hb. unfold _evaluate_rule, _evaluate_sector_rule. simpl.
  rewrite Hb, get_allowed_empty. simpl.
  unfold element_of.
  destruct blocked as [|b blocked]; simpl; [reflexivity|].
  now destruct (py_same_or_eq _ b || existsb _ blocked).
Qed.

Lemma size_allowed_empty :
  RuleResult.passed (_evaluate_rule "organization_size" (VDict config) agent_data)
  = false.
Proof.
  unfold _evaluate_rule, _evaluate_size_rule. simpl.
  now rewrite get_allowed_empty.
Qed.
End EmptyAllowed.

Lemma same_or_eq_str v s : py_same_or_eq v (VStr s) = py_eq v (VStr s).
Proof.
  unfold py_same_or_eq. destruct v as [| | |f| | | |]; try reflexivity.
  now destruct f.
Qed.

Lemma size_allowed_absent (config : dict pyval) agent_data :
  dict_lookup "allowed" config = None ->
  RuleResult.passed (_evaluate_rule "organization_size" (VDict config) agent_data) = true
  <-> exists s, dict_get agent_data "organization_size" (VStr "medium") = VStr s
                /\ In s size_names.
Proof.
  intros Habs. unfold _evaluate_rule, _evaluate_size_rule. simpl.
  replace (dict_get config "allowed" default_sizes) with default_sizes
    by (unfold dict_get; now rewrite Habs).
  simpl. rewrite !same_or_eq_str.
  destruct (dict_get agent_data "organization_size" (VStr "medium")) as [| | | | |s| |];
    simpl; try (split; [discriminate | intros (s' & Hs & _); discriminate]).
  rewrite !orb_false_r, !orb_true_iff, !String.eqb_eq. unfold size_names. simpl.
  split.
  - intros H. exists s. split; [reflexivity|]. intuition.
  - intros (s' & [= <-] & H). intuition.
Qed.

(** The test [v in l] of the rules and equality with an element of [l]
    differ for a NaN only, which is in a list that holds the same NaN
    object and is equal to none of its elements. *)
Lemma element_of_listed v l : is_nan v = false -> element_of v l = listed v l.
Proof.
  intros Hv. unfold element_of, listed.
  induction l as [|x l IH]; simpl; [reflexivity|]. rewrite IH. f_equal.
  unfold py_same_or_eq.
  assert (Hs : same_nan v x = false); [|now rewrite Hs].
  destruct v as [| | |f| | | |]; try reflexivity; [|discriminate Hv].
  destruct f; try reflexivity. discriminate Hv.
Qed.

Lemma element_of_same v l : In v l -> is_nan v = true -> element_of v l = true.
Proof.
  intros Hin Hv. unfold element_of. apply existsb_exists. exists v.
  split; [exact Hin|]. unfold py_same_or_eq.
  destruct v as [| | |f|o| | |]; try discriminate Hv.
  - destruct f; try discriminate Hv. reflexivity.
  - simpl. now rewrite Nat.eqb_refl.
Qed.

(** C10. With an allowed list that is present and empty, the jurisdiction
    rule and the sector rule pass every value that is not in their blocked
    list ({allowed: []} alone passes everything), while the
    organization_size rule fails every value; the four default sizes are
    allowed only when the key is absent.  A value is in the blocked list
    as [in] tests it: it is an element of the list or equal to one, which
    for every value but a NaN is to be equal to one; a NaN is blocked by a
    list that holds the same NaN object. *)
Theorem empty_allowed_list (config : dict pyval) agent_data :
  dict_lookup "allowed" config = Some (VList []) ->
  let passed rule_name cfg :=
    RuleResult.passed (_evaluate_rule rule_name (VDict cfg) agent_data) in
  let jurisdiction := dict_get agent_data "jurisdiction" (VStr "UNKNOWN") in
  let sector := dict_get agent_data "sector" (VStr "unknown") in
  (forall blocked preferred,
     dict_get config "blocked" (VList []) = VList blocked ->
     dict_get config "preferred" (VList []) = VList preferred ->
     passed "jurisdiction" config = negb (element_of jurisdiction blocked)
     /\ (is_nan jurisdiction = false ->
         passed "jurisdiction" config = negb (listed jurisdiction blocked))
     /\ (is_nan jurisdiction = true -> In jurisdiction blocked ->
         passed "jurisdiction" config = false))
  /\ (forall blocked,
        dict_get config "blocked" (VList []) = VList blocked ->
        passed "sector" config = negb (element_of sector blocked)
        /\ (is_nan sector = false ->
            passed "sector" config = negb (listed sector blocked))
        /\ (is_nan sector = true -> In sector blocked ->
            passed "sector" config = false))
  /\ passed "jurisdiction" [("allowed", VList [])] = true
  /\ passed "sector" [("allowed", VList [])] = true
  /\ passed "organization_size" config = false
  /\ (forall config',
        dict_lookup "allowed" config' = None ->
        passed "organization_size" config' = true
        <-> exists s, dict_get agent_data "organization_size" (VStr "medium") = VStr s
                      /\ In s size_names).
Proof.
  intros Hempty passed jurisdiction sector. subst passed jurisdiction sector.
  cbv beta.
  split.
  { intros blocked preferred Hb Hp.
    rewrite (jurisdiction_allowed_empty config agent_data Hempty blocked preferred Hb Hp).
    split; [reflexivity|]. split.
    - intros Hn. now rewrite (element_of_listed _ _ Hn).
    - intros Hn Hin. now rewrite (element_of_same _ _ Hin Hn). }
  split.
  { intros blocked Hb.
    rewrite (sector_allowed_empty config agent_data Hempty blocked Hb).
    split; [reflexivity|]. split.
    - intros Hn. now rewrite (element_of_listed _ _ Hn).
    - intros Hn Hin. now rewrite (element_of_same _ _ Hin Hn). }
  split; [exact (jurisdiction_allowed_empty [("allowed", VList [])] agent_data
                  eq_refl [] [] eq_refl eq_refl)|].
  split; [exact (sector_allowed_empty [("allowed", VList [])] agent_data
                  eq_refl [] eq_refl)|].
  split; [now apply size_allowed_empty|].
  intros config'. apply size_allowed_absent.
Qed.

Lemma empty_allowed_list_witness :
  let agent_data := [("organization_size", VStr "large")] in
  RuleResult.passed
    (_evaluate_rule "organization_size" (VDict [("allowed", VList [])]) agent_data)
  = false
  /\ RuleResult.passed
       (_evaluate_rule "jurisdiction" (VDict [("allowed", VList [])]) agent_data)
     = true.
Proof.
  destruct (empty_allowed_list [("allowed", VList [])]
              [("organization_size", VStr "large")] eq_refl)
    as (_ & _ & Hj & _ & Hsize & _).
  split; assumption.
Defined.

Example allowed_key_asymmetry :
  let passed rule_name cfg :=
    RuleResult.passed
      (_evaluate_rule rule_name (VDict cfg)
         [("jurisdiction", VStr "US"); ("sector", VStr "energy");
          ("organization_size", VStr "small")]) in
  passed "jurisdiction" [("allowed", VList [])] = true
  /\ passed "sector" [("allowed", VList [])] = true
  /\ passed "organization_size" [("allowed", VList [])] = false
  /\ passed "organization_size" [] = true
  /\ passed "jurisdiction" [("allowed", VList []); ("blocked", VList [VStr "US"])] = false.
Proof. vm_compute. repeat split. Qed.

(** The NaN that [json.loads] reads is one object, so a jurisdiction that
    is this NaN is blocked by a list that holds it; a NaN made in another
    way is blocked by a list that holds that same object, and by no
    other. *)
Example nan_is_blocked_by_identity :
  let passed v blocked :=
    RuleResult.passed
      (_evaluate_rule "jurisdiction"
         (VDict [("allowed", VList []); ("blocked", VList blocked)])
         [("jurisdiction", v)]) in
  passed (VFloat S754_nan) [VFloat S754_nan] = false
  /\ passed (VNan 1) [VNan 1] = false
  /\ passed (VNan 1) [VNan 2] = true
  /\ passed (VNan 1) [VFloat S754_nan] = true
  /\ passed (VList [VFloat S754_nan]) [VList [VFloat S754_nan]] = false
  /\ passed (VList [VNan 1]) [VList [VNan 2]] = true.
Proof. vm_compute. repeat split. Qed.

(** ** C8: attribute resolution *)

Lemma dict_lookup_set {V} k k' (v : V) (d : dict V) :
  dict_lookup k (dict_set k' v d)
  = if String.eqb k k' then Some v else dict_lookup k d.
Proof.
  induction d as [|[k0 v0] d IH]; simpl; [reflexivity|].
  destruct (String.eqb_spec k' k0) as [->|Hne]; simpl.
  - now destruct (String.eqb k k0).
  - rewrite IH.
    destruct (String.eqb_spec k k0) as [->|_]; [|reflexivity].
    destruct (String.eqb_spec k0 k') as [->|_]; [congruence | reflexivity].
Qed.

Lemma dict_lookup_absent {V} k (d : dict V) :
  ~ In k (keys d) -> dict_lookup k d = None.
Proof.
  induction d as [|[k0 v0] d IH]; simpl; intros Hnot; [reflexivity|].
  destruct (String.eqb_spec k k0) as [->|_]; [tauto|].
  apply IH. tauto.
Qed.

(** [update] lets the argument win key by key. *)
Lemma dict_lookup_update {V} k (d e : dict V) :
  NoDup (keys e) ->
  dict_lookup k (dict_update d e) = or_else (dict_lookup k e) (dict_lookup k d).
Proof.
  unfold dict_update. revert d.
  induction e as [|[k0 v0] e IH]; intros d Hnd; simpl; [reflexivity|].
  apply NoDup_cons in Hnd. destruct Hnd as [Hnotin Hnd].
  rewrite (IH _ Hnd), dict_lookup_set.
  destruct (String.eqb_spec k k0) as [->|_]; [|reflexivity].
  rewrite dict_lookup_absent; [reflexivity|].
  intros Hin. apply Hnotin. now apply list_elem_of_In.
Qed.

Lemma dict_mem_lookup {V} k (d : dict V) :
  dict_mem k d = match dict_lookup k d with Some _ => true | None => false end.
Proof. reflexivity. Qed.

(** A default fills a key only where the attribute set has none. *)
Lemma dict_lookup_fill k (dflt d : dict pyval) :
  dict_lookup k
    (fold_left
       (fun agent_data kv =>
          if dict_mem (fst kv) agent_data then agent_data
          else dict_set (fst kv) (snd kv) agent_data) dflt d)
  = or_else (dict_lookup k d) (dict_lookup k dflt).
Proof.
  revert d. induction dflt as [|[k0 v0] dflt IH]; intros d; simpl.
  - now destruct (dict_lookup k d).
  - rewrite IH. unfold dict_mem.
    destruct (dict_lookup k0 d) as [w|] eqn:Hk0.
    + destruct (dict_lookup k d) eqn:Hk; simpl; [reflexivity|].
      destruct (String.eqb_spec k k0) as [->|_]; [congruence | reflexivity].
    + rewrite dict_lookup_set.
      destruct (String.eqb_spec k k0) as [->|_].
      * now rewrite Hk0.
      * reflexivity.
Qed.

Lemma dict_lookup_add_defaults k (d : dict pyval) :
  dict_lookup k (add_defaults d) = or_else (dict_lookup k d) (dict_lookup k defaults).
Proof. apply dict_lookup_fill. Qed.

(** C8. For every agent whose credential subject is a mapping (none
    counts as the empty one), the resolution succeeds, and every key
    resolves to the value of the first source that defines it among: the
    credential-subject claims, the verification details, the metadata, the
    defaults esg_score 75, jurisdiction "EU", organization_size "medium",
    sector "technology".  So a default shows only where the three sources
    of the agent are silent, and the four default keys always resolve. *)
Theorem attribute_precedence agent claims :
  credential_subject agent = VDict claims ->
  NoDup (keys claims) ->
  NoDup (keys (details_of agent)) ->
  exists agent_data,
    _extract_agent_data agent = Ok agent_data
    /\ (forall key,
          dict_lookup key agent_data
          = or_else (dict_lookup key claims)
              (or_else (dict_lookup key (details_of agent))
                 (or_else (dict_lookup key (Agent.metadata agent))
                    (dict_lookup key
                       [("esg_score", VInt 75); ("jurisdiction", VStr "EU");
                        ("organization_size", VStr "medium");
                        ("sector", VStr "technology")]))))
    /\ (forall key default_value,
          dict_lookup key defaults = Some default_value ->
          dict_lookup key claims = None ->
          dict_lookup key (details_of agent) = None ->
          dict_lookup key (Agent.metadata agent) = None ->
          dict_lookup key agent_data = Some default_value).
Proof.
  intros Hcs Hnd_claims Hnd_details.
  set (md := if nonempty (Agent.metadata agent) then Agent.metadata agent else []).
  set (with_details :=
         match Agent.verification_details agent with
         | Some vd => if nonempty vd then dict_update md vd else md
         | None => md
         end).
  assert (Hmd : forall key, dict_lookup key md = dict_lookup key (Agent.metadata agent)).
  { intros key. subst md. now destruct (Agent.metadata agent). }
  assert (Hwd : forall key,
            dict_lookup key with_details
            = or_else (dict_lookup key (details_of agent))
                      (dict_lookup key (Agent.metadata agent))).
  { intros key. subst with_details. unfold details_of in *.
    destruct (Agent.verification_details agent) as [vd|]; simpl; [|apply Hmd].
    destruct vd as [|kv vd].
    - apply Hmd.
    - change (nonempty (kv :: vd)) with true. cbv iota.
      rewrite dict_lookup_update by assumption. now rewrite Hmd. }
  assert (Hex : _extract_agent_data agent
                = Ok (add_defaults (dict_update with_details claims))).
  { unfold _extract_agent_data, credential_subject in *. fold md. fold with_details.
    destruct (Agent.vlei_credential agent) as [credential|].
    - destruct (nonempty credential).
      + rewrite Hcs. reflexivity.
      + injection Hcs as <-. reflexivity.
    - injection Hcs as <-. reflexivity. }
  assert (Hall : forall key,
            dict_lookup key (add_defaults (dict_update with_details claims))
            = or_else (dict_lookup key claims)
                (or_else (dict_lookup key (details_of agent))
                   (or_else (dict_lookup key (Agent.metadata agent))
                      (dict_lookup key defaults)))).
  { intros key.
    rewrite dict_lookup_add_defaults, dict_lookup_update, Hwd by assumption.
    destruct (dict_lookup key claims); simpl; [reflexivity|].
    now destruct (dict_lookup key (details_of agent)). }
  exists (add_defaults (dict_update with_details claims)).
  split; [exact Hex|]. split; [exact Hall|].
  intros key default_value Hd Hc Hv Hm. now rewrite Hall, Hc, Hv, Hm.
Qed.

(** ** The store: what a call writes *)

Lemma content_lookup (σ : Store.store) l d : σ !! l = Some d -> Store.content σ l = d.
Proof. unfold Store.content. now intros ->. Qed.

Lemma content_insert_eq (σ : Store.store) l d : Store.content (<[l := d]> σ) l = d.
Proof. apply content_lookup, lookup_insert_eq. Qed.

Lemma content_insert_ne (σ : Store.store) l l' d :
  l <> l' -> Store.content (<[l := d]> σ) l' = Store.content σ l'.
Proof. intros Hne. unfold Store.content. now rewrite lookup_insert_ne. Qed.

Lemma fresh_unallocated (σ : Store.store) : σ !! fresh (dom σ) = None.
Proof. apply not_elem_of_dom, is_fresh. Qed.

Lemma deref_content (σ : Store.store) l o :
  Store.deref σ (Some l) = Some o ->
  exists d, o = Some d /\ σ !! l = Some d.
Proof.
  unfold Store.deref. destruct (σ !! l) as [d|]; [|discriminate].
  intros [= <-]. now exists d.
Qed.

Lemma read_fields (σ : Store.store) agent_object agent :
  Store.read σ agent_object = Some agent ->
  σ !! Store.metadata_at agent_object = Some (Agent.metadata agent)
  /\ Store.deref σ (Store.verification_details_at agent_object)
     = Some (Agent.verification_details agent)
  /\ Store.deref σ (Store.vlei_credential_at agent_object)
     = Some (Agent.vlei_credential agent)
  /\ Agent.credential_verified agent
     = Agent.credential_verified (Store.scalars agent_object)
  /\ Agent.trust_policies agent = Agent.trust_policies (Store.scalars agent_object).
Proof.
  unfold Store.read.
  destruct (σ !! Store.metadata_at agent_object) as [md|]; [|discriminate].
  destruct (Store.deref σ (Store.verification_details_at agent_object)) as [vd|];
    [|discriminate].
  destruct (Store.deref σ (Store.vlei_credential_at agent_object)) as [cr|];
    [|discriminate].
  intros [= <-]. simpl. repeat split.
Qed.

Lemma deref_weaken (σ σ' : Store.store) at_ o :
  σ ⊆ σ' -> Store.deref σ at_ = Some o -> Store.deref σ' at_ = Some o.
Proof.
  intros Hsub. destruct at_ as [l|]; [|trivial].
  intros H. destruct (deref_content _ _ _ H) as (d & -> & Hl).
  unfold Store.deref. now rewrite (lookup_weaken _ _ _ _ Hl Hsub).
Qed.

(** Objects are never taken away: an agent reads the same in a larger
    store. *)
Lemma read_weaken (σ σ' : Store.store) agent_object agent :
  σ ⊆ σ' ->
  Store.read σ agent_object = Some agent ->
  Store.read σ' agent_object = Some agent.
Proof.
  intros Hsub Hread. pose proof Hread as Hr. revert Hr.
  destruct (read_fields _ _ _ Hread) as (Hmd & Hvd & Hcr & _).
  unfold Store.read.
  rewrite Hmd, Hvd, Hcr.
  rewrite (lookup_weaken _ _ _ _ Hmd Hsub).
  rewrite (deref_weaken _ _ _ _ Hsub Hvd), (deref_weaken _ _ _ _ Hsub Hcr).
  trivial.
Qed.

(** [_extract_agent_data] writes to the object it creates and to no
    other, and leaves in it what the pure resolution computes. *)
Lemma extract_agent_data_store (σ : Store.store) agent_object agent :
  Store.read σ agent_object = Some agent ->
  let '(σ', agent_data) := Store._extract_agent_data agent_object σ in
  σ ⊆ σ'
  /\ match agent_data with
     | Ok l => Ok (Store.content σ' l)
     | Raise e => Raise e
     end = _extract_agent_data agent.
Proof.
  intros Hread.
  destruct (read_fields _ _ _ Hread) as (Hmd & Hvd & Hcr & _).
  unfold Store._extract_agent_data, Store.alloc, _extract_agent_data.
  pose proof (fresh_unallocated σ) as Hfresh.
  set (l := fresh (dom σ)) in *.
  rewrite (content_lookup _ _ _ Hmd).
  set (md := if nonempty (Agent.metadata agent) then Agent.metadata agent else []).
  (* the verification details *)
  set (σ2 := match Store.verification_details_at agent_object with
             | Some lv =>
                 if nonempty (Store.content (<[l:=md]> σ) lv)
                 then <[l := dict_update (Store.content (<[l:=md]> σ) l)
                               (Store.content (<[l:=md]> σ) lv)]> (<[l:=md]> σ)
                 else <[l:=md]> σ
             | None => <[l:=md]> σ
             end).
  set (d2 := match Agent.verification_details agent with
             | Some vd => if nonempty vd then dict_update md vd else md
             | None => md
             end).
  assert (H2 : σ ⊆ σ2 /\ Store.content σ2 l = d2
               /\ forall l', l' <> l -> Store.content σ2 l' = Store.content σ l').
  { subst σ2 d2.
    destruct (Store.verification_details_at agent_object) as [lv|].
    - destruct (deref_content _ _ _ Hvd) as (vd & -> & Hlv).
      assert (Hne : l <> lv) by congruence.
      rewrite (content_insert_ne _ _ _ _ Hne), (content_lookup _ _ _ Hlv).
      rewrite content_insert_eq.
      destruct (nonempty vd).
      + split; [|split].
        * now apply insert_subseteq_r, insert_subseteq.
        * apply content_insert_eq.
        * intros l' Hl'. rewrite !content_insert_ne by congruence. reflexivity.
      + split; [|split].
        * now apply insert_subseteq.
        * apply content_insert_eq.
        * intros l' Hl'. now rewrite content_insert_ne by congruence.
    - simpl in Hvd. injection Hvd as <-.
      split; [|split].
      + now apply insert_subseteq.
      + apply content_insert_eq.
      + intros l' Hl'. now rewrite content_insert_ne by congruence. }
  destruct H2 as (Hsub2 & Hl2 & Hother2).
  (* the credential subject *)
  rewrite Hl2.
  set (updated := match Store.vlei_credential_at agent_object with
                  | Some lc =>
                      if nonempty (Store.content σ2 lc)
                      then py_update d2
                             (dict_get (Store.content σ2 lc) "credentialSubject"
                                (VDict []))
                      else Ok d2
                  | None => Ok d2
                  end).
  assert (Hupd : updated
                 = match Agent.vlei_credential agent with
                   | Some credential =>
                       if nonempty credential
                       then py_update d2
                              (dict_get credential "credentialSubject" (VDict []))
                       else Ok d2
                   | None => Ok d2
                   end).
  { subst updated.
    destruct (Store.vlei_credential_at agent_object) as [lc|].
    - destruct (deref_content _ _ _ Hcr) as (cr & -> & Hlc).
      assert (Hne : lc <> l) by congruence.
      now rewrite (Hother2 _ Hne), (content_lookup _ _ _ Hlc).
    - simpl in Hcr. now injection Hcr as <-. }
  rewrite <- Hupd.
  destruct updated as [d|e]; simpl.
  - split; [|now rewrite content_insert_eq].
    apply insert_subseteq_r; assumption.
  - split; [assumption | reflexivity].
Qed.

Lemma evaluate_policy_store (σ : Store.store) policy agent_object agent :
  Store.read σ agent_object = Some agent ->
  let '(σ', evaluated) := Store._evaluate_policy policy agent_object σ in
  σ ⊆ σ' /\ evaluated = _evaluate_policy policy agent.
Proof.
  intros Hread. unfold Store._evaluate_policy, _evaluate_policy.
  pose proof (extract_agent_data_store _ _ _ Hread) as H.
  destruct (Store._extract_agent_data agent_object σ) as [σ' r].
  destruct H as [Hsub Hr]. now rewrite Hr.
Qed.

Lemma loop_store ps : forall (σ : Store.store) st agent_object agent,
  Store.read σ agent_object = Some agent ->
  let '(σ', st') := fold_left (Store.policy_step agent_object) ps (σ, st) in
  σ ⊆ σ' /\ st' = fold_left (policy_step agent) ps st.
Proof.
  induction ps as [|p ps IH]; intros σ st agent_object agent Hread; simpl.
  - split; reflexivity.
  - pose proof (evaluate_policy_store _ p _ _ Hread) as H1.
    destruct (Store._evaluate_policy p agent_object σ) as [σ1 evaluated].
    destruct H1 as [Hsub1 ->].
    specialize (IH σ1 (record_result st p (_evaluate_policy p agent))
                  agent_object agent (read_weaken _ _ _ _ Hsub1 Hread)).
    fold (policy_step agent st p).
    destruct (fold_left _ ps _) as [σ' st'].
    destruct IH as [Hsub ->]. split; [|reflexivity].
    now transitivity σ1.
Qed.

(** [verify_trust] over the store returns what the function on values
    returns, and every object that was there before the call is there
    after it with the same content: the two agents read as before. *)
Lemma verify_trust_store (σ : Store.store) self now s t source target :
  Store.read σ s = Some source ->
  Store.read σ t = Some target ->
  let '(σ', out) := Store.verify_trust self now s t σ in
  out = verify_trust self now source target
  /\ σ ⊆ σ'
  /\ Store.read σ' s = Some source
  /\ Store.read σ' t = Some target.
Proof.
  intros Hs Ht.
  destruct (read_fields _ _ _ Hs) as (_ & _ & _ & Hsv & Hsp).
  destruct (read_fields _ _ _ Ht) as (_ & _ & _ & Htv & _).
  unfold Store.verify_trust, verify_trust. rewrite Hsv, Htv.
  destruct (negb _ || negb _).
  - repeat split; assumption || reflexivity.
  - assert (Hps : policies_to_check self (Store.scalars s)
                  = policies_to_check self source).
    { unfold policies_to_check. now rewrite Hsp. }
    rewrite Hps.
    pose proof (loop_store (policies_to_check self source) σ no_results t target Ht) as H.
    destruct (fold_left _ _ (σ, no_results)) as [σ' st'].
    destruct H as [Hsub ->].
    repeat split; try assumption; now apply (read_weaken σ).
Qed.

(** ** C8, C6: examples on the sample agents *)

Lemma attribute_precedence_witness :
  exists agent_data,
    _extract_agent_data Samples.credentialed = Ok agent_data
    /\ dict_lookup "jurisdiction" agent_data = Some (VStr "US")
    /\ dict_lookup "esg_score" agent_data = Some (VInt 90)
    /\ dict_lookup "sector" agent_data = Some (VStr "energy")
    /\ dict_lookup "organization_size" agent_data = Some (VStr "medium").
Proof.
  destruct (attribute_precedence Samples.credentialed [("jurisdiction", VStr "US")]
              eq_refl
              ltac:(apply (bool_decide_unpack _); vm_compute; exact I)
              ltac:(apply (bool_decide_unpack _); vm_compute; exact I))
    as (agent_data & Hex & Hall & _).
  exists agent_data. split; [exact Hex|].
  rewrite !Hall. repeat split.
Defined.

(** A credential subject that is not a mapping makes the resolution raise:
    every policy then fails with score 0.0, and the failure is logged. *)
Example malformed_credential_subject :
  _extract_agent_data Samples.malformed = Raise TypeError
  /\ _evaluate_policy (Samples.policy "p" []) Samples.malformed
     = ({| PolicyResult.policy_name := "p";
           PolicyResult.passed := false;
           PolicyResult.details := ErrorDetails TypeError;
           PolicyResult.score := F64.zero |},
        [ErrorEvaluatingPolicy "p" TypeError]).
Proof. split; reflexivity. Qed.

(** ** C6: repeated calls *)

(** C6 fails as stated: the verification details of two calls on the
    same verified agents differ when the clock has moved in between. *)
Lemma deterministic_counterexample :
  fst (verify_trust Samples.service 1%Z Samples.agent_a Samples.agent_b)
  <> fst (verify_trust Samples.service 2%Z Samples.agent_a Samples.agent_b).
Proof.
  intros H.
  apply (f_equal (fun r => timestamp_of (TrustVerificationResult.verification_details r)))
    in H.
  vm_compute in H. discriminate H.
Qed.

(** C6, amended. Two calls of [verify_trust] on the same agents agree on
    allowed, reason, score, policies_passed, policies_failed, on the policy
    results in the verification details and on what they log; the
    timestamp in the verification details is the reading of the clock at
    each call, and is absent when an agent is not verified, in which case
    the two results are equal.  A call leaves every dict object that
    existed before it with its content, so both agents read as before. *)
Theorem repeatable_up_to_timestamp self source target now1 now2 :
  let out1 := verify_trust self now1 source target in
  let out2 := verify_trust self now2 source target in
  let r1 := fst out1 in
  let r2 := fst out2 in
  TrustVerificationResult.allowed r1 = TrustVerificationResult.allowed r2
  /\ TrustVerificationResult.reason r1 = TrustVerificationResult.reason r2
  /\ TrustVerificationResult.score r1 = TrustVerificationResult.score r2
  /\ TrustVerificationResult.policies_passed r1
     = TrustVerificationResult.policies_passed r2
  /\ TrustVerificationResult.policies_failed r1
     = TrustVerificationResult.policies_failed r2
  /\ evaluated_policies (TrustVerificationResult.verification_details r1)
     = evaluated_policies (TrustVerificationResult.verification_details r2)
  /\ snd out1 = snd out2
  /\ (Agent.credential_verified source && Agent.credential_verified target = true ->
      timestamp_of (TrustVerificationResult.verification_details r1) = Some now1
      /\ timestamp_of (TrustVerificationResult.verification_details r2) = Some now2)
  /\ (Agent.credential_verified source && Agent.credential_verified target = false ->
      out1 = out2)
  /\ (now1 = now2 -> out1 = out2)
  /\ forall (σ : Store.store) s t,
       Store.read σ s = Some source ->
       Store.read σ t = Some target ->
       exists σ',
         Store.verify_trust self now1 s t σ = (σ', out1)
         /\ σ ⊆ σ'
         /\ Store.read σ' s = Some source
         /\ Store.read σ' t = Some target.
Proof.
  intros out1 out2 r1 r2. subst r1 r2 out1 out2.
  split; [|split; [|split; [|split; [|split; [|split; [|split; [|split; [|split; [|split]]]]]]]]];
    try (unfold verify_trust;
         destruct (Agent.credential_verified source),
                  (Agent.credential_verified target); simpl; reflexivity).
  - unfold verify_trust. intros Hv. apply andb_true_iff in Hv.
    destruct Hv as [-> ->]. simpl. split; reflexivity.
  - unfold verify_trust. intros Hv. apply andb_false_iff in Hv.
    destruct Hv as [-> | ->]; simpl; [reflexivity|].
    now rewrite orb_true_r.
  - now intros ->.
  - intros σ s t Hs Ht.
    pose proof (verify_trust_store σ self now1 s t source target Hs Ht) as H.
    destruct (Store.verify_trust self now1 s t σ) as [σ' out].
    destruct H as (-> & Hsub & Hs' & Ht').
    exists σ'. repeat split; assumption.
Qed.

(** On the sample store: the call allocates one attribute set per policy
    of A, and the four objects of the two agents keep their content. *)
Example store_untouched :
  let '(σ', out) :=
    Store.verify_trust Samples.service 7%Z Samples.object_a Samples.object_e
      Samples.objects in
  TrustVerificationResult.allowed (fst out) = true
  /\ σ' !! 1%positive = Samples.objects !! 1%positive
  /\ σ' !! 2%positive = Samples.objects !! 2%positive
  /\ σ' !! 3%positive = Samples.objects !! 3%positive
  /\ σ' !! 4%positive = Samples.objects !! 4%positive
  /\ size σ' = 5%nat.
Proof. vm_compute. repeat split. Qed.

(* ===================================================================== *)
(** * Further properties of the trust service *)
(* ===================================================================== *)

(** ** The set-membership rules *)



Lemma py_in_list v l : py_in v (VList l) = Ok (element_of v l).
Proof. reflexivity. Qed.

Lemma element_of_nonempty v l : element_of v l = true -> nonempty l = true.
Proof. destruct l; [discriminate | reflexivity]. Qed.

Lemma truthy_list l : truthy (VList l) = nonempty l.
Proof. reflexivity. Qed.



(** X2. When the allowed, blocked and preferred entries of a jurisdiction
    rule are lists (an absent entry counts as the empty list), the rule
    passes exactly when the jurisdiction is not in blocked and, unless
    allowed is empty, is in allowed.  The preferred list only sets the
    preferred flag of a passing result: true when the list is empty or
    holds the jurisdiction.  To be in a list is what [in] tests: to be an
    element of the list or equal to one; for every jurisdiction that is
    not a NaN this is to be equal to an element. *)
Theorem jurisdiction_rule_verdict (config : dict pyval) agent_data
    allowed blocked preferred :
  dict_get config "allowed" (VList []) = VList allowed ->
  dict_get config "blocked" (VList []) = VList blocked ->
  dict_get config "preferred" (VList []) = VList preferred ->
  let jurisdiction := dict_get agent_data "jurisdiction" (VStr "UNKNOWN") in
  let r := _evaluate_rule "jurisdiction" (VDict config) agent_data in
  RuleResult.passed r
  = negb (element_of jurisdiction blocked) && allowed_by jurisdiction allowed
  /\ RuleResult.value r = Some jurisdiction
  /\ (RuleResult.passed r = true ->
      RuleResult.preferred r = Some (allowed_by jurisdiction preferred))
  /\ (RuleResult.passed r = false -> RuleResult.preferred r = None)
  /\ (is_nan jurisdiction = false ->
      RuleResult.passed r
      = negb (listed jurisdiction blocked)
        && (negb (nonempty allowed) || listed jurisdiction allowed)).
Proof.
  intros Ha Hb Hp jurisdiction r. subst r.
  assert (Hmain :
    let r := _evaluate_rule "jurisdiction" (VDict config) agent_data in
    RuleResult.passed r
    = negb (element_of jurisdiction blocked) && allowed_by jurisdiction allowed
    /\ RuleResult.value r = Some jurisdiction
    /\ (RuleResult.passed r = true ->
        RuleResult.preferred r = Some (allowed_by jurisdiction preferred))
    /\ (RuleResult.passed r = false -> RuleResult.preferred r = None)).
  { unfold _evaluate_rule, _evaluate_jurisdiction_rule. simpl.
    rewrite Ha, Hb, Hp. fold jurisdiction.
    rewrite !truthy_list, !py_in_list. unfold allowed_by.
    destruct (element_of jurisdiction blocked) eqn:Hinb.
    - rewrite (element_of_nonempty _ _ Hinb). simpl. repeat split; discriminate.
    - assert (Hblocked :
        (if nonempty blocked then Ok false else Ok false) = Ok false :> result bool)
        by (now destruct (nonempty blocked)).
      rewrite Hblocked. simpl.
      destruct (nonempty allowed); simpl.
      + destruct (element_of jurisdiction allowed); simpl.
        * destruct (nonempty preferred); simpl; repeat split; discriminate.
        * repeat split; discriminate.
      + destruct (nonempty preferred); simpl; repeat split; discriminate. }
  cbv zeta in Hmain. destruct Hmain as (Hpassed & Hvalue & Hpref & Hnone).
  split; [exact Hpassed|]. split; [exact Hvalue|].
  split; [exact Hpref|]. split; [exact Hnone|].
  intros Hn. rewrite Hpassed. unfold allowed_by.
  now rewrite !(element_of_listed _ _ Hn).
Qed.

Lemma jurisdiction_rule_verdict_witness :
  let r :=
    _evaluate_rule "jurisdiction"
      (VDict [("allowed", VList [VStr "EU"; VStr "US"]);
              ("preferred", VList [VStr "EU"])])
      [("jurisdiction", VStr "US")] in
  RuleResult.passed r = true /\ RuleResult.preferred r = Some false.
Proof.
  destruct (jurisdiction_rule_verdict
              [("allowed", VList [VStr "EU"; VStr "US"]);
               ("preferred", VList [VStr "EU"])]
              [("jurisdiction", VStr "US")]
              [VStr "EU"; VStr "US"] [] [VStr "EU"] eq_refl eq_refl eq_refl)
    as (Hp & _ & Hpref & _).
  split; [exact Hp | exact (Hpref Hp)].
Defined.

(** X3. When the allowed and blocked entries of a sector rule are lists
    (an absent entry counts as the empty list), the rule passes exactly
    when the sector is not in blocked and, unless allowed is empty, is in
    allowed; so a sector rule without the two entries passes every sector,
    the fallback "unknown" of a missing attribute included.  To be in a
    list is what [in] tests: to be an element of the list or equal to one;
    for every sector that is not a NaN this is to be equal to an
    element. *)
Theorem sector_rule_verdict (config : dict pyval) agent_data allowed blocked :
  dict_get config "allowed" (VList []) = VList allowed ->
  dict_get config "blocked" (VList []) = VList blocked ->
  let sector := dict_get agent_data "sector" (VStr "unknown") in
  let r := _evaluate_rule "sector" (VDict config) agent_data in
  RuleResult.passed r = negb (element_of sector blocked) && allowed_by sector allowed
  /\ RuleResult.value r = Some sector
  /\ (dict_lookup "allowed" config = None ->
      dict_lookup "blocked" config = None ->
      RuleResult.passed r = true)
  /\ (is_nan sector = false ->
      RuleResult.passed r
      = negb (listed sector blocked)
        && (negb (nonempty allowed) || listed sector allowed)).
Proof.
  intros Ha Hb sector r. subst r.
  assert (Hmain :
    RuleResult.passed (_evaluate_rule "sector" (VDict config) agent_data)
    = negb (element_of sector blocked) && allowed_by sector allowed
    /\ RuleResult.value (_evaluate_rule "sector" (VDict config) agent_data)
       = Some sector).
  { unfold _evaluate_rule, _evaluate_sector_rule. simpl.
    rewrite Ha, Hb. fold sector.
    rewrite !truthy_list, !py_in_list. unfold allowed_by.
    destruct (element_of sector blocked) eqn:Hinb.
    - rewrite (element_of_nonempty _ _ Hinb). simpl. split; reflexivity.
    - assert (Hblocked :
        (if nonempty blocked then Ok false else Ok false) = Ok false :> result bool)
        by (now destruct (nonempty blocked)).
      rewrite Hblocked. simpl.
      destruct (nonempty allowed); simpl; [|split; reflexivity].
      destruct (element_of sector allowed); simpl; split; reflexivity. }
  destruct Hmain as [Hp Hv]. split; [exact Hp|]. split; [exact Hv|]. split.
  - intros Hna Hnb. rewrite Hp.
    unfold dict_get in Ha, Hb. rewrite Hna in Ha. rewrite Hnb in Hb.
    injection Ha as <-. injection Hb as <-. reflexivity.
  - intros Hn. rewrite Hp. unfold allowed_by.
    now rewrite !(element_of_listed _ _ Hn).
Qed.

Lemma sector_rule_verdict_witness :
  RuleResult.passed
    (_evaluate_rule "sector"
       (VDict [("allowed", VList [VStr "finance"; VStr "energy"]);
               ("blocked", VList [VStr "energy"])])
       [("sector", VStr "energy")]) = false.
Proof.
  exact (proj1 (sector_rule_verdict
                  [("allowed", VList [VStr "finance"; VStr "energy"]);
                   ("blocked", VList [VStr "energy"])]
                  [("sector", VStr "energy")]
                  [VStr "finance"; VStr "energy"] [VStr "energy"] eq_refl eq_refl)).
Defined.

(** ** Configurations that are not mappings *)

(** X4. A built-in rule whose configuration is not a dict fails with an
    AttributeError caught by [_evaluate_rule]: the rule result has
    passed=false and carries neither value nor requirement. *)
Theorem malformed_config_fails rule_name rule_config agent_data :
  In rule_name builtin_rules ->
  is_dict rule_config = false ->
  _evaluate_rule rule_name rule_config agent_data = rule_error AttributeError.
Proof.
  intros Hin Hnd. unfold builtin_rules in Hin. simpl in Hin.
  destruct Hin as [<-|[<-|[<-|[<-|[]]]]];
    destruct rule_config; try discriminate Hnd; reflexivity.
Qed.

Lemma malformed_config_fails_witness :
  _evaluate_rule "esg_score" (VInt 85) [("esg_score", VInt 99)]
  = rule_error AttributeError.
Proof.
  apply malformed_config_fails; [|reflexivity].
  unfold builtin_rules. simpl. tauto.
Defined.

(** ** The esg_score rule *)

(** X5. When min and max of an esg_score rule are ints (0 and 100 when
    absent), the rule passes exactly when the esg_score attribute (50 when
    the attribute set has none) is a number between min and max, both
    included; a str, None, list or dict score fails it, and so does every
    score when max is below min. *)
Theorem esg_rule_range (config : dict pyval) agent_data lo hi :
  dict_get config "min" (VInt 0) = VInt lo ->
  dict_get config "max" (VInt 100) = VInt hi ->
  let esg_score := dict_get agent_data "esg_score" (VInt 50) in
  let passed := RuleResult.passed (_evaluate_rule "esg_score" (VDict config) agent_data) in
  (passed = true
   <-> exists q, py_num esg_score = Some (XFin q)
                 /\ (inject_Z lo <= q /\ q <= inject_Z hi)%Q)
  /\ (py_num esg_score = None -> passed = false)
  /\ ((hi < lo)%Z -> passed = false).
Proof.
  intros Hlo Hhi esg_score passed.
  assert (Hiff : passed = true
                 <-> exists q, py_num esg_score = Some (XFin q)
                               /\ (inject_Z lo <= q /\ q <= inject_Z hi)%Q).
  { subst passed. rewrite esg_rule_passed, Hlo, Hhi. apply between_ints. }
  split; [exact Hiff|]. split.
  - intros Hnone. apply not_true_is_false. intros Hp.
    apply Hiff in Hp. destruct Hp as (q & Hq & _). congruence.
  - intros Hlt. apply not_true_is_false. intros Hp.
    apply Hiff in Hp. destruct Hp as (q & _ & H1 & H2).
    assert (H : (inject_Z lo <= inject_Z hi)%Q) by (eapply Qle_trans; eassumption).
    rewrite <- Zle_Qle in H. lia.
Qed.

Lemma esg_rule_range_witness :
  RuleResult.passed
    (_evaluate_rule "esg_score" (VDict [("min", VInt 60); ("max", VInt 40)])
       [("esg_score", VInt 50)]) = false.
Proof.
  refine (proj2 (proj2 (esg_rule_range [("min", VInt 60); ("max", VInt 40)]
                          [("esg_score", VInt 50)] 60 40 eq_refl eq_refl)) _).
  reflexivity.
Defined.

(** ** The resolved attribute set *)

Lemma keys_dict_set {V} k (v : V) (d : dict V) :
  keys (dict_set k v d) = if dict_mem k d then keys d else keys d ++ [k].
Proof.
  unfold keys, dict_mem. induction d as [|[k0 v0] d IH]; simpl; [reflexivity|].
  destruct (String.eqb_spec k k0) as [->|Hne]; simpl; [reflexivity|].
  rewrite IH. now destruct (dict_lookup k d).
Qed.

Lemma dict_mem_In {V} k (d : dict V) : dict_mem k d = true <-> In k (keys d).
Proof.
  unfold dict_mem, keys. induction d as [|[k0 v0] d IH]; simpl.
  - split; [discriminate | tauto].
  - destruct (String.eqb_spec k k0) as [->|Hne].
    + split; [now left | reflexivity].
    + rewrite IH. split; [now right | intros [H|H]; [congruence | exact H]].
Qed.

Lemma dict_set_wf {V} k (v : V) (d : dict V) :
  NoDup (keys d) -> NoDup (keys (dict_set k v d)).
Proof.
  intros Hnd. rewrite keys_dict_set.
  destruct (dict_mem k d) eqn:Hmem; [assumption|].
  apply NoDup_app. split; [assumption|]. split; [|apply NoDup_singleton].
  intros x Hx Hx'. apply list_elem_of_In in Hx. apply list_elem_of_In in Hx'.
  destruct Hx' as [<-|[]].
  apply dict_mem_In in Hx. congruence.
Qed.

Lemma dict_set_keeps {V} k k' (v : V) (d : dict V) :
  dict_mem k d = true -> dict_mem k (dict_set k' v d) = true.
Proof.
  rewrite !dict_mem_In, keys_dict_set.
  destruct (dict_mem k' d); [trivial|]. intros H. apply in_or_app. now left.
Qed.

(** A property of dicts that every item assignment keeps is kept by the
    whole resolution. *)
Section Preserved.
Variable P : dict pyval -> Prop.
Hypothesis P_set : forall k v d, P d -> P (dict_set k v d).

Lemma preserved_dict_update (e d : dict pyval) : P d -> P (dict_update d e).
Proof.
  unfold dict_update. revert d.
  induction e as [|[k0 v0] e IH]; intros d H; simpl; [exact H|].
  apply IH. now apply P_set.
Qed.

Lemma preserved_update_pairs els : forall d d',
  P d -> update_pairs d els = Ok d' -> P d'.
Proof.
  induction els as [|el els IH]; intros d d' H; simpl.
  - now intros [= <-].
  - unfold update_pair.
    destruct (as_sequence el) as [items|]; simpl; [|discriminate].
    destruct items as [|x [|y [|z items]]]; simpl; try discriminate.
    destruct x; simpl; try discriminate; try (apply IH; assumption).
    apply IH. now apply P_set.
Qed.

Lemma preserved_py_update other d d' : P d -> py_update d other = Ok d' -> P d'.
Proof.
  intros H. destruct other; simpl; try discriminate.
  - now apply preserved_update_pairs.
  - now apply preserved_update_pairs.
  - intros [= <-]. now apply preserved_dict_update.
Qed.

Lemma preserved_add_defaults d : P d -> P (add_defaults d).
Proof.
  unfold add_defaults. generalize defaults. intros dflt. revert d.
  induction dflt as [|[k0 v0] dflt IH]; intros d H; simpl; [exact H|].
  apply IH. destruct (dict_mem k0 d); [exact H | now apply P_set].
Qed.

Lemma preserved_extract agent agent_data :
  P (Agent.metadata agent) ->
  _extract_agent_data agent = Ok agent_data ->
  P agent_data.
Proof.
  intros Hmd. unfold _extract_agent_data.
  replace (if nonempty (Agent.metadata agent) then Agent.metadata agent else [])
    with (Agent.metadata agent) by (now destruct (Agent.metadata agent)).
  set (d2 := match Agent.verification_details agent with
             | Some vd =>
                 if nonempty vd then dict_update (Agent.metadata agent) vd
                 else Agent.metadata agent
             | None => Agent.metadata agent
             end).
  assert (H2 : P d2).
  { subst d2. destruct (Agent.verification_details agent) as [vd|]; [|exact Hmd].
    destruct (nonempty vd); [now apply preserved_dict_update | exact Hmd]. }
  destruct (Agent.vlei_credential agent) as [credential|].
  - destruct (nonempty credential).
    + destruct (py_update d2 _) as [d3|e] eqn:Hupd; simpl; [|discriminate].
      intros [= <-]. apply preserved_add_defaults.
      eapply preserved_py_update; eassumption.
    + simpl. intros [= <-]. now apply preserved_add_defaults.
  - simpl. intros [= <-]. now apply preserved_add_defaults.
Qed.
End Preserved.

Lemma extract_adds_defaults agent agent_data :
  _extract_agent_data agent = Ok agent_data ->
  exists d, agent_data = add_defaults d.
Proof.
  unfold _extract_agent_data.
  match goal with
  | |- context [Py.bind ?m _] => destruct m as [d3|e]; simpl; [|discriminate]
  end.
  intros [= <-]. now exists d3.
Qed.

(** X6. Whenever the attribute resolution succeeds, the resolved set
    defines esg_score, jurisdiction, organization_size and sector (so the
    fallbacks 50, "UNKNOWN", "medium" and "unknown" of the rules are not
    used on it), it keeps every key of the metadata, and its keys are
    pairwise distinct when those of the metadata are. *)
Theorem resolved_set_well_formed agent agent_data :
  _extract_agent_data agent = Ok agent_data ->
  (forall key, In key builtin_rules ->
     exists v, dict_lookup key agent_data = Some v
               /\ forall fallback, dict_get agent_data key fallback = v)
  /\ (forall key, dict_mem key (Agent.metadata agent) = true ->
        dict_mem key agent_data = true)
  /\ (NoDup (keys (Agent.metadata agent)) -> NoDup (keys agent_data)).
Proof.
  intros Hex. split; [|split].
  - intros key Hin.
    destruct (extract_adds_defaults _ _ Hex) as [d ->].
    assert (Hd : exists v, dict_lookup key defaults = Some v).
    { unfold builtin_rules in Hin. simpl in Hin.
      destruct Hin as [<-|[<-|[<-|[<-|[]]]]]; eexists; reflexivity. }
    destruct Hd as [dv Hdv].
    pose proof (dict_lookup_add_defaults key d) as Hl. rewrite Hdv in Hl.
    destruct (dict_lookup key d) as [w|]; simpl in Hl.
    + exists w. split; [exact Hl|]. intros fallback. unfold dict_get. now rewrite Hl.
    + exists dv. split; [exact Hl|]. intros fallback. unfold dict_get. now rewrite Hl.
  - intros key Hmem.
    apply (preserved_extract (fun d => dict_mem key d = true)
             (fun k v d H => dict_set_keeps key k v d H) agent agent_data Hmem Hex).
  - intros Hnd.
    apply (preserved_extract (fun d => NoDup (keys d))
             (fun k v d H => dict_set_wf k v d H) agent agent_data Hnd Hex).
Qed.

Lemma resolved_set_well_formed_witness :
  exists agent_data,
    _extract_agent_data Samples.credentialed = Ok agent_data
    /\ NoDup (keys agent_data).
Proof.
  eexists. split; [reflexivity|].
  refine (proj2 (proj2 (resolved_set_well_formed Samples.credentialed _ eq_refl)) _).
  apply (bool_decide_unpack _). vm_compute. exact I.
Defined.

(** ** The lists of a result *)

Lemma filter_split_Permutation {A} (f : A -> bool) (l : list A) :
  Permutation (List.filter f l ++ List.filter (fun x => negb (f x)) l) l.
Proof.
  induction l as [|x l IH]; simpl; [constructor|].
  destruct (f x); simpl.
  - now constructor.
  - apply Permutation_sym, Permutation_cons_app, Permutation_sym, IH.
Qed.

(** X7. For two verified agents, every policy that is checked is named
    once in policies_passed or in policies_failed, in the order of the
    policies, and the verification details hold one policy result per
    policy, in that order and under the name of the policy. *)
Theorem policies_are_partitioned self now source target :
  Agent.credential_verified source = true ->
  Agent.credential_verified target = true ->
  let r := fst (verify_trust self now source target) in
  let ps := policies_to_check self source in
  Permutation (TrustVerificationResult.policies_passed r
               ++ TrustVerificationResult.policies_failed r)
              (map TrustPolicy.name ps)
  /\ TrustVerificationResult.policies_passed r
     = map TrustPolicy.name
         (List.filter (fun p => PolicyResult.passed (result_of target p)) ps)
  /\ TrustVerificationResult.policies_failed r
     = map TrustPolicy.name
         (List.filter (fun p => negb (PolicyResult.passed (result_of target p))) ps)
  /\ exists policy_results,
       TrustVerificationResult.verification_details r
       = PolicyEvaluation policy_results now
       /\ map PolicyResult.policy_name policy_results = map TrustPolicy.name ps.
Proof.
  intros Hs Ht r ps. subst r ps.
  rewrite (verify_trust_verified _ _ _ _ Hs Ht). unfold decision. simpl.
  split; [|split; [reflexivity|split; [reflexivity|]]].
  - rewrite <- map_app. apply Permutation_map.
    apply (filter_split_Permutation (passes_on target)).
  - eexists. split; [reflexivity|].
    rewrite map_map. apply map_ext. intros p. apply result_of_name.
Qed.

Lemma policies_are_partitioned_witness :
  let r := fst (verify_trust Samples.service 7%Z Samples.diluted Samples.agent_b) in
  TrustVerificationResult.policies_passed r = ["p1"; "p2"; "p3"]
  /\ TrustVerificationResult.policies_failed r = ["strict"].
Proof.
  destruct (policies_are_partitioned Samples.service 7%Z Samples.diluted
              Samples.agent_b eq_refl eq_refl) as (_ & Hp & Hf & _).
  split; [rewrite Hp | rewrite Hf]; reflexivity.
Defined.

(** ** A target whose attributes do not resolve *)

Lemma result_of_unresolved target policy e :
  _extract_agent_data target = Raise e ->
  _evaluate_policy policy target
  = (policy_error policy e, [ErrorEvaluatingPolicy (TrustPolicy.name policy) e]).
Proof. intros H. unfold _evaluate_policy. now rewrite H. Qed.

Lemma result_of_resolved target policy agent_data :
  _extract_agent_data target = Ok agent_data ->
  _evaluate_policy policy target = (evaluate_rules policy agent_data, []).
Proof. intros H. unfold _evaluate_policy. now rewrite H. Qed.

Lemma filter_all {A} (f : A -> bool) (l : list A) :
  (forall x, In x l -> f x = true) -> List.filter f l = l.
Proof.
  induction l as [|x l IH]; simpl; intros H; [reflexivity|].
  rewrite (H x (or_introl eq_refl)). f_equal. apply IH. intros y Hy. apply H. now right.
Qed.

Lemma filter_none {A} (f : A -> bool) (l : list A) :
  (forall x, In x l -> f x = false) -> List.filter f l = [].
Proof.
  induction l as [|x l IH]; simpl; intros H; [reflexivity|].
  rewrite (H x (or_introl eq_refl)). apply IH. intros y Hy. apply H. now right.
Qed.

Lemma log_of_unresolved target e ps :
  _extract_agent_data target = Raise e ->
  concat (map (fun p => snd (_evaluate_policy p target)) ps)
  = map (fun p => ErrorEvaluatingPolicy (TrustPolicy.name p) e) ps.
Proof.
  intros He. induction ps as [|p ps IH]; simpl; [reflexivity|].
  now rewrite (result_of_unresolved _ _ _ He), IH.
Qed.

(** X8. When the attribute resolution of a verified target raises (as it
    does for a credentialSubject that is a number), a verified source
    rejects it whatever its policies are: every policy is in
    policies_failed, none in policies_passed, each policy result has
    passed=false, score 0.0 and the error as details, and one error is
    logged per policy. *)
Theorem unresolved_target_is_rejected self now source target e :
  Agent.credential_verified source = true ->
  Agent.credential_verified target = true ->
  _extract_agent_data target = Raise e ->
  let out := verify_trust self now source target in
  let ps := policies_to_check self source in
  TrustVerificationResult.allowed (fst out) = false
  /\ TrustVerificationResult.policies_passed (fst out) = []
  /\ TrustVerificationResult.policies_failed (fst out) = map TrustPolicy.name ps
  /\ TrustVerificationResult.verification_details (fst out)
     = PolicyEvaluation (map (fun p => policy_error p e) ps) now
  /\ snd out = map (fun p => ErrorEvaluatingPolicy (TrustPolicy.name p) e) ps.
Proof.
  intros Hs Ht He out ps. subst out ps.
  assert (Hres : forall p, result_of target p = policy_error p e).
  { intros p. unfold result_of. now rewrite (result_of_unresolved _ _ _ He). }
  assert (Hfails : List.filter (fails_on target) (policies_to_check self source)
                   = policies_to_check self source).
  { apply filter_all. intros p _. unfold fails_on. now rewrite Hres. }
  assert (Hpasses : List.filter (passes_on target) (policies_to_check self source) = []).
  { apply filter_none. intros p _. unfold passes_on. now rewrite Hres. }
  rewrite (verify_trust_verified _ _ _ _ Hs Ht). unfold decision. simpl.
  rewrite Hfails, Hpasses. simpl.
  split; [|split; [reflexivity|split; [reflexivity|split]]].
  - destruct (policies_to_check self source) as [|p ps]; simpl.
    + reflexivity.
    + apply andb_false_r.
  - f_equal. apply map_ext. intros p. apply Hres.
  - unfold verify_trust. rewrite Hs, Ht. simpl. unfold conclude. simpl.
    rewrite loop_log. simpl. now apply log_of_unresolved.
Qed.

Lemma unresolved_target_is_rejected_witness :
  let out := verify_trust Samples.service 7%Z Samples.agent_a Samples.malformed in
  TrustVerificationResult.allowed (fst out) = false
  /\ snd out = [ErrorEvaluatingPolicy "esg-85" TypeError].
Proof.
  destruct (unresolved_target_is_rejected Samples.service 7%Z Samples.agent_a
              Samples.malformed TypeError eq_refl eq_refl eq_refl)
    as (Ha & _ & _ & _ & Hl).
  split; [exact Ha | exact Hl].
Defined.

(** ** What [verify_trust] reads *)

Lemma extract_same_target target target' :
  same_target target target' ->
  _extract_agent_data target = _extract_agent_data target'.
Proof.
  intros (_ & Hm & Hv & Hc). unfold _extract_agent_data. now rewrite Hm, Hv, Hc.
Qed.

Lemma fold_left_ext_in {A B} (f g : A -> B -> A) (l : list B) :
  (forall a b, f a b = g a b) -> forall a, fold_left f l a = fold_left g l a.
Proof.
  intros H. induction l as [|b l IH]; intros a; simpl; [reflexivity|].
  now rewrite H, IH.
Qed.

Lemma verify_trust_same_inputs self now source source' target target' :
  same_source source source' ->
  same_target target target' ->
  verify_trust self now source target = verify_trust self now source' target'.
Proof.
  intros [Hsv Hsp] Htgt. pose proof Htgt as (Htv & _).
  unfold verify_trust, policies_to_check. rewrite Hsv, Htv, Hsp.
  destruct (negb _ || negb _); [reflexivity|].
  f_equal. apply fold_left_ext_in. intros st p.
  unfold policy_step, _evaluate_policy.
  now rewrite (extract_same_target _ _ Htgt).
Qed.

(** X9. The result and the log of [verify_trust] depend on the verified
    flag and the trust policies of the source, and on the verified flag,
    the metadata, the verification details and the credential of the
    target, and on nothing else of the two agents: not on their status
    (inactive or suspended agents are judged like active ones), not on the
    policies of the target, not on the attributes of the source. *)
Theorem verify_trust_reads self now source source' target target' :
  same_source source source' ->
  same_target target target' ->
  verify_trust self now source target = verify_trust self now source' target'.
Proof. exact (verify_trust_same_inputs self now source source' target target'). Qed.

Lemma verify_trust_reads_witness :
  verify_trust Samples.service 7%Z Samples.agent_a Samples.agent_b
  = verify_trust Samples.service 7%Z Samples.agent_a MoreSamples.suspended_b.
Proof.
  apply verify_trust_reads.
  - split; reflexivity.
  - repeat split; reflexivity.
Defined.

(* ===================================================================== *)
(** * The trust score, exactly *)
(* ===================================================================== *)

(** ** binary64 sums and quotients of small integers *)

Lemma pos_iter_nshift p c : Pos.iter xO p c = nshift (Pos.to_nat c) p.
Proof. unfold nshift. rewrite Pos2Nat.inj_iter. reflexivity. Qed.

Lemma nshift_add a b p : nshift (a + b) p = nshift a (nshift b p).
Proof. unfold nshift. apply Nat.iter_add. Qed.

Lemma digits_nshift j p :
  Zpos (digits2_pos (nshift j p)) = (Zpos (digits2_pos p) + Z.of_nat j)%Z.
Proof.
  induction j as [|j IH]; simpl.
  - lia.
  - rewrite Pos2Z.inj_succ, IH. lia.
Qed.

Lemma nshift_plus j a b : (nshift j a + nshift j b)%positive = nshift j (a + b).
Proof.
  induction j as [|j IH]; [reflexivity|].
  change (nshift (S j) (a + b)) with (xO (nshift j (a + b))).
  rewrite <- IH. reflexivity.
Qed.

Lemma iter_pos_nat {A} (f : A -> A) c x :
  SpecFloat.iter_pos f c x = Nat.iter (Pos.to_nat c) f x.
Proof.
  revert x. induction c as [c IH|c IH|]; intros x; cbn [SpecFloat.iter_pos].
  - rewrite !IH, <- Nat.iter_add, <- Nat.iter_succ_r.
    f_equal. lia.
  - rewrite !IH, <- Nat.iter_add. f_equal. lia.
  - reflexivity.
Qed.

Lemma shr_nshift j a :
  Nat.iter j shr_1 {| shr_m := Zpos (nshift j a); shr_r := false; shr_s := false |}
  = {| shr_m := Zpos a; shr_r := false; shr_s := false |}.
Proof.
  induction j as [|j IH]; [reflexivity|].
  rewrite Nat.iter_succ_r. simpl. exact IH.
Qed.

Lemma fexp_53 d : (-1021 <= d)%Z -> fexp 53 1024 d = (d - 53)%Z.
Proof. intros H. unfold fexp, emin. lia. Qed.

Lemma shr_fexp_canonical m e :
  Zpos (digits2_pos m) = 53%Z -> (-1074 <= e)%Z ->
  shr_fexp 53 1024 (Zpos m) e loc_Exact
  = ({| shr_m := Zpos m; shr_r := false; shr_s := false |}, e).
Proof.
  intros Hd He. unfold shr_fexp. cbn [Zdigits2]. rewrite Hd.
  rewrite fexp_53 by lia.
  replace (53 + e - 53 - e)%Z with 0%Z by lia. reflexivity.
Qed.

(** A mantissa of 53 bits with an exponent in range is not rounded. *)
Lemma round_canonical m e :
  Zpos (digits2_pos m) = 53%Z -> (-1074 <= e <= 971)%Z ->
  binary_round_aux 53 1024 false (Zpos m) e loc_Exact = S754_finite false m e.
Proof.
  intros Hd He. unfold binary_round_aux.
  rewrite shr_fexp_canonical by (assumption || lia).
  cbn [shr_m loc_of_shr_record round_nearest_even].
  rewrite shr_fexp_canonical by (assumption || lia).
  cbn [shr_m].
  replace (e <=? 1024 - 53)%Z with true by (symmetry; apply Z.leb_le; lia).
  reflexivity.
Qed.

(** Rounding the integer [q], given as [q * 2^j * 2^(-j)], gives its
    normal form when [q] has at most 53 bits. *)
Lemma round_shifted q j :
  (Zpos (digits2_pos q) <= 53)%Z -> (j <= 52)%nat ->
  binary_round 53 1024 false (nshift j q) (- Z.of_nat j) = normal q.
Proof.
  intros Hd Hj. unfold binary_round, normal.
  rewrite digits_nshift.
  rewrite fexp_53 by lia.
  set (d := digits2_pos q) in *.
  unfold shl_align.
  destruct (Zpos d + Z.of_nat j + - Z.of_nat j - 53 - - Z.of_nat j)%Z as [|c|c] eqn:Ec.
  - (* already canonical *)
    assert (Hjd : j = (53 - Pos.to_nat d)%nat) by lia.
    rewrite round_canonical.
    + f_equal; [now rewrite Hjd | lia].
    + rewrite digits_nshift. fold d. lia.
    + lia.
  - (* shift right by c *)
    unfold binary_round_aux. unfold shr_fexp at 1. cbn [Zdigits2].
    rewrite digits_nshift. fold d. rewrite fexp_53 by lia.
    replace (Zpos d + Z.of_nat j + - Z.of_nat j - 53 - - Z.of_nat j)%Z with (Zpos c) by lia.
    unfold shr. cbn [shr_record_of_loc].
    rewrite iter_pos_nat.
    assert (Hsplit : nshift j q = nshift (Pos.to_nat c) (nshift (53 - Pos.to_nat d) q)).
    { rewrite <- nshift_add. f_equal. lia. }
    rewrite Hsplit, shr_nshift.
    cbn [shr_m loc_of_shr_record round_nearest_even].
    rewrite shr_fexp_canonical.
    + cbn [shr_m].
      replace (- Z.of_nat j + Zpos c <=? 1024 - 53)%Z with true
        by (symmetry; apply Z.leb_le; lia).
      f_equal. lia.
    + rewrite digits_nshift. fold d. lia.
    + lia.
  - (* shift left by c *)
    rewrite pos_iter_nshift, <- nshift_add.
    replace (Pos.to_nat c + j)%nat with (53 - Pos.to_nat d)%nat by lia.
    rewrite round_canonical.
    + f_equal. lia.
    + rewrite digits_nshift. fold d. lia.
    + lia.
Qed.

Lemma digits_size p : digits2_pos p = Pos.size p.
Proof. induction p as [p IH|p IH|]; simpl; now rewrite ?IH. Qed.

Lemma digits_le_53 p : (Zpos p < 2 ^ 53)%Z -> (Zpos (digits2_pos p) <= 53)%Z.
Proof.
  intros Hp. rewrite digits_size.
  destruct (Z.le_gt_cases (Zpos (Pos.size p)) 53) as [H|H]; [exact H|exfalso].
  pose proof (Pos.size_le p) as Hle.
  assert (H2 : (2 ^ Zpos (Pos.size p) <= 2 * Zpos p)%Z).
  { rewrite <- Pos2Z.inj_pow. change (2 * Zpos p)%Z with (Zpos p~0).
    now apply Pos2Z.pos_le_pos. }
  assert (H3 : (2 ^ 54 <= 2 ^ Zpos (Pos.size p))%Z) by (apply Z.pow_le_mono_r; lia).
  lia.
Qed.

Lemma normal_digits k :
  (Zpos (digits2_pos k) <= 53)%Z ->
  Zpos (digits2_pos (nshift (53 - Pos.to_nat (digits2_pos k)) k)) = 53%Z.
Proof. intros H. rewrite digits_nshift. lia. Qed.

(** [float(n)] is the normal form of [n]. *)
Lemma of_int_normal k :
  (Zpos k < 2 ^ 53)%Z -> F64.of_int (Zpos k) = normal k.
Proof.
  intros Hk. unfold F64.of_int, F64.prec, F64.emax. cbn [binary_normalize].
  apply (round_shifted k 0); [now apply digits_le_53 | lia].
Qed.

(** Adding 1.0 to the float of an integer below 2^53 - 1 is exact. *)
Lemma add_one_normal k :
  (Zpos k + 1 < 2 ^ 53)%Z -> F64.add (normal k) F64.one = normal (k + 1).
Proof.
  intros Hk.
  assert (Hd : (Zpos (digits2_pos k) <= 53)%Z) by (apply digits_le_53; lia).
  assert (Hd' : (Zpos (digits2_pos (k + 1)) <= 53)%Z)
    by (apply digits_le_53; rewrite Pos2Z.inj_add; lia).
  unfold F64.add, F64.one, normal, F64.prec, F64.emax. cbn [SFadd].
  set (d := digits2_pos k) in *.
  replace (Z.min (Zpos d - 53) (-52)) with (-52)%Z by lia.
  assert (Halign : fst (shl_align (nshift (53 - Pos.to_nat d) k) (Zpos d - 53) (-52))
                   = nshift 52 k).
  { unfold shl_align.
    destruct (-52 - (Zpos d - 53))%Z as [|c|c] eqn:Ec; cbn [fst].
    - f_equal. lia.
    - lia.
    - rewrite pos_iter_nshift, <- nshift_add. f_equal. lia. }
  rewrite Halign.
  change (fst (shl_align 4503599627370496 (-52) (-52))) with (nshift 52 1).
  cbn [cond_Zopp].
  change (Zpos (nshift 52 k) + Zpos (nshift 52 1))%Z
    with (Zpos (nshift 52 k + nshift 52 1)).
  rewrite nshift_plus. cbn [binary_normalize].
  apply (round_shifted (k + 1) 52); [exact Hd' | lia].
Qed.

(** A float of 53 bits divided by itself is 1.0. *)
Lemma div_self m e :
  Zpos (digits2_pos m) = 53%Z ->
  F64.div (S754_finite false m e) (S754_finite false m e) = F64.one.
Proof.
  intros Hd. unfold F64.div, F64.prec, F64.emax. cbn [SFdiv xorb].
  unfold SFdiv_core_binary. cbn [Zdigits2]. rewrite Hd.
  replace (53 + e - (53 + e))%Z with 0%Z by lia.
  replace (e - e)%Z with 0%Z by lia.
  change (Z.min (fexp 53 1024 0) 0) with (-53)%Z.
  change (0 - -53)%Z with 53%Z. cbv iota.
  rewrite Z.shiftl_mul_pow2 by lia.
  destruct (Z.div_eucl (Zpos m * 2 ^ 53) (Zpos m)) as [q r] eqn:Hqr.
  assert (Hq : q = (2 ^ 53)%Z).
  { change q with (fst (q, r)). rewrite <- Hqr.
    change (fst (Z.div_eucl (Zpos m * 2 ^ 53) (Zpos m)))
      with ((Zpos m * 2 ^ 53) / Zpos m)%Z.
    rewrite Z.mul_comm. apply Z.div_mul. discriminate. }
  assert (Hr : r = 0%Z).
  { change r with (snd (q, r)). rewrite <- Hqr.
    change (snd (Z.div_eucl (Zpos m * 2 ^ 53) (Zpos m)))
      with ((Zpos m * 2 ^ 53) mod Zpos m)%Z.
    rewrite Z.mul_comm. apply Z.mod_mul. discriminate. }
  subst q r.
  assert (Hloc : new_location (Zpos m) 0 = loc_Exact).
  { unfold new_location. destruct (Z.even (Zpos m)); reflexivity. }
  rewrite Hloc. vm_compute. reflexivity.
Qed.

Lemma sum_ones_from k n :
  (Zpos k + Z.of_nat n < 2 ^ 53)%Z ->
  fold_left F64.add (repeat F64.one n) (normal k)
  = normal (Z.to_pos (Zpos k + Z.of_nat n)).
Proof.
  revert k. induction n as [|n IH]; intros k Hk.
  - cbn [repeat fold_left Z.of_nat]. now rewrite Z.add_0_r.
  - cbn [repeat fold_left]. rewrite add_one_normal by lia.
    rewrite IH by (rewrite Pos2Z.inj_add; lia).
    f_equal. rewrite Pos2Z.inj_add. f_equal. lia.
Qed.

Lemma sum_ones n :
  (Z.of_nat (S n) < 2 ^ 53)%Z ->
  F64.sum (repeat F64.one (S n)) = F64.of_int (Z.of_nat (S n)).
Proof.
  intros Hn. unfold F64.sum. cbn [repeat fold_left].
  change (F64.add (F64.of_int 0) F64.one) with (normal 1).
  rewrite sum_ones_from by lia.
  rewrite <- of_int_normal.
  - f_equal. lia.
  - lia.
Qed.

(** The mean of [S n] scores 1.0 is 1.0, up to 2^53 scores. *)
Lemma mean_of_ones n :
  (Z.of_nat (S n) < 2 ^ 53)%Z ->
  F64.min (F64.div (F64.sum (repeat F64.one (S n))) (F64.of_int (Z.of_nat (S n))))
    F64.one = F64.one.
Proof.
  intros Hn. rewrite sum_ones by assumption.
  change (Z.of_nat (S n)) with (Zpos (Pos.of_succ_nat n)).
  rewrite of_int_normal by (rewrite Zpos_P_of_succ_nat; lia).
  unfold normal. rewrite div_self.
  - reflexivity.
  - apply normal_digits, digits_le_53. rewrite Zpos_P_of_succ_nat. lia.
Qed.

(** ** The decision and the score *)

Lemma all_pass_no_failure rs agent_data :
  forallb (rule_passes agent_data) rs = true -> failed_rules rs agent_data = 0%nat.
Proof.
  unfold failed_rules. induction rs as [|item rs IH]; simpl; [reflexivity|].
  unfold rule_fails at 1.
  destruct (rule_passes agent_data item); simpl; [exact IH | discriminate].
Qed.

(** A policy that passed has score 1.0. *)
Lemma passed_score_one target p :
  PolicyResult.passed (result_of target p) = true ->
  PolicyResult.score (result_of target p) = F64.one.
Proof.
  unfold result_of, _evaluate_policy, evaluate_policy_on.
  destruct (_extract_agent_data target) as [agent_data|e]; simpl; [|discriminate].
  unfold evaluate_rules.
  destruct (fold_rule_step agent_data (TrustPolicy.rules p)
              {| PolicyResult.policy_name := TrustPolicy.name p;
                 PolicyResult.passed := true;
                 PolicyResult.details := RuleDetails [];
                 PolicyResult.score := F64.one |}) as [-> ->].
  simpl. intros H. now rewrite (all_pass_no_failure _ _ H).
Qed.

Lemma scores_all_one target ps :
  forallb (passes_on target) ps = true ->
  map PolicyResult.score (map (result_of target) ps) = repeat F64.one (length ps).
Proof.
  induction ps as [|p ps IH]; simpl; [reflexivity|].
  intros H. apply andb_true_iff in H. destruct H as [Hp Hps].
  rewrite (passed_score_one _ _ Hp). f_equal. now apply IH.
Qed.

Lemma failing_filter_empty target ps :
  forallb (passes_on target) ps = true -> List.filter (fails_on target) ps = [].
Proof.
  intros H. apply filter_none. intros p Hin.
  rewrite forallb_forall in H. unfold fails_on. fold (passes_on target p).
  now rewrite (H p Hin).
Qed.

Lemma failing_filter_nonempty target ps :
  forallb (passes_on target) ps = false ->
  Nat.eqb (length (map TrustPolicy.name (List.filter (fails_on target) ps))) 0 = false.
Proof.
  intros H. apply not_true_is_false. intros Hlen.
  pose proof (proj1 (failed_names_empty target ps) Hlen) as Hpass.
  assert (Hall : forallb (passes_on target) ps = true)
    by (apply forallb_forall; intros p Hin; now apply Hpass).
  congruence.
Qed.

(** X10. For two verified agents and fewer than 2^53 policies, allowed
    is true exactly when there is at least one policy to check and every
    policy passed, and the score is then 1.0: the threshold 0.7 never
    decides, since a policy that passed has score 1.0 and the mean of
    such scores is computed exactly. *)
Theorem threshold_never_decides self now source target :
  Agent.credential_verified source = true ->
  Agent.credential_verified target = true ->
  (Z.of_nat (length (policies_to_check self source)) < 2 ^ 53)%Z ->
  let r := fst (verify_trust self now source target) in
  let ps := policies_to_check self source in
  TrustVerificationResult.allowed r
  = nonempty ps && forallb (fun p => PolicyResult.passed (result_of target p)) ps
  /\ (TrustVerificationResult.allowed r = true ->
      TrustVerificationResult.score r = F64.one)
  /\ (TrustVerificationResult.allowed r = true
      <-> ps <> [] /\ TrustVerificationResult.policies_failed r = []).
Proof.
  intros Hs Ht Hlen r ps. subst r ps.
  rewrite (verify_trust_verified _ _ _ _ Hs Ht). unfold decision. simpl.
  set (ps := policies_to_check self source) in *.
  change (fun p => PolicyResult.passed (result_of target p)) with (passes_on target).
  destruct (forallb (passes_on target) ps) eqn:Hall.
  - rewrite (failing_filter_empty _ _ Hall). simpl.
    unfold _calculate_trust_score.
    rewrite (scores_all_one _ _ Hall), length_map.
    destruct ps as [|p ps']; cbn [length nonempty Nat.eqb negb].
    + split; [reflexivity|]. split; [discriminate|].
      split; [discriminate | intros [H _]; now elim H].
    + rewrite mean_of_ones by exact Hlen.
      split; [reflexivity|]. split; [reflexivity|].
      split; [intros _; split; [discriminate | reflexivity] | reflexivity].
  - rewrite (failing_filter_nonempty _ _ Hall), !andb_false_r.
    split; [reflexivity|]. split; [discriminate|].
    split; [discriminate|].
    intros [_ Hnil]. exfalso.
    pose proof (failing_filter_nonempty _ _ Hall) as Hne.
    now rewrite Hnil in Hne.
Qed.

Lemma threshold_never_decides_witness :
  TrustVerificationResult.allowed
    (fst (verify_trust Samples.service 7%Z Samples.agent_a Samples.agent_b)) = true.
Proof.
  rewrite (proj1 (threshold_never_decides Samples.service 7%Z Samples.agent_a
                    Samples.agent_b eq_refl eq_refl eq_refl)).
  reflexivity.
Defined.

Lemma sum_zeros n : F64.sum (repeat F64.zero n) = F64.zero.
Proof.
  unfold F64.sum. change (F64.of_int 0) with F64.zero.
  induction n as [|n IH]; [reflexivity | exact IH].
Qed.

(** X11. When the attribute resolution of a verified target raises, the
    score a verified source gets for it is 0.0 (for at least one and fewer
    than 2^53 policies; without any policy it is 0.0 as well). *)
Theorem unresolved_target_score self now source target e :
  Agent.credential_verified source = true ->
  Agent.credential_verified target = true ->
  _extract_agent_data target = Raise e ->
  (Z.of_nat (length (policies_to_check self source)) < 2 ^ 53)%Z ->
  TrustVerificationResult.score (fst (verify_trust self now source target)) = F64.zero.
Proof.
  intros Hs Ht He Hlen.
  rewrite (verify_trust_verified _ _ _ _ Hs Ht). unfold decision. simpl.
  set (ps := policies_to_check self source) in *.
  assert (Hscores : map PolicyResult.score (map (result_of target) ps)
                    = repeat F64.zero (length ps)).
  { induction ps as [|p ps' IH]; simpl; [reflexivity|].
    unfold result_of at 1. rewrite (result_of_unresolved _ _ _ He). simpl.
    f_equal. apply IH. simpl in Hlen. lia. }
  unfold _calculate_trust_score. rewrite Hscores, length_map, sum_zeros.
  destruct ps as [|p ps']; [reflexivity|].
  cbn [length nonempty Nat.eqb negb].
  change (Z.of_nat (S (length ps'))) with (Zpos (Pos.of_succ_nat (length ps'))).
  rewrite of_int_normal by (rewrite Zpos_P_of_succ_nat; simpl in Hlen; lia).
  reflexivity.
Qed.

Lemma unresolved_target_score_witness :
  TrustVerificationResult.score
    (fst (verify_trust Samples.service 7%Z Samples.agent_a Samples.malformed))
  = F64.zero.
Proof.
  exact (unresolved_target_score Samples.service 7%Z Samples.agent_a
           Samples.malformed TypeError eq_refl eq_refl eq_refl eq_refl).
Defined.

(** ** The default policies *)

Lemma py_eq_str v s : py_eq v (VStr s) = true <-> v = VStr s.
Proof.
  destruct v as [|b|z|f|o|t|l|d]; simpl;
    try (split; [discriminate | intros [=]]).
  rewrite String.eqb_eq. split; [now intros -> | now intros [= ->]].
Qed.

Lemma default_esg_result now0 agent_data :
  let p := {| TrustPolicy.id := "default-esg";
              TrustPolicy.name := "ESG Compliance";
              TrustPolicy.description := "Minimum ESG score requirement";
              TrustPolicy.rules := [("esg_score", VDict [("min", VInt 60)])];
              TrustPolicy.created_at := now0 |} in
  let ok := RuleResult.passed
              (_evaluate_rule "esg_score" (VDict [("min", VInt 60)]) agent_data) in
  PolicyResult.passed (evaluate_rules p agent_data) = ok
  /\ PolicyResult.score (evaluate_rules p agent_data)
     = if ok then F64.one else F64.half.
Proof.
  intros p ok. subst p ok. unfold evaluate_rules.
  cbn [TrustPolicy.rules TrustPolicy.name fold_left].
  rewrite rule_step_passed, rule_step_score.
  unfold rule_fails, rule_passes. cbn [fst snd PolicyResult.passed PolicyResult.score].
  destruct (RuleResult.passed _); split; reflexivity.
Qed.

Lemma default_jurisdiction_result now0 agent_data :
  let config :=
    VDict [("preferred", VList [VStr "EU"; VStr "US"; VStr "CA"; VStr "UK"; VStr "AU"]);
           ("blocked", VList [VStr "SANCTIONED"])] in
  let p := {| TrustPolicy.id := "default-jurisdiction";
              TrustPolicy.name := "Jurisdiction Trust";
              TrustPolicy.description := "Acceptable jurisdictions for business";
              TrustPolicy.rules := [("jurisdiction", config)];
              TrustPolicy.created_at := now0 |} in
  let sanctioned :=
    py_eq (dict_get agent_data "jurisdiction" (VStr "UNKNOWN")) (VStr "SANCTIONED") in
  PolicyResult.passed (evaluate_rules p agent_data) = negb sanctioned
  /\ PolicyResult.score (evaluate_rules p agent_data)
     = if sanctioned then F64.half else F64.one.
Proof.
  intros config p sanctioned. subst config p sanctioned. unfold evaluate_rules.
  cbn [TrustPolicy.rules TrustPolicy.name fold_left].
  rewrite rule_step_passed, rule_step_score.
  unfold rule_fails, rule_passes. cbn [fst snd PolicyResult.passed PolicyResult.score].
  unfold _evaluate_rule, _evaluate_jurisdiction_rule. simpl.
  rewrite !same_or_eq_str.
  destruct (py_eq (dict_get agent_data "jurisdiction" (VStr "UNKNOWN"))
              (VStr "SANCTIONED")); simpl; [split; reflexivity|].
  split; reflexivity.
Qed.

(** X12. A verified source without policies of its own accepts a
    verified target exactly when the resolved esg_score of the target is a
    number between 60 and 100 and its resolved jurisdiction is not
    "SANCTIONED"; the score is 1.0 when both default policies pass, 0.75
    when one fails and 0.5 when both fail. *)
Theorem default_policies_decide now0 now0' now source target agent_data :
  Agent.credential_verified source = true ->
  Agent.credential_verified target = true ->
  Agent.trust_policies source = [] ->
  _extract_agent_data target = Ok agent_data ->
  let r := fst (verify_trust (__init__ now0 now0') now source target) in
  let esg_score := dict_get agent_data "esg_score" (VInt 50) in
  let jurisdiction := dict_get agent_data "jurisdiction" (VStr "UNKNOWN") in
  let esg_ok :=
    RuleResult.passed (_evaluate_rule "esg_score" (VDict [("min", VInt 60)]) agent_data) in
  let sanctioned := py_eq jurisdiction (VStr "SANCTIONED") in
  TrustVerificationResult.allowed r = esg_ok && negb sanctioned
  /\ TrustVerificationResult.score r
     = (if esg_ok
        then if sanctioned then three_quarters else F64.one
        else if sanctioned then F64.half else three_quarters)
  /\ (esg_ok = true
      <-> exists q, py_num esg_score = Some (XFin q) /\ (60 <= q /\ q <= 100)%Q)
  /\ (sanctioned = true <-> jurisdiction = VStr "SANCTIONED").
Proof.
  intros Hs Ht Hp Hex r esg_score jurisdiction esg_ok sanctioned.
  assert (Hesg : esg_ok = true
                 <-> exists q, py_num esg_score = Some (XFin q)
                               /\ (60 <= q /\ q <= 100)%Q).
  { subst esg_ok. rewrite esg_rule_passed. apply between_ints. }
  split; [|split; [|split; [exact Hesg | apply py_eq_str]]].
  - subst r. rewrite (verify_trust_verified _ _ _ _ Hs Ht). unfold decision.
    unfold policies_to_check. rewrite Hp.
    cbn [nonempty length Nat.eqb negb __init__ default_policies _load_default_policies
         List.filter map].
    unfold fails_on, result_of.
    rewrite !(result_of_resolved _ _ _ Hex). cbn [fst].
    destruct (default_esg_result now0 agent_data) as [Hpe Hse].
    destruct (default_jurisdiction_result now0' agent_data) as [Hpj Hsj].
    cbv zeta in Hpe, Hse, Hpj, Hsj.
    fold esg_ok in Hpe, Hse. fold jurisdiction in Hpj, Hsj. fold sanctioned in Hpj, Hsj.
    unfold _calculate_trust_score.
    cbn [map length nonempty Nat.eqb negb TrustVerificationResult.allowed].
    rewrite Hpe, Hse, Hpj, Hsj.
    destruct esg_ok, sanctioned; vm_compute; reflexivity.
  - subst r. rewrite (verify_trust_verified _ _ _ _ Hs Ht). unfold decision.
    unfold policies_to_check. rewrite Hp.
    cbn [nonempty length Nat.eqb negb __init__ default_policies _load_default_policies
         List.filter map].
    unfold result_of.
    rewrite !(result_of_resolved _ _ _ Hex). cbn [fst].
    destruct (default_esg_result now0 agent_data) as [Hpe Hse].
    destruct (default_jurisdiction_result now0' agent_data) as [Hpj Hsj].
    cbv zeta in Hpe, Hse, Hpj, Hsj.
    fold esg_ok in Hpe, Hse. fold jurisdiction in Hpj, Hsj. fold sanctioned in Hpj, Hsj.
    unfold _calculate_trust_score.
    cbn [map length nonempty Nat.eqb negb TrustVerificationResult.score].
    rewrite Hse, Hsj.
    destruct esg_ok, sanctioned; vm_compute; reflexivity.
Qed.

Lemma default_policies_decide_witness :
  let r := fst (verify_trust (__init__ 0%Z 1%Z) 7%Z Samples.no_policies
                  MoreSamples.sanctioned) in
  TrustVerificationResult.allowed r = false
  /\ TrustVerificationResult.score r = three_quarters.
Proof.
  destruct (default_policies_decide 0%Z 1%Z 7%Z Samples.no_policies
              MoreSamples.sanctioned _ eq_refl eq_refl eq_refl eq_refl)
    as (Ha & Hsc & _).
  split; [rewrite Ha | rewrite Hsc]; reflexivity.
Defined.

(* ===================================================================== *)
(** * The connection manager *)
(* ===================================================================== *)

Lemma dict_lookup_del {V} k k' (d : dict V) :
  NoDup (keys d) ->
  dict_lookup k (Web.dict_del k' d)
  = if String.eqb k k' then None else dict_lookup k d.
Proof.
  unfold keys. induction d as [|[k0 v0] d IH]; simpl; intros Hnd.
  - now destruct (String.eqb k k').
  - apply NoDup_cons in Hnd. destruct Hnd as [Hnotin Hnd].
    destruct (String.eqb_spec k' k0) as [->|Hne].
    + destruct (String.eqb_spec k k0) as [->|_]; [|reflexivity].
      apply dict_lookup_absent. intros Hin. apply Hnotin. now apply list_elem_of_In.
    + simpl. rewrite (IH Hnd).
      destruct (String.eqb_spec k k0) as [->|_]; [|reflexivity].
      destruct (String.eqb_spec k0 k') as [->|_]; [congruence | reflexivity].
Qed.

Lemma keys_dict_del {V} k (d : dict V) :
  forall x, In x (keys (Web.dict_del k d)) -> In x (keys d).
Proof.
  unfold keys. induction d as [|[k0 v0] d IH]; simpl; intros x; [tauto|].
  destruct (String.eqb k k0); simpl; [tauto|].
  intros [H|H]; [now left | right; now apply IH].
Qed.

Lemma dict_del_wf {V} k (d : dict V) : NoDup (keys d) -> NoDup (keys (Web.dict_del k d)).
Proof.
  unfold keys. induction d as [|[k0 v0] d IH]; simpl; intros Hnd; [constructor|].
  apply NoDup_cons in Hnd. destruct Hnd as [Hnotin Hnd].
  destruct (String.eqb k k0); simpl; [assumption|].
  apply NoDup_cons. split; [|now apply IH].
  intros Hin. apply Hnotin. apply list_elem_of_In. apply list_elem_of_In in Hin.
  now apply (keys_dict_del k d).
Qed.

Lemma connection_id_not_empty n :
  String.eqb (String.append "conn_" (Web.str_nat n)) "" = false.
Proof. reflexivity. Qed.

Lemma lookup_In_keys {V} k (d : dict V) v : dict_lookup k d = Some v -> In k (keys d).
Proof. intros H. apply dict_mem_In. unfold dict_mem. now rewrite H. Qed.

Lemma not_In_keys_lookup {V} k (d : dict V) : dict_lookup k d = None -> ~ In k (keys d).
Proof. intros H Hin. apply dict_mem_In in Hin. unfold dict_mem in Hin. now rewrite H in Hin. Qed.

Lemma send_personal_message_found sends message agent_id self cid ws :
  dict_lookup agent_id (Web.ConnectionManager.agent_connections self) = Some cid ->
  String.eqb cid "" = false ->
  dict_lookup cid (Web.ConnectionManager.active_connections self) = Some ws ->
  Web.send_personal_message sends message agent_id self
  = if sends ws then (self, [Web.Sent ws (Web.Raw message)])
    else (Web.disconnect ws agent_id self, [Web.ErrorSending agent_id]).
Proof.
  intros Ha Hne Hc. unfold Web.send_personal_message.
  rewrite Ha, Hne. cbn [negb]. now rewrite Hc.
Qed.

Lemma disconnect_found ws agent_id self cid :
  dict_lookup agent_id (Web.ConnectionManager.agent_connections self) = Some cid ->
  String.eqb cid "" = false ->
  dict_mem cid (Web.ConnectionManager.active_connections self) = true ->
  Web.disconnect ws agent_id self
  = {| Web.ConnectionManager.active_connections :=
         Web.dict_del cid (Web.ConnectionManager.active_connections self);
       Web.ConnectionManager.agent_connections :=
         Web.dict_del agent_id (Web.ConnectionManager.agent_connections self) |}.
Proof.
  intros Ha Hne Hc. unfold Web.disconnect.
  rewrite Ha, Hne, Hc. reflexivity.
Qed.

Lemma connect_lookups ws agent_id self :
  let cid := String.append "conn_"
               (Web.str_nat (length (Web.ConnectionManager.active_connections self))) in
  dict_lookup agent_id
    (Web.ConnectionManager.agent_connections (Web.connect ws agent_id self)) = Some cid
  /\ dict_lookup cid
       (Web.ConnectionManager.active_connections (Web.connect ws agent_id self)) = Some ws.
Proof.
  intros cid. unfold Web.connect. fold cid.
  cbn [Web.ConnectionManager.agent_connections Web.ConnectionManager.active_connections].
  rewrite !dict_lookup_set, !String.eqb_refl. split; reflexivity.
Qed.

(** X13. After [connect(ws, agent)] the agent is among the connected
    agents and a personal message for it is sent on [ws] and on no other
    socket, leaving the manager as it is; when that send raises, the error
    is logged and the agent is disconnected. *)
Theorem connect_then_send sends ws agent_id message self :
  let connected := Web.connect ws agent_id self in
  In agent_id (Web.get_connected_agents connected)
  /\ (sends ws = true ->
      Web.send_personal_message sends message agent_id connected
      = (connected, [Web.Sent ws (Web.Raw message)]))
  /\ (sends ws = false ->
      NoDup (keys (Web.ConnectionManager.agent_connections self)) ->
      snd (Web.send_personal_message sends message agent_id connected)
      = [Web.ErrorSending agent_id]
      /\ ~ In agent_id
             (Web.get_connected_agents
                (fst (Web.send_personal_message sends message agent_id connected)))).
Proof.
  intros connected. subst connected.
  destruct (connect_lookups ws agent_id self) as [Hagent Hconn].
  cbv zeta in Hagent, Hconn.
  pose proof (connection_id_not_empty
                (length (Web.ConnectionManager.active_connections self))) as Hne.
  set (cid := String.append "conn_"
                (Web.str_nat (length (Web.ConnectionManager.active_connections self))))
    in *.
  rewrite (send_personal_message_found _ _ _ _ _ _ Hagent Hne Hconn).
  split; [|split].
  - unfold Web.get_connected_agents. eapply lookup_In_keys; eassumption.
  - now intros ->.
  - intros -> Hnd. cbn [fst snd]. split; [reflexivity|].
    rewrite (disconnect_found _ _ _ _ Hagent Hne)
      by (unfold dict_mem; now rewrite Hconn).
    unfold Web.get_connected_agents.
    cbn [Web.ConnectionManager.agent_connections].
    apply not_In_keys_lookup.
    rewrite dict_lookup_del.
    + now rewrite String.eqb_refl.
    + unfold Web.connect. cbn [Web.ConnectionManager.agent_connections].
      now apply dict_set_wf.
Qed.

Lemma connect_then_send_witness :
  let connected := Web.connect 1%nat "a" Web.__init__ in
  snd (Web.send_personal_message (fun _ => false) "hi" "a" connected)
  = [Web.ErrorSending "a"]
  /\ ~ In "a" (Web.get_connected_agents
                 (fst (Web.send_personal_message (fun _ => false) "hi" "a" connected))).
Proof.
  exact (proj2 (proj2 (connect_then_send (fun _ => false) 1%nat "a" "hi" Web.__init__))
           eq_refl ltac:(constructor)).
Defined.

Lemma length_dict_set {V} k (v : V) (d : dict V) :
  dict_mem k d = true -> length (dict_set k v d) = length d.
Proof.
  unfold dict_mem. induction d as [|[k0 v0] d IH]; simpl; [discriminate|].
  destruct (String.eqb k k0); simpl; [reflexivity|].
  intros H. now rewrite IH.
Qed.

(** X14. The id of a new connection is "conn_" followed by the number of
    active connections.  When that id is in use (as it is once an earlier
    connection has been closed), [connect] does not add a connection: it
    puts the new socket in the place of the one that held the id, and the
    messages for an agent that was mapped to the id go to the new socket. *)
Theorem connect_reuses_id ws agent_id self :
  let cid := String.append "conn_"
               (Web.str_nat (length (Web.ConnectionManager.active_connections self))) in
  dict_mem cid (Web.ConnectionManager.active_connections self) = true ->
  let connected := Web.connect ws agent_id self in
  length (Web.ConnectionManager.active_connections connected)
  = length (Web.ConnectionManager.active_connections self)
  /\ dict_lookup cid (Web.ConnectionManager.active_connections connected) = Some ws
  /\ forall other sends message,
       dict_lookup other (Web.ConnectionManager.agent_connections self) = Some cid ->
       other <> agent_id ->
       sends ws = true ->
       Web.send_personal_message sends message other connected
       = (connected, [Web.Sent ws (Web.Raw message)]).
Proof.
  intros cid Hused connected. subst connected.
  destruct (connect_lookups ws agent_id self) as [Hagent Hconn].
  cbv zeta in Hagent, Hconn. fold cid in Hagent, Hconn.
  split; [|split].
  - unfold Web.connect. cbn [Web.ConnectionManager.active_connections]. fold cid.
    now apply length_dict_set.
  - exact Hconn.
  - intros other sends message Hother Hne Hs.
    assert (Hother' : dict_lookup other
              (Web.ConnectionManager.agent_connections (Web.connect ws agent_id self))
              = Some cid).
    { unfold Web.connect. cbn [Web.ConnectionManager.agent_connections].
      rewrite dict_lookup_set.
      destruct (String.eqb_spec other agent_id) as [->|_]; [congruence | exact Hother]. }
    rewrite (send_personal_message_found _ _ _ _ _ _ Hother'
               (connection_id_not_empty _) Hconn).
    now rewrite Hs.
Qed.

Lemma connect_reuses_id_witness :
  let s3 :=
    Web.disconnect 1%nat "a"
      (Web.connect 2%nat "b" (Web.connect 1%nat "a" Web.__init__)) in
  Web.send_personal_message (fun _ => true) "for b" "b" (Web.connect 3%nat "c" s3)
  = (Web.connect 3%nat "c" s3, [Web.Sent 3%nat (Web.Raw "for b")]).
Proof.
  apply (proj2 (proj2 (connect_reuses_id 3%nat "c"
                         (Web.disconnect 1%nat "a"
                            (Web.connect 2%nat "b" (Web.connect 1%nat "a" Web.__init__)))
                         eq_refl)) "b" (fun _ => true) "for b").
  - reflexivity.
  - discriminate.
  - reflexivity.
Defined.

(** X15. [disconnect] looks at the agent id only: called with any socket
    after the agent has connected with a new one, it closes the new
    connection; the agent is no longer connected, and every other
    connection, an earlier one of the same agent included, stays. *)
Theorem disconnect_ignores_socket ws ws' agent_id self :
  NoDup (keys (Web.ConnectionManager.active_connections self)) ->
  NoDup (keys (Web.ConnectionManager.agent_connections self)) ->
  let cid := String.append "conn_"
               (Web.str_nat (length (Web.ConnectionManager.active_connections self))) in
  let after := Web.disconnect ws' agent_id (Web.connect ws agent_id self) in
  ~ In agent_id (Web.get_connected_agents after)
  /\ dict_lookup cid (Web.ConnectionManager.active_connections after) = None
  /\ forall k, k <> cid ->
       dict_lookup k (Web.ConnectionManager.active_connections after)
       = dict_lookup k (Web.ConnectionManager.active_connections self).
Proof.
  intros Hnd_active Hnd_agents cid after. subst after.
  destruct (connect_lookups ws agent_id self) as [Hagent Hconn].
  cbv zeta in Hagent, Hconn. fold cid in Hagent, Hconn.
  rewrite (disconnect_found _ _ _ _ Hagent (connection_id_not_empty _))
    by (unfold dict_mem; now rewrite Hconn).
  unfold Web.get_connected_agents, Web.connect.
  cbn [Web.ConnectionManager.agent_connections Web.ConnectionManager.active_connections].
  fold cid.
  split; [|split].
  - apply not_In_keys_lookup.
    rewrite dict_lookup_del by (now apply dict_set_wf).
    now rewrite String.eqb_refl.
  - rewrite dict_lookup_del by (now apply dict_set_wf).
    now rewrite String.eqb_refl.
  - intros k Hk.
    rewrite dict_lookup_del by (now apply dict_set_wf).
    rewrite dict_lookup_set.
    now destruct (String.eqb_spec k cid) as [->|_].
Qed.

Lemma disconnect_ignores_socket_witness :
  let after :=
    Web.disconnect 1%nat "a"
      (Web.connect 2%nat "a" (Web.connect 1%nat "a" Web.__init__)) in
  ~ In "a" (Web.get_connected_agents after)
  /\ dict_lookup "conn_0" (Web.ConnectionManager.active_connections after) = Some 1%nat.
Proof.
  destruct (disconnect_ignores_socket 2%nat 1%nat "a"
              (Web.connect 1%nat "a" Web.__init__)
              ltac:(apply (bool_decide_unpack _); vm_compute; exact I)
              ltac:(apply (bool_decide_unpack _); vm_compute; exact I))
    as (Hgone & _ & Hrest).
  split; [exact Hgone|].
  rewrite (Hrest "conn_0"); [reflexivity | discriminate].
Defined.

(** ** Broadcasts *)

Lemma broadcast_sends_spec sends t conns :
  Web.broadcast_sends sends t conns
  = (map (fun kv => if sends (snd kv) then Web.Sent (snd kv) t
                    else Web.ErrorBroadcasting (fst kv)) conns,
     keys (List.filter (dead sends) conns)).
Proof.
  unfold keys, dead. induction conns as [|[cid ws] conns IH]; simpl; [reflexivity|].
  rewrite IH. now destruct (sends ws).
Qed.

Lemma dead_keys sends (conns : dict Web.websocket) cid :
  NoDup (keys conns) ->
  In cid (keys (List.filter (dead sends) conns))
  <-> exists ws, dict_lookup cid conns = Some ws /\ sends ws = false.
Proof.
  unfold keys, dead. induction conns as [|[k ws] conns IH]; simpl; intros Hnd.
  - split; [tauto | intros (ws & H & _); discriminate].
  - apply NoDup_cons in Hnd. destruct Hnd as [Hnotin Hnd].
    destruct (String.eqb_spec cid k) as [->|Hne].
    + destruct (sends ws) eqn:Hs; simpl.
      * split.
        -- intros Hin. exfalso. apply Hnotin. apply list_elem_of_In.
           apply in_map_iff in Hin. destruct Hin as [[k' w'] [Hk Hin]].
           apply filter_In in Hin. apply in_map_iff. exists (k', w'). tauto.
        -- intros (w & [= <-] & Hw). congruence.
      * split; [intros _; now exists ws | now left].
    + destruct (sends ws) eqn:Hs; simpl.
      * now apply IH.
      * rewrite (IH Hnd). split; [intros [H|H]; [congruence | exact H] | now right].
Qed.

Lemma agent_of_lookup cid (agents : dict string) agent_id :
  NoDup (keys agents) ->
  Web.agent_of cid agents = Some agent_id ->
  dict_lookup agent_id agents = Some cid.
Proof.
  unfold keys. induction agents as [|[a c] agents IH]; simpl; intros Hnd; [discriminate|].
  apply NoDup_cons in Hnd. destruct Hnd as [Hnotin Hnd].
  destruct (String.eqb_spec c cid) as [->|Hne].
  - intros [= ->]. now rewrite String.eqb_refl.
  - intros H. pose proof (IH Hnd H) as Hl.
    destruct (String.eqb_spec agent_id a) as [->|_]; [|exact Hl].
    exfalso. apply Hnotin. apply list_elem_of_In. eapply lookup_In_keys; eassumption.
Qed.

(** What one turn of the cleanup keeps. *)
Lemma forget_step self cid :
  NoDup (keys (Web.ConnectionManager.active_connections self)) ->
  NoDup (keys (Web.ConnectionManager.agent_connections self)) ->
  let self' := Web.forget self cid in
  NoDup (keys (Web.ConnectionManager.active_connections self'))
  /\ NoDup (keys (Web.ConnectionManager.agent_connections self'))
  /\ (forall k, dict_lookup k (Web.ConnectionManager.active_connections self')
                = if String.eqb k cid then None
                  else dict_lookup k (Web.ConnectionManager.active_connections self))
  /\ (forall a c, dict_lookup a (Web.ConnectionManager.agent_connections self') = Some c ->
                  dict_lookup a (Web.ConnectionManager.agent_connections self) = Some c)
  /\ (forall a c, dict_lookup a (Web.ConnectionManager.agent_connections self) = Some c ->
                  c <> cid ->
                  dict_lookup a (Web.ConnectionManager.agent_connections self') = Some c).
Proof.
  intros Hact Hag self'. subst self'. unfold Web.forget.
  destruct (dict_mem cid (Web.ConnectionManager.active_connections self)) eqn:Hmem.
  - cbn [Web.ConnectionManager.active_connections Web.ConnectionManager.agent_connections].
    split; [now apply dict_del_wf|].
    assert (Hagents :
      NoDup (keys (match Web.agent_of cid (Web.ConnectionManager.agent_connections self) with
                   | Some agent_id =>
                       if negb (String.eqb agent_id "")
                       then Web.dict_del agent_id (Web.ConnectionManager.agent_connections self)
                       else Web.ConnectionManager.agent_connections self
                   | None => Web.ConnectionManager.agent_connections self
                   end))).
    { destruct (Web.agent_of cid _) as [a'|]; [|exact Hag].
      destruct (negb (String.eqb a' "")); [now apply dict_del_wf | exact Hag]. }
    split; [exact Hagents|]. split; [|split].
    + intros k. now apply dict_lookup_del.
    + intros a c.
      destruct (Web.agent_of cid _) as [a'|]; [|trivial].
      destruct (negb (String.eqb a' "")); [|trivial].
      rewrite dict_lookup_del by assumption.
      now destruct (String.eqb a a').
    + intros a c Ha Hc.
      destruct (Web.agent_of cid _) as [a'|] eqn:Hof; [|exact Ha].
      destruct (negb (String.eqb a' "")); [|exact Ha].
      rewrite dict_lookup_del by assumption.
      destruct (String.eqb_spec a a') as [->|_]; [|exact Ha].
      pose proof (agent_of_lookup _ _ _ Hag Hof). congruence.
  - split; [exact Hact|]. split; [exact Hag|]. split; [|split].
    + intros k. destruct (String.eqb_spec k cid) as [->|_]; [|reflexivity].
      unfold dict_mem in Hmem.
      now destruct (dict_lookup cid (Web.ConnectionManager.active_connections self)).
    + trivial.
    + trivial.
Qed.

Lemma forget_all ids : forall self,
  NoDup (keys (Web.ConnectionManager.active_connections self)) ->
  NoDup (keys (Web.ConnectionManager.agent_connections self)) ->
  let self' := fold_left Web.forget ids self in
  (forall k, dict_lookup k (Web.ConnectionManager.active_connections self')
             = if existsb (String.eqb k) ids then None
               else dict_lookup k (Web.ConnectionManager.active_connections self))
  /\ (forall a c, dict_lookup a (Web.ConnectionManager.agent_connections self') = Some c ->
                  dict_lookup a (Web.ConnectionManager.agent_connections self) = Some c)
  /\ (forall a c, dict_lookup a (Web.ConnectionManager.agent_connections self) = Some c ->
                  existsb (String.eqb c) ids = false ->
                  dict_lookup a (Web.ConnectionManager.agent_connections self') = Some c).
Proof.
  induction ids as [|cid ids IH]; intros self Hact Hag; simpl.
  - repeat split; trivial.
  - destruct (forget_step self cid Hact Hag) as (Hact' & Hag' & Hl & Hsub & Hkeep).
    destruct (IH (Web.forget self cid) Hact' Hag') as (IHl & IHsub & IHkeep).
    split; [|split].
    + intros k. rewrite IHl, Hl.
      destruct (String.eqb k cid); simpl; [|reflexivity].
      now destruct (existsb (String.eqb k) ids).
    + intros a c H. apply Hsub. now apply IHsub.
    + intros a c Ha Hc. apply orb_false_iff in Hc. destruct Hc as [Hc1 Hc2].
      apply IHkeep; [|exact Hc2]. apply Hkeep; [exact Ha|].
      intros ->. now rewrite String.eqb_refl in Hc1.
Qed.

Lemma existsb_eqb_In k ids : existsb (String.eqb k) ids = true <-> In k ids.
Proof.
  rewrite existsb_exists. split.
  - intros (x & Hin & Heq). apply String.eqb_eq in Heq. now subst.
  - intros Hin. exists k. split; [exact Hin | apply String.eqb_refl].
Qed.

(** X16. A broadcast of JSON values sends their text once on every active
    connection, in the order of the connections, and logs an error for
    each socket that raises.  Afterwards the active connections are those
    whose send returned; no agent mapping is added or changed, and an agent
    mapped to a connection whose send returned is still mapped to it. *)
Theorem broadcast_prunes sends message d self :
  Web.plain_fields message = Some d ->
  NoDup (keys (Web.ConnectionManager.active_connections self)) ->
  NoDup (keys (Web.ConnectionManager.agent_connections self)) ->
  exists after,
    Web.broadcast_message sends message self
    = Ok (after,
          map (fun kv => if sends (snd kv) then Web.Sent (snd kv) (Web.JsonOf d)
                         else Web.ErrorBroadcasting (fst kv))
              (Web.ConnectionManager.active_connections self))
    /\ (forall cid,
          dict_lookup cid (Web.ConnectionManager.active_connections after)
          = match dict_lookup cid (Web.ConnectionManager.active_connections self) with
            | Some ws => if sends ws then Some ws else None
            | None => None
            end)
    /\ (forall a cid,
          dict_lookup a (Web.ConnectionManager.agent_connections after) = Some cid ->
          dict_lookup a (Web.ConnectionManager.agent_connections self) = Some cid)
    /\ (forall a cid ws,
          dict_lookup a (Web.ConnectionManager.agent_connections self) = Some cid ->
          dict_lookup cid (Web.ConnectionManager.active_connections self) = Some ws ->
          sends ws = true ->
          dict_lookup a (Web.ConnectionManager.agent_connections after) = Some cid).
Proof.
  intros Hplain Hact Hag.
  unfold Web.broadcast_message, Web.json_dumps. rewrite Hplain. cbn [Py.bind].
  rewrite broadcast_sends_spec.
  set (ids := keys (List.filter (dead sends) (Web.ConnectionManager.active_connections self))).
  destruct (forget_all ids self Hact Hag) as (Hl & Hsub & Hkeep).
  exists (fold_left Web.forget ids self).
  split; [reflexivity|]. split; [|split].
  - intros cid. rewrite Hl.
    destruct (existsb (String.eqb cid) ids) eqn:Hex.
    + apply existsb_eqb_In in Hex. apply (dead_keys sends _ _ Hact) in Hex.
      destruct Hex as (ws & -> & ->). reflexivity.
    + destruct (dict_lookup cid (Web.ConnectionManager.active_connections self)) as [ws|] eqn:Hc;
        [|reflexivity].
      destruct (sends ws) eqn:Hs; [reflexivity|].
      assert (Hin : In cid ids) by (apply (dead_keys sends _ _ Hact); now exists ws).
      apply existsb_eqb_In in Hin. congruence.
  - exact Hsub.
  - intros a cid ws Ha Hc Hs. apply Hkeep; [exact Ha|].
    apply not_true_is_false. intros Hex.
    apply existsb_eqb_In in Hex. apply (dead_keys sends _ _ Hact) in Hex.
    destruct Hex as (ws' & Hc' & Hs'). congruence.
Qed.

Lemma broadcast_prunes_witness :
  exists after,
    Web.broadcast_message (fun ws => Nat.eqb ws 2) [("kind", Web.Plain (VStr "ping"))]
      (Web.connect 2%nat "b" (Web.connect 1%nat "a" Web.__init__))
    = Ok (after,
          [Web.ErrorBroadcasting "conn_0";
           Web.Sent 2%nat (Web.JsonOf [("kind", VStr "ping")])]).
Proof.
  destruct (broadcast_prunes (fun ws => Nat.eqb ws 2)
              [("kind", Web.Plain (VStr "ping"))] [("kind", VStr "ping")]
              (Web.connect 2%nat "b" (Web.connect 1%nat "a" Web.__init__))
              eq_refl
              ltac:(apply (bool_decide_unpack _); vm_compute; exact I)
              ltac:(apply (bool_decide_unpack _); vm_compute; exact I))
    as (after & Hb & _).
  exists after. exact Hb.
Defined.


(* ===================================================================== *)
(** * The endpoints *)
(* ===================================================================== *)

(** X17. The trust endpoint never answers 404: when an agent id is not
    registered, the 404 it raises is caught by its own handler and
    reported as a 400 whose detail is the text of the 404; nothing is
    written to the trust log. *)
Theorem endpoint_never_404 trust_service uuid now now' source_agent_id target_agent_id st :
  let '(st', r, effects) :=
    Main.verify_trust trust_service uuid now now' source_agent_id target_agent_id st in
  (forall detail, r <> Main.Raises (Main.HTTPException 404 detail))
  /\ (dict_mem source_agent_id (Main.agents_db st) = false
      \/ dict_mem target_agent_id (Main.agents_db st) = false ->
      r = Main.Raises
            (Main.HTTPException 400
               (Main.StrOf (Main.HTTPException 404 (Main.Literal "Agent not found"))))
      /\ st' = st).
Proof.
  unfold Main.verify_trust, dict_mem.
  destruct (dict_lookup source_agent_id (Main.agents_db st)) as [source|];
    destruct (dict_lookup target_agent_id (Main.agents_db st)) as [target|];
    try (split; [intros detail; discriminate | intros _; split; reflexivity]).
  destruct (verify_trust trust_service now source target) as [result logged].
  split; [intros detail; discriminate|].
  intros [H|H]; discriminate H.
Qed.

(** X18. When both agents are registered the trust endpoint returns the
    result of the trust service, a rejection included, and appends one
    entry to the trust log, which holds that result and, as
    policies_applied, the policies of the source itself: for a verified
    source without policies it records an empty list although the result
    names the default policies that were checked. *)
Theorem endpoint_logs_decision trust_service uuid now now' source_agent_id
    target_agent_id st source target :
  dict_lookup source_agent_id (Main.agents_db st) = Some source ->
  dict_lookup target_agent_id (Main.agents_db st) = Some target ->
  let result := fst (verify_trust trust_service now source target) in
  let '(st', r, effects) :=
    Main.verify_trust trust_service uuid now now' source_agent_id target_agent_id st in
  r = Main.Return result
  /\ Main.trust_logs_db st'
     = Main.trust_logs_db st
       ++ [{| Main.TrustLog.id := uuid;
              Main.TrustLog.timestamp := now';
              Main.TrustLog.source_agent_id := source_agent_id;
              Main.TrustLog.target_agent_id := target_agent_id;
              Main.TrustLog.trust_result := result;
              Main.TrustLog.policies_applied := Agent.trust_policies source |}]
  /\ Main.agents_db st' = Main.agents_db st
  /\ Main.messages_db st' = Main.messages_db st
  /\ (Agent.trust_policies source = [] ->
      Agent.credential_verified source = true ->
      Agent.credential_verified target = true ->
      Permutation
        (TrustVerificationResult.policies_passed result
         ++ TrustVerificationResult.policies_failed result)
        (map TrustPolicy.name (default_policies trust_service))).
Proof.
  intros Hs Ht result. unfold Main.verify_trust. rewrite Hs, Ht. subst result.
  destruct (verify_trust trust_service now source target) as [result logged] eqn:Hv.
  cbn [fst]. split; [reflexivity|]. split; [reflexivity|].
  split; [reflexivity|]. split; [reflexivity|].
  intros Hp Hsv Htv.
  assert (Hr : result = fst (verify_trust trust_service now source target))
    by (now rewrite Hv).
  rewrite Hr, (verify_trust_verified _ _ _ _ Hsv Htv). unfold decision. simpl.
  unfold policies_to_check. rewrite Hp. simpl.
  rewrite <- map_app. apply Permutation_map.
  apply (filter_split_Permutation (passes_on target)).
Qed.

Lemma endpoint_logs_decision_witness :
  snd (fst (Main.verify_trust Samples.service "log-1" 7%Z 8%Z "N" "C" MoreSamples.app))
  = Main.Return (fst (verify_trust Samples.service 7%Z Samples.no_policies Samples.agent_c))
  /\ TrustVerificationResult.allowed
       (fst (verify_trust Samples.service 7%Z Samples.no_policies Samples.agent_c)) = false.
Proof.
  pose proof (endpoint_logs_decision Samples.service "log-1" 7%Z 8%Z "N" "C"
                MoreSamples.app Samples.no_policies Samples.agent_c eq_refl eq_refl) as H.
  cbv zeta in H.
  destruct (Main.verify_trust Samples.service "log-1" 7%Z 8%Z "N" "C" MoreSamples.app)
    as [[st' r] effects].
  split; [exact (proj1 H) | vm_compute; reflexivity].
Defined.

Lemma message_not_serializable m : Web.json_dumps (Messages.dict_of m) = Raise TypeError.
Proof. reflexivity. Qed.

Lemma deliver_raises env message_data from_agent_id to_agent_id st :
  exists st' e effects,
    Main.deliver env message_data from_agent_id to_agent_id st
    = (st', Main.Raises e, effects).
Proof.
  unfold Main.deliver.
  destruct (Main.item message_data "content") as [content_value|e]; [|eauto].
  destruct (Main.validate_str env content_value) as [content|]; [|eauto].
  destruct (Messages.member_of _) as [message_type|]; [|eauto].
  cbv zeta.
  match goal with
  | |- context [match ?p with Main.Return _ => _ | Main.Raises _ => _ end] =>
      destruct p as [st2|e]; [|eauto]
  end.
  unfold Web.broadcast_message. rewrite message_not_serializable. cbn [Py.bind]. eauto.
Qed.

(** X19. [send_message] never returns its success response: whatever the
    request, the agents, the AI service and the sockets do, the endpoint
    ends in an HTTPException with status 400 (a blocked communication is
    reported as 400, not as 403, and the broadcast of an accepted message
    raises because [message.dict()] holds a datetime, which [json.dumps]
    does not serialize). *)
Theorem send_message_always_400 trust_service env message_data st :
  exists st' e effects,
    Main.send_message trust_service env message_data st
    = (st', Main.Raises (Main.HTTPException 400 (Main.StrOf e)), effects).
Proof.
  unfold Main.send_message.
  destruct (Main.item message_data "from_agent_id") as [from_value|e]; [|eauto].
  destruct (Main.agent_item (Main.agents_db st) from_value) as [[from_id from_agent]|e];
    [|eauto].
  destruct (Main.item message_data "to_agent_id") as [to_value|e]; [|eauto].
  destruct (Main.agent_item (Main.agents_db st) to_value) as [[to_id to_agent]|e];
    [|eauto].
  destruct (verify_trust trust_service (Main.trust_clock env) from_agent to_agent)
    as [trust_result logged].
  destruct (negb (TrustVerificationResult.allowed trust_result)); [eauto|].
  destruct (deliver_raises env message_data from_id to_id st) as (st' & e & effects & ->).
  eauto.
Qed.

Lemma agent_item_found agents s agent :
  dict_lookup s agents = Some agent ->
  Main.agent_item agents (VStr s) = Main.Return (s, agent).
Proof. intros H. unfold Main.agent_item. now rewrite H. Qed.

Lemma item_found (message_data : dict pyval) key v :
  dict_lookup key message_data = Some v -> Main.item message_data key = Main.Return v.
Proof. intros H. unfold Main.item. now rewrite H. Qed.

(** X20. When the trust service does not allow the communication,
    [send_message] stores no message, writes no trust log entry, sends
    nothing, and reports a 400 whose detail is the text of the 403
    "Communication blocked: " followed by the reason of the trust result. *)
Theorem send_message_blocked trust_service env message_data st
    from_agent_id to_agent_id from_agent to_agent :
  dict_lookup "from_agent_id" message_data = Some (VStr from_agent_id) ->
  dict_lookup "to_agent_id" message_data = Some (VStr to_agent_id) ->
  dict_lookup from_agent_id (Main.agents_db st) = Some from_agent ->
  dict_lookup to_agent_id (Main.agents_db st) = Some to_agent ->
  let out := verify_trust trust_service (Main.trust_clock env) from_agent to_agent in
  TrustVerificationResult.allowed (fst out) = false ->
  let blocked :=
    Main.HTTPException 403
      (Main.Literal (String.append "Communication blocked: "
                       (TrustVerificationResult.reason (fst out)))) in
  Main.send_message trust_service env message_data st
  = (st, Main.Raises (Main.HTTPException 400 (Main.StrOf blocked)),
     map Main.ServiceLog (snd out) ++ [Main.ErrorSendingMessage blocked]).
Proof.
  intros Hfrom Hto Hfa Hta out Hblocked blocked. subst out blocked.
  unfold Main.send_message.
  rewrite (item_found _ _ _ Hfrom), (agent_item_found _ _ _ Hfa).
  rewrite (item_found _ _ _ Hto), (agent_item_found _ _ _ Hta).
  destruct (verify_trust trust_service (Main.trust_clock env) from_agent to_agent)
    as [trust_result logged].
  cbn [fst snd] in *. rewrite Hblocked. reflexivity.
Qed.

Lemma send_message_blocked_witness :
  snd (fst (Main.send_message Samples.service MoreSamples.env
              (MoreSamples.request "U" "B") MoreSamples.app))
  = Main.Raises
      (Main.HTTPException 400
         (Main.StrOf
            (Main.HTTPException 403
               (Main.Literal
                  "Communication blocked: One or both agents lack verified vLEI credentials")))).
Proof.
  rewrite (send_message_blocked Samples.service MoreSamples.env
             (MoreSamples.request "U" "B") MoreSamples.app "U" "B"
             Samples.unverified Samples.agent_b eq_refl eq_refl eq_refl eq_refl eq_refl).
  reflexivity.
Defined.

(** X21. When the trust service allows the communication and the request
    carries a str content and no AI processing, [send_message] appends the
    message to the message store, with trust_verified false, and then
    fails: nothing is sent to any socket, the connection manager is left
    as it is, and the response is a 400. *)
Theorem send_message_stored_not_sent trust_service env message_data st
    from_agent_id to_agent_id from_agent to_agent content message_type :
  dict_lookup "from_agent_id" message_data = Some (VStr from_agent_id) ->
  dict_lookup "to_agent_id" message_data = Some (VStr to_agent_id) ->
  dict_lookup from_agent_id (Main.agents_db st) = Some from_agent ->
  dict_lookup to_agent_id (Main.agents_db st) = Some to_agent ->
  TrustVerificationResult.allowed
    (fst (verify_trust trust_service (Main.trust_clock env) from_agent to_agent)) = true ->
  dict_lookup "content" message_data = Some (VStr content) ->
  Main.validate_str env (VStr content) = Some content ->
  Messages.member_of (dict_get message_data "message_type" (VStr "text"))
  = Some message_type ->
  truthy (dict_get message_data "ai_process" (VBool false)) = false ->
  let message :=
    {| Messages.AgentMessage.id := Main.uuid env;
       Messages.AgentMessage.from_agent_id := from_agent_id;
       Messages.AgentMessage.to_agent_id := to_agent_id;
       Messages.AgentMessage.content := content;
       Messages.AgentMessage.message_type := message_type;
       Messages.AgentMessage.timestamp := Main.message_clock env;
       Messages.AgentMessage.trust_verified := false;
       Messages.AgentMessage.ai_processed := false;
       Messages.AgentMessage.metadata := [] |} in
  let '(st', r, effects) := Main.send_message trust_service env message_data st in
  Main.messages_db st' = Main.messages_db st ++ [message]
  /\ Main.manager st' = Main.manager st
  /\ Main.trust_logs_db st' = Main.trust_logs_db st
  /\ r = Main.Raises (Main.HTTPException 400 (Main.StrOf Main.NotJSONSerializable))
  /\ (forall ev, ~ In (Main.Socket ev) effects).
Proof.
  intros Hfrom Hto Hfa Hta Hallowed Hcontent Hvalid Htype Hai message.
  unfold Main.send_message.
  rewrite (item_found _ _ _ Hfrom), (agent_item_found _ _ _ Hfa).
  rewrite (item_found _ _ _ Hto), (agent_item_found _ _ _ Hta).
  destruct (verify_trust trust_service (Main.trust_clock env) from_agent to_agent)
    as [trust_result logged].
  cbn [fst] in Hallowed. rewrite Hallowed. cbn [negb].
  unfold Main.deliver.
  rewrite (item_found _ _ _ Hcontent), Hvalid, Htype. cbv zeta. rewrite Hai.
  unfold Web.broadcast_message. rewrite message_not_serializable. cbn [Py.bind].
  repeat split.
  intros ev Hin. apply in_app_or in Hin. destruct Hin as [Hin|[Hin|[]]].
  - apply in_app_or in Hin. destruct Hin as [Hin|[]].
    apply in_map_iff in Hin. destruct Hin as (x & Hx & _). discriminate.
  - discriminate.
Qed.

Lemma send_message_stored_not_sent_witness :
  let '(st', r, effects) :=
    Main.send_message Samples.service MoreSamples.env
      (MoreSamples.request "A" "B") MoreSamples.app in
  length (Main.messages_db st') = 1%nat
  /\ r = Main.Raises (Main.HTTPException 400 (Main.StrOf Main.NotJSONSerializable)).
Proof.
  pose proof (send_message_stored_not_sent Samples.service MoreSamples.env
                (MoreSamples.request "A" "B") MoreSamples.app "A" "B"
                Samples.agent_a Samples.agent_b "hello" Messages.TEXT
                eq_refl eq_refl eq_refl eq_refl
                ltac:(vm_compute; reflexivity) eq_refl eq_refl eq_refl eq_refl) as H.
  cbv zeta in H.
  destruct (Main.send_message Samples.service MoreSamples.env
              (MoreSamples.request "A" "B") MoreSamples.app) as [[st' r] effects].
  destruct H as (Hm & _ & _ & Hr & _).
  split; [now rewrite Hm | exact Hr].
Defined.





(* ===================================================================== *)
(** * The identity service and the trust tool *)
(* ===================================================================== *)

(** X23. A presentation that is a dict verifies exactly when it has the
    keys credentials, proof and challenge; what the keys hold is not
    looked at.  None, a bool and a number do not verify. *)
Theorem presentation_keys_only :
  (forall d, Identity.verify_credential_presentation (VDict d)
             = dict_mem "credentials" d && dict_mem "proof" d && dict_mem "challenge" d)
  /\ (forall d d', keys d = keys d' ->
        Identity.verify_credential_presentation (VDict d)
        = Identity.verify_credential_presentation (VDict d'))
  /\ (forall v, py_num v <> None \/ v = VNone ->
        Identity.verify_credential_presentation v = false).
Proof.
  assert (H1 : forall d, Identity.verify_credential_presentation (VDict d)
             = dict_mem "credentials" d && dict_mem "proof" d && dict_mem "challenge" d).
  { intros d. unfold Identity.verify_credential_presentation. simpl.
    destruct (dict_mem "credentials" d), (dict_mem "proof" d), (dict_mem "challenge" d);
      reflexivity. }
  assert (Hmem : forall (d d' : dict pyval) k, keys d = keys d' -> dict_mem k d = dict_mem k d').
  { intros d d' k Hk.
    destruct (dict_mem k d) eqn:Hd; destruct (dict_mem k d') eqn:Hd'; try reflexivity.
    - apply dict_mem_In in Hd. rewrite Hk in Hd. apply dict_mem_In in Hd. congruence.
    - apply dict_mem_In in Hd'. rewrite <- Hk in Hd'. apply dict_mem_In in Hd'. congruence. }
  split; [exact H1|]. split.
  - intros d d' Hk. rewrite !H1. now rewrite !(Hmem d d' _ Hk).
  - intros v [Hv | ->]; [|reflexivity].
    destruct v; try reflexivity; simpl in Hv; congruence.
Qed.

(** X24. Whenever the mock verification returns, is_valid tells whether
    the credentialSubject and the issuer of the credential are both truthy,
    the details carry the key "error" exactly when it is false ("Missing
    issuer" taking precedence), and a credential found valid has a non-empty
    mapping as credentialSubject.  A credentialSubject that is present and
    is not a dict makes the verification raise an AttributeError. *)
Theorem mock_verification env credential :
  (forall v,
     Identity._mock_credential_verification env credential = Identity.Returns v ->
     let subject_ok := truthy (dict_get credential "credentialSubject" VNone) in
     let issuer_ok := truthy (dict_get credential "issuer" VNone) in
     Identity.CredentialVerification.is_valid v = subject_ok && issuer_ok
     /\ dict_lookup "error" (Identity.CredentialVerification.details v)
        = (if issuer_ok
           then if subject_ok then None else Some (VStr "Missing credentialSubject")
           else Some (VStr "Missing issuer"))
     /\ (Identity.CredentialVerification.is_valid v = true ->
         exists k x claims,
           dict_lookup "credentialSubject" credential = Some (VDict ((k, x) :: claims))))
  /\ (forall x, dict_lookup "credentialSubject" credential = Some x ->
        is_dict x = false ->
        Identity._mock_credential_verification env credential
        = Identity.Fails Identity.AttributeError).
Proof.
  split.
  - intros v. unfold Identity._mock_credential_verification, dict_get.
    destruct (dict_lookup "credentialSubject" credential) as [cs|] eqn:Hcs;
      destruct (dict_lookup "issuer" credential) as [issuer|] eqn:Hiss;
      cbn [Identity.subject_id].
    + destruct (is_dict cs) eqn:Hd.
      * destruct cs as [| | | | | | |cs]; try discriminate Hd.
        cbn [Identity.subject_id].
        destruct (truthy (VDict cs)) eqn:Hcst; destruct (truthy issuer) eqn:Hti;
          cbn [negb];
          repeat (destruct (Identity.validate_str env _); [|discriminate]);
          intros [= <-]; cbn; repeat split; try discriminate.
        destruct cs as [|[k x] cs]; [discriminate Hcst | eauto].
      * destruct cs; try discriminate Hd;
          repeat match goal with
          | |- context [if ?b then _ else _] => destruct b
          end; discriminate.
    + destruct (is_dict cs) eqn:Hd.
      * destruct cs as [| | | | | | |cs]; try discriminate Hd.
        cbn [Identity.subject_id].
        destruct (truthy (VDict cs)) eqn:Hcst; cbn [negb truthy];
          repeat (destruct (Identity.validate_str env _); [|discriminate]);
          intros [= <-]; cbn; repeat split; discriminate.
      * destruct cs; try discriminate Hd;
          repeat match goal with
          | |- context [if ?b then _ else _] => destruct b
          end; discriminate.
    + destruct (truthy issuer) eqn:Hti; cbn [negb truthy];
        repeat (destruct (Identity.validate_str env _); [|discriminate]);
        intros [= <-]; cbn; repeat split; discriminate.
    + cbn [negb truthy];
        repeat (destruct (Identity.validate_str env _); [|discriminate]);
        intros [= <-]; cbn; repeat split; discriminate.
  - intros x Hx Hnd. unfold Identity._mock_credential_verification.
    unfold dict_get at 3. rewrite Hx.
    destruct x; try discriminate Hnd; simpl;
      repeat match goal with
      | |- context [if ?b then _ else _] => destruct b
      end; reflexivity.
Qed.

Lemma mock_verification_witness :
  Identity._mock_credential_verification MoreSamples.identity_env
    [("issuer", VStr "GLEIF"); ("credentialSubject", VStr "did:example:1")]
  = Identity.Fails Identity.AttributeError.
Proof.
  exact (proj2 (mock_verification MoreSamples.identity_env
                  [("issuer", VStr "GLEIF"); ("credentialSubject", VStr "did:example:1")])
           (VStr "did:example:1") eq_refl eq_refl).
Defined.

(** X25. The trust verification tool of the LangChain agents does not
    consult the trust service: for two registered agents it answers
    allowed true with score 0.85, also for a pair that [verify_trust]
    rejects because an agent is not verified. *)
Theorem tool_ignores_trust_service agents_db source_agent_id target_agent_id
    source target trust_service now :
  dict_lookup source_agent_id agents_db = Some source ->
  dict_lookup target_agent_id agents_db = Some target ->
  Tools._run agents_db source_agent_id target_agent_id
  = Web.JsonOf [("allowed", VBool true); ("score", VFloat Tools.score_085);
                ("reason", VStr "Mock trust verification passed")]
  /\ (Agent.credential_verified source = false
      \/ Agent.credential_verified target = false ->
      TrustVerificationResult.allowed
        (fst (verify_trust trust_service now source target)) = false).
Proof.
  intros Hs Ht. split.
  - unfold Tools._run, dict_mem. now rewrite Hs, Ht.
  - intros H. unfold verify_trust.
    assert (Hgate : negb (Agent.credential_verified source)
                    || negb (Agent.credential_verified target) = true).
    { destruct H as [-> | ->]; simpl; [reflexivity | apply orb_true_r]. }
    now rewrite Hgate.
Qed.

Lemma tool_ignores_trust_service_witness :
  Tools._run (Main.agents_db MoreSamples.app) "U" "B"
  = Web.JsonOf [("allowed", VBool true); ("score", VFloat Tools.score_085);
                ("reason", VStr "Mock trust verification passed")]
  /\ TrustVerificationResult.allowed
       (fst (verify_trust Samples.service 7%Z Samples.unverified Samples.agent_b)) = false.
Proof.
  destruct (tool_ignores_trust_service (Main.agents_db MoreSamples.app) "U" "B"
              Samples.unverified Samples.agent_b Samples.service 7%Z eq_refl eq_refl)
    as [Hrun Hservice].
  split; [exact Hrun | apply Hservice; now left].
Defined.
